(** * AgentShield: payment-header codec, signer, probe and validation pipeline

    A shallow embedding of the Python sources

    - [agentshield/facilitators/cronos_facilitator.py] (signer and codec),
    - [agentshield/facilitators/__init__.py] (the safe facade),
    - [agentshield/simulator.py] (the swap / honeypot probe),
    - [agentshield-api/main.py] (the [/validate-token] and
      [/x402/generate-header] endpoints),
    - [agentshield/integrations/crypto_com_agent.py] (the command parser and
      the staged pipeline),

    together with the properties the specification states about them and
    further properties read off the code.

    Python values are modelled as follows.  A [str] is a list of Unicode code
    points ([N]); [bytes] is a list of octets ([N] below 256); an [int] is a
    [Z]; a [dict] is an insertion-ordered association list, which is what
    [json.dumps] observes; a raised exception is the [Raise] constructor of
    [result].  The standard-library functions the sources call
    ([base64.b64encode], [base64.b64decode], [str.encode], [bytes.decode],
    [json.dumps], [json.loads], [re.search] on the two patterns of the
    command parser) are modelled after CPython's behaviour; the
    cryptographic collaborators ([eth_account], [web3]) and the policy engine
    are parameters.

    Left out of the model: the value of a float (a float read by [json.loads]
    is kept as its numeral), case mapping and the classes [\d], [\w] and
    [\s] outside ASCII, and everything the sources only print.  The
    interpreter's limits on recursion depth and on the number of digits
    converted between [int] and [str] are left out of [Json.dumps] and
    [Json.loads], which are the two functions on text that reaches neither;
    [Json.loads_in] has them. *)

From Stdlib Require Import ZArith NArith List Lia String Ascii Bool.
From stdpp Require Import gmap.

(* ===================================================================== *)
(** * Python basics *)
(* ===================================================================== *)

Module Py.

(** A [str] is a sequence of code points, [bytes] a sequence of octets. *)
Definition str := list N.
Definition bytes := list N.

(** Text in which every character is ASCII. *)
Definition ascii_text (s : str) : Prop := Forall (fun c => c < 128)%N s.

(** [lit "abc"] is the Python literal ['abc']. *)
Definition lit (s : string) : str := map N_of_ascii (list_ascii_of_string s).

(** Exception classes that the modelled code can raise. *)
Inductive exn_class :=
  | BinasciiError
  | ValueError
  | UnicodeDecodeError
  | UnicodeEncodeError
  | JSONDecodeError
  | RecursionError
  | UnboundLocalError
  | AttributeError
  | KeyError
  | OtherError (name : str).

(** An exception: its class and [str(e)]. *)
Record exn := Exn { exn_cls : exn_class; exn_msg : str }.

Inductive result (A : Type) :=
  | Ok (a : A)
  | Raise (e : exn).
Arguments Ok {A} a.
Arguments Raise {A} e.

#[export] Instance result_ret : MRet result := fun A a => Ok a.
#[export] Instance result_bind : MBind result := fun A B f m =>
  match m with Ok a => f a | Raise e => Raise e end.
#[export] Instance result_fmap : FMap result := fun A B f m =>
  match m with Ok a => Ok (f a) | Raise e => Raise e end.

Definition raise {A} (c : exn_class) (msg : string) : result A :=
  Raise (Exn c (lit msg)).

(** Python values that occur in the dictionaries of the sources.  A float is
    kept as the numeral it was read from: no source function computes with
    one. *)
#[warnings="-register-all"]
Inductive value :=
  | VNone
  | VBool (b : bool)
  | VInt (z : Z)
  | VFloat (numeral : str)
  | VStr (s : str)
  | VList (l : list value)
  | VDict (d : list (str * value)).

Definition dict := list (str * value).

Definition str_eqb (a b : str) : bool := bool_decide (a = b).

(** Lookup in a table keyed by strings. *)
Fixpoint assoc {A} (k : str) (l : list (str * A)) : option A :=
  match l with
  | [] => None
  | (k', a) :: l' => if str_eqb k' k then Some a else assoc k l'
  end.

(** [d.get(k)]: [None] when the key is absent. *)
Fixpoint dict_get (d : dict) (k : str) : option value :=
  match d with
  | [] => None
  | (k', v) :: d' => if str_eqb k' k then Some v else dict_get d' k
  end.

(** [d[k] = v]: an existing key keeps its position, a new one goes last. *)
Fixpoint dict_set (d : dict) (k : str) (v : value) : dict :=
  match d with
  | [] => [(k, v)]
  | (k', v') :: d' =>
      if str_eqb k' k then (k', v) :: d' else (k', v') :: dict_set d' k v
  end.

(** [d.update(e)] inserts the items of [e] in order. *)
Definition dict_update (d e : dict) : dict :=
  fold_left (fun acc kv => dict_set acc kv.1 kv.2) e d.

(** [d.get(k, dflt)]. *)
Definition dict_get_default (d : dict) (k : str) (dflt : value) : value :=
  default dflt (dict_get d k).

(** Truth value testing ([bool(v)]). *)
Definition truthy (v : value) : bool :=
  match v with
  | VNone => false
  | VBool b => b
  | VInt z => negb (z =? 0)%Z
  | VFloat _ => true
  | VStr s => negb (bool_decide (s = []))
  | VList l => negb (bool_decide (length l = 0))
  | VDict d => negb (bool_decide (length d = 0))
  end.

(** [str.lower()] on the ASCII range; the addresses the sources lower-case
    are hexadecimal text.  Code points outside ASCII are left as they are. *)
Definition lower_char (c : N) : N :=
  if ((65 <=? c) && (c <=? 90))%N then (c + 32)%N else c.
Definition lower (s : str) : str := map lower_char s.

Definition startswith (s p : str) : bool := bool_decide (take (length p) s = p).

(** [x in l] for a list of strings. *)
Definition str_in (x : str) (l : list str) : bool := bool_decide (x ∈ l).

(** [v == s] for a string [s]. *)
Definition is_str (v : value) (s : str) : bool :=
  match v with
  | VStr t => str_eqb t s
  | _ => false
  end.

(** [str.upper()] on the ASCII range. *)
Definition upper_char (c : N) : N :=
  if ((97 <=? c) && (c <=? 122))%N then (c - 32)%N else c.
Definition upper (s : str) : str := map upper_char s.

(** [p in s] for strings: [p] occurs in [s] as a contiguous run. *)
Fixpoint contains (s p : str) : bool :=
  startswith s p ||
  match s with
  | [] => false
  | _ :: s' => contains s' p
  end.

(** [type(e).__name__] *)
Definition class_name (c : exn_class) : str :=
  match c with
  | BinasciiError => lit "Error"
  | ValueError => lit "ValueError"
  | UnicodeDecodeError => lit "UnicodeDecodeError"
  | UnicodeEncodeError => lit "UnicodeEncodeError"
  | JSONDecodeError => lit "JSONDecodeError"
  | RecursionError => lit "RecursionError"
  | UnboundLocalError => lit "UnboundLocalError"
  | AttributeError => lit "AttributeError"
  | KeyError => lit "KeyError"
  | OtherError name => name
  end.

End Py.
Export Py.

(* ===================================================================== *)
(** * [base64]: [b64encode] and [b64decode] *)
(* ===================================================================== *)

Module Base64.
Local Open Scope N_scope.

(** The alphabet: sextet to character. *)
Definition table_b2a (i : N) : N :=
  if i <? 26 then 65 + i
  else if i <? 52 then 97 + (i - 26)
  else if i <? 62 then 48 + (i - 52)
  else if i =? 62 then 43
  else 47.

(** Character to sextet; [None] for a character outside the alphabet. *)
Definition table_a2b (c : N) : option N :=
  if (65 <=? c) && (c <=? 90) then Some (c - 65)
  else if (97 <=? c) && (c <=? 122) then Some (c - 97 + 26)
  else if (48 <=? c) && (c <=? 57) then Some (c - 48 + 52)
  else if c =? 43 then Some 62
  else if c =? 47 then Some 63
  else None.

Local Notation "'PAD'" := 61 (only parsing).

(** [binascii.b2a_base64(data, newline=False)]: three octets become four
    characters; a tail of one or two octets is padded with ['=']. *)
Fixpoint b2a_base64 (data : bytes) : bytes :=
  match data with
  | [] => []
  | [a] =>
      [table_b2a (N.shiftr a 2); table_b2a (N.shiftl (N.land a 3) 4); PAD; PAD]
  | [a; b] =>
      [table_b2a (N.shiftr a 2);
       table_b2a (N.lor (N.shiftl (N.land a 3) 4) (N.shiftr b 4));
       table_b2a (N.shiftl (N.land b 15) 2); PAD]
  | a :: b :: c :: rest =>
      table_b2a (N.shiftr a 2)
      :: table_b2a (N.lor (N.shiftl (N.land a 3) 4) (N.shiftr b 4))
      :: table_b2a (N.lor (N.shiftl (N.land b 15) 2) (N.shiftr c 6))
      :: table_b2a (N.land c 63)
      :: b2a_base64 rest
  end.

(** [binascii.a2b_base64(data)] in its default, non-strict mode: characters
    outside the alphabet are skipped, a complete pad sequence ends the
    input, and leftover sextets are an error. *)
Fixpoint a2b_loop (quad_pos leftchar pads : N) (s : bytes) : result bytes :=
  match s with
  | [] =>
      if quad_pos =? 0 then Ok []
      else if quad_pos =? 1 then
        raise BinasciiError "Invalid base64-encoded string"
      else raise BinasciiError "Incorrect padding"
  | this_ch :: rest =>
      if this_ch =? PAD then
        if (2 <=? quad_pos) && (4 <=? quad_pos + (pads + 1)) then Ok []
        else a2b_loop quad_pos leftchar
               (if 2 <=? quad_pos then pads + 1 else pads) rest
      else
        match table_a2b this_ch with
        | None => a2b_loop quad_pos leftchar pads rest
        | Some v =>
            if quad_pos =? 0 then a2b_loop 1 v 0 rest
            else if quad_pos =? 1 then
              cons (N.lor (N.shiftl leftchar 2) (N.shiftr v 4))
                <$> a2b_loop 2 (N.land v 15) 0 rest
            else if quad_pos =? 2 then
              cons (N.lor (N.shiftl leftchar 4) (N.shiftr v 2))
                <$> a2b_loop 3 (N.land v 3) 0 rest
            else
              cons (N.lor (N.shiftl leftchar 6) v) <$> a2b_loop 0 0 0 rest
        end
  end.

Definition a2b_base64 (s : bytes) : result bytes := a2b_loop 0 0 0 s.

(** [s.encode('ascii')] as [base64] applies it to a [str] argument. *)
Definition ascii_encode (s : str) : result bytes :=
  if forallb (fun c => c <? 128) s then Ok s
  else raise ValueError "string argument should contain only ASCII characters".

Definition b64encode (data : bytes) : bytes := b2a_base64 data.

Definition b64decode (s : str) : result bytes :=
  b ← ascii_encode s; a2b_base64 b.

(** The sextets of a group of octets, and the arithmetic facts about them
    that the decoder relies on, as a check that can be run on every pair of
    octets. *)
Definition s1 (a : N) := N.shiftr a 2.
Definition s2 (a b : N) := N.lor (N.shiftl (N.land a 3) 4) (N.shiftr b 4).
Definition s3 (b c : N) := N.lor (N.shiftl (N.land b 15) 2) (N.shiftr c 6).
Definition s4 (c : N) := N.land c 63.
Definition t2 (a : N) := N.shiftl (N.land a 3) 4.
Definition t3 (b : N) := N.shiftl (N.land b 15) 2.

Definition octet_check (a b : N) : bool :=
  (s1 a <? 64) && (s2 a b <? 64) && (s3 a b <? 64) && (s4 a <? 64)
  && (t2 a <? 64) && (t3 a <? 64)
  && (N.lor (N.shiftl (s1 a) 2) (N.shiftr (s2 a b) 4) =? a)
  && (N.land (s2 a b) 15 =? N.shiftr b 4)
  && (N.lor (N.shiftl (N.shiftr a 4) 4) (N.shiftr (s3 a b) 2) =? a)
  && (N.land (s3 a b) 3 =? N.shiftr b 6)
  && (N.lor (N.shiftl (N.shiftr a 6) 6) (s4 a) =? a)
  && (N.lor (N.shiftl (s1 a) 2) (N.shiftr (t2 a) 4) =? a)
  && (N.lor (N.shiftl (N.shiftr a 4) 4) (N.shiftr (t3 a) 2) =? a).

(** A sequence of octets: every element is below 256. *)
Definition octets (data : bytes) : Prop := Forall (fun b => b < 256) data.

(** A character that [b64encode] can write: a letter of the alphabet, or
    the pad character. *)
Definition alphabet (c : N) : bool :=
  match table_a2b c with
  | Some _ => true
  | None => c =? 61
  end.

End Base64.

(* ===================================================================== *)
(** * UTF-8: [str.encode()] and [bytes.decode()] *)
(* ===================================================================== *)

Module Utf8.
Local Open Scope N_scope.

Definition is_surrogate (c : N) : bool := (0xD800 <=? c) && (c <=? 0xDFFF).

(** A Unicode scalar value: a code point that is not a surrogate. *)
Definition is_scalar (c : N) : bool := (c <? 0x110000) && negb (is_surrogate c).

Definition encode_char (c : N) : result bytes :=
  if c <? 0x80 then Ok [c]
  else if c <? 0x800 then
    Ok [N.lor 0xC0 (N.shiftr c 6); N.lor 0x80 (N.land c 0x3F)]
  else if is_surrogate c then raise UnicodeEncodeError "surrogates not allowed"
  else if c <? 0x10000 then
    Ok [N.lor 0xE0 (N.shiftr c 12);
        N.lor 0x80 (N.land (N.shiftr c 6) 0x3F);
        N.lor 0x80 (N.land c 0x3F)]
  else
    Ok [N.lor 0xF0 (N.shiftr c 18);
        N.lor 0x80 (N.land (N.shiftr c 12) 0x3F);
        N.lor 0x80 (N.land (N.shiftr c 6) 0x3F);
        N.lor 0x80 (N.land c 0x3F)].

(** [s.encode()] *)
Fixpoint encode (s : str) : result bytes :=
  match s with
  | [] => Ok []
  | c :: rest => b ← encode_char c; r ← encode rest; Ok (b ++ r)
  end.

Definition in_range (lo hi b : N) : bool := (lo <=? b) && (b <=? hi).
Definition cont (b : N) : N := N.land b 0x3F.

Definition invalid {A} : result A :=
  raise UnicodeDecodeError "'utf-8' codec can't decode bytes".

(** [b.decode()]: strict UTF-8, rejecting overlong forms, surrogates and
    values above U+10FFFF. *)
Fixpoint decode (b : bytes) : result str :=
  match b with
  | [] => Ok []
  | b0 :: r0 =>
      if b0 <? 0x80 then cons b0 <$> decode r0
      else if in_range 0xC2 0xDF b0 then
        match r0 with
        | b1 :: r1 =>
            if in_range 0x80 0xBF b1
            then cons (N.lor (N.shiftl (N.land b0 0x1F) 6) (cont b1)) <$> decode r1
            else invalid
        | _ => invalid
        end
      else if in_range 0xE0 0xEF b0 then
        match r0 with
        | b1 :: b2 :: r2 =>
            if in_range (if b0 =? 0xE0 then 0xA0 else 0x80)
                        (if b0 =? 0xED then 0x9F else 0xBF) b1
               && in_range 0x80 0xBF b2
            then cons (N.lor (N.shiftl (N.land b0 0x0F) 12)
                        (N.lor (N.shiftl (cont b1) 6) (cont b2))) <$> decode r2
            else invalid
        | _ => invalid
        end
      else if in_range 0xF0 0xF4 b0 then
        match r0 with
        | b1 :: b2 :: b3 :: r3 =>
            if in_range (if b0 =? 0xF0 then 0x90 else 0x80)
                        (if b0 =? 0xF4 then 0x8F else 0xBF) b1
               && in_range 0x80 0xBF b2 && in_range 0x80 0xBF b3
            then cons (N.lor (N.shiftl (N.land b0 0x07) 18)
                        (N.lor (N.shiftl (cont b1) 12)
                           (N.lor (N.shiftl (cont b2) 6) (cont b3))))
                   <$> decode r3
            else invalid
        | _ => invalid
        end
      else invalid
  end.

End Utf8.

(* ===================================================================== *)
(** * [json]: [dumps] and [loads] *)
(* ===================================================================== *)

Module Json.
Local Open Scope N_scope.

(** ** [json.dumps] with its default arguments
    ([ensure_ascii=True], separators [", "] and [": "]). *)

Definition hex_digit (d : N) : N := if d <? 10 then 48 + d else 87 + d.

(** The six characters [\uXXXX] (lower-case digits). *)
Definition u_escape (c : N) : str :=
  [92; 117;
   hex_digit (N.land (N.shiftr c 12) 15); hex_digit (N.land (N.shiftr c 8) 15);
   hex_digit (N.land (N.shiftr c 4) 15); hex_digit (N.land c 15)].

Definition high_surrogate (c : N) : N := 0xD800 - 0x40 + N.shiftr c 10.
Definition low_surrogate (c : N) : N := 0xDC00 + N.land c 0x3FF.

Definition escape_char (c : N) : str :=
  if c =? 34 then [92; 34]
  else if c =? 92 then [92; 92]
  else if c =? 10 then [92; 110]
  else if c =? 13 then [92; 114]
  else if c =? 9 then [92; 116]
  else if c =? 12 then [92; 102]
  else if c =? 8 then [92; 98]
  else if (32 <=? c) && (c <=? 126) then [c]
  else if c <? 0x10000 then u_escape c
  else u_escape (high_surrogate c) ++ u_escape (low_surrogate c).

Definition dumps_str (s : str) : str :=
  34 :: flat_map escape_char s ++ [34].

(** Decimal digits of a natural number, most significant first. *)
Fixpoint digits_fuel (fuel : nat) (n : N) : str :=
  match fuel with
  | O => []
  | S f => (if n <? 10 then [] else digits_fuel f (n / 10)) ++ [48 + n mod 10]
  end.
Definition digits (n : N) : str := digits_fuel (S (N.to_nat (N.size n))) n.

(** [repr] of an [int]. *)
Definition repr_int (z : Z) : str :=
  if (z <? 0)%Z then 45 :: digits (Z.abs_N z) else digits (Z.abs_N z).

Fixpoint join (sep : str) (l : list str) : str :=
  match l with
  | [] => []
  | [x] => x
  | x :: r => x ++ sep ++ join sep r
  end.

Fixpoint dumps (v : value) : str :=
  match v with
  | VNone => lit "null"
  | VBool true => lit "true"
  | VBool false => lit "false"
  | VInt z => repr_int z
  | VFloat numeral => numeral
  | VStr s => dumps_str s
  | VList l => 91 :: join (lit ", ") (List.map dumps l) ++ [93]
  | VDict d =>
      123 :: join (lit ", ")
               (List.map (fun kv => match kv with
                                    | (k, x) => dumps_str k ++ lit ": " ++ dumps x
                                    end) d)
          ++ [125]
  end.

(** The text of one dictionary item, as [dumps] writes it. *)
Definition dumps_item (kv : str * value) : str :=
  match kv with
  | (k, x) => dumps_str k ++ lit ": " ++ dumps x
  end.

(** ** [json.loads] (the C scanner, [strict=True]) *)

(** Outcome of a scanner that is given fuel: [Starved] is the model running
    out of fuel, which [fuel_suffices] below rules out for [loads].  Each
    nesting level costs two units of fuel and at least one character. *)
Inductive scan (A : Type) :=
  | Done (a : A)
  | Fail (e : exn)
  | Starved.
Arguments Done {A} a.
Arguments Fail {A} e.
Arguments Starved {A}.

#[export] Instance scan_bind : MBind scan := fun A B f m =>
  match m with Done a => f a | Fail e => Fail e | Starved => Starved end.

Definition lift {A} (r : result A) : scan A :=
  match r with Ok a => Done a | Raise e => Fail e end.

Definition decode_error {A} (msg : string) : result A := raise JSONDecodeError msg.

Definition is_ws (c : N) : bool :=
  (c =? 32) || (c =? 9) || (c =? 10) || (c =? 13).

Fixpoint skip_ws (s : str) : str :=
  match s with
  | c :: r => if is_ws c then skip_ws r else s
  | [] => []
  end.

Definition is_digit (c : N) : bool := (48 <=? c) && (c <=? 57).

Fixpoint span_digits (s : str) : str * str :=
  match s with
  | c :: r =>
      if is_digit c then let '(d, t) := span_digits r in (c :: d, t) else ([], s)
  | [] => ([], [])
  end.

Definition int_of_digits (ds : str) : N :=
  fold_left (fun acc d => acc * 10 + (d - 48)) ds 0.

Definition hex_val (c : N) : option N :=
  if is_digit c then Some (c - 48)
  else if (97 <=? c) && (c <=? 102) then Some (c - 87)
  else if (65 <=? c) && (c <=? 70) then Some (c - 55)
  else None.

Definition hex4 (a b c d : N) : option N :=
  x ← hex_val a; y ← hex_val b; z ← hex_val c; w ← hex_val d;
  Some (N.lor (N.shiftl (N.lor (N.shiftl (N.lor (N.shiftl x 4) y) 4) z) 4) w).

Definition is_high_surrogate (c : N) : bool := (0xD800 <=? c) && (c <=? 0xDBFF).
Definition is_low_surrogate (c : N) : bool := (0xDC00 <=? c) && (c <=? 0xDFFF).
Definition join_surrogates (hi lo : N) : N :=
  N.lor (N.shiftl (N.land hi 0x3FF) 10) (N.land lo 0x3FF) + 0x10000.

Definition simple_escape (e : N) : option N :=
  if e =? 34 then Some 34
  else if e =? 92 then Some 92
  else if e =? 47 then Some 47
  else if e =? 98 then Some 8
  else if e =? 102 then Some 12
  else if e =? 110 then Some 10
  else if e =? 114 then Some 13
  else if e =? 116 then Some 9
  else None.

Definition push (c : N) (r : result (str * str)) : result (str * str) :=
  '(x, t) ← r; Ok (c :: x, t).

(** [scanstring]: the text after an opening quote, up to the closing one.
    Returns the decoded string and the text after the closing quote. *)
Fixpoint scanstring (s : str) : result (str * str) :=
  match s with
  | [] => decode_error "Unterminated string starting at"
  | c :: r =>
      if c =? 34 then Ok ([], r)
      else if c =? 92 then
        match r with
        | [] => decode_error "Unterminated string starting at"
        | e :: r1 =>
            if e =? 117 then
              match r1 with
              | h1 :: h2 :: h3 :: h4 :: r5 =>
                  match r5 with
                  | [] => decode_error "Invalid \uXXXX escape"
                  | b :: r6 =>
                      match hex4 h1 h2 h3 h4 with
                      | None => decode_error "Invalid \uXXXX escape"
                      | Some c1 =>
                          match r6 with
                          | u :: g1 :: g2 :: g3 :: g4 :: r11 =>
                              match r11 with
                              | [] => push c1 (scanstring r5)
                              | _ :: _ =>
                                  if is_high_surrogate c1 && (b =? 92) && (u =? 117)
                                  then
                                    match hex4 g1 g2 g3 g4 with
                                    | None => decode_error "Invalid \uXXXX escape"
                                    | Some c2 =>
                                        if is_low_surrogate c2
                                        then push (join_surrogates c1 c2) (scanstring r11)
                                        else push c1 (scanstring r5)
                                    end
                                  else push c1 (scanstring r5)
                              end
                          | _ => push c1 (scanstring r5)
                          end
                      end
                  end
              | _ => decode_error "Invalid \uXXXX escape"
              end
            else
              match simple_escape e with
              | Some x => push x (scanstring r1)
              | None => decode_error "Invalid \escape"
              end
        end
      else if c <=? 0x1F then decode_error "Invalid control character at"
      else push c (scanstring r)
  end.

Definition expecting_value {A} : result A := decode_error "Expecting value".

(** The part of [_match_number] after the integer digits [ip]: an optional
    fraction, an optional exponent, and the value that results. *)
Definition number_tail (neg : bool) (ip t : str) : value * str :=
  let '(frac, t1) :=
    match t with
    | p :: d :: t' =>
        if (p =? 46) && is_digit d
        then let '(ds, t'') := span_digits t' in (p :: d :: ds, t'')
        else ([], t)
    | _ => ([], t)
    end in
  let '(ex, t2) :=
    match t1 with
    | e :: t' =>
        if (e =? 101) || (e =? 69) then
          let '(sg, t'') :=
            match t' with
            | sgn :: _ :: _ =>
                if (sgn =? 43) || (sgn =? 45) then ([sgn], tl t') else ([], t')
            | _ => ([], t')
            end in
          let '(ds, t3) := span_digits t'' in
          match ds with
          | [] => ([], t1)
          | _ :: _ => (e :: sg ++ ds, t3)
          end
        else ([], t1)
    | [] => ([], t1)
    end in
  match frac, ex with
  | [], [] =>
      (VInt (if neg then - Z.of_N (int_of_digits ip)
             else Z.of_N (int_of_digits ip))%Z, t2)
  | _, _ => (VFloat ((if neg then [45] else []) ++ ip ++ frac ++ ex), t2)
  end.

(** [_match_number]: an integer, or a float when a fraction or an exponent
    follows. *)
Definition match_number (s : str) : result (value * str) :=
  let '(neg, s1) := match s with
                    | c :: r => if c =? 45 then (true, r) else (false, s)
                    | [] => (false, s)
                    end in
  match s1 with
  | [] => expecting_value
  | c :: r =>
      if (49 <=? c) && (c <=? 57)
      then let '(ds, t) := span_digits r in Ok (number_tail neg (c :: ds) t)
      else if c =? 48 then Ok (number_tail neg [48] r)
      else expecting_value
  end.

(** [strip p s]: the text after the prefix [p] of [s], if [s] starts with it. *)
Fixpoint strip (p s : str) : option str :=
  match p, s with
  | [], _ => Some s
  | a :: p', b :: s' => if a =? b then strip p' s' else None
  | _ :: _, [] => None
  end.

(** The constants [null], [true], [false], [NaN], [Infinity], [-Infinity]. *)
Definition match_constant (s : str) : option (value * str) :=
  match strip (lit "null") s with Some t => Some (VNone, t) | None =>
  match strip (lit "true") s with Some t => Some (VBool true, t) | None =>
  match strip (lit "false") s with Some t => Some (VBool false, t) | None =>
  match strip (lit "NaN") s with Some t => Some (VFloat (lit "NaN"), t) | None =>
  match strip (lit "Infinity") s with Some t => Some (VFloat (lit "Infinity"), t) | None =>
  match strip (lit "-Infinity") s with Some t => Some (VFloat (lit "-Infinity"), t) | None =>
  None end end end end end end.

(** [scan_once], [_parse_object] and [_parse_array].  The two loops carry
    the container built so far. *)
Fixpoint scan_once (fuel : nat) (s : str) {struct fuel} : scan (value * str) :=
  match fuel with
  | O => Starved
  | S f =>
      match s with
      | [] => lift expecting_value
      | c :: r =>
          if c =? 34 then
            '(x, t) ← lift (scanstring r); Done (VStr x, t)
          else if c =? 123 then
            match skip_ws r with
            | c1 :: r1 =>
                if c1 =? 125 then Done (VDict [], r1)
                else parse_pairs f (c1 :: r1) []
            | [] => lift (decode_error
                      "Expecting property name enclosed in double quotes")
            end
          else if c =? 91 then
            match skip_ws r with
            | c1 :: r1 =>
                if c1 =? 93 then Done (VList [], r1)
                else parse_elems f (c1 :: r1) []
            | [] => lift expecting_value
            end
          else
            match match_constant s with
            | Some res => Done res
            | None => lift (match_number s)
            end
      end
  end
with parse_pairs (fuel : nat) (s : str) (acc : dict) {struct fuel}
  : scan (value * str) :=
  match fuel with
  | O => Starved
  | S f =>
      match s with
      | c :: r =>
          if c =? 34 then
            '(key, t) ← lift (scanstring r);
            match skip_ws t with
            | c2 :: t2 =>
                if c2 =? 58 then
                  '(v, t3) ← scan_once f (skip_ws t2);
                  match skip_ws t3 with
                  | c4 :: t4 =>
                      if c4 =? 125 then Done (VDict (dict_set acc key v), t4)
                      else if c4 =? 44
                      then parse_pairs f (skip_ws t4) (dict_set acc key v)
                      else lift (decode_error "Expecting ',' delimiter")
                  | [] => lift (decode_error "Expecting ',' delimiter")
                  end
                else lift (decode_error "Expecting ':' delimiter")
            | [] => lift (decode_error "Expecting ':' delimiter")
            end
          else lift (decode_error
                 "Expecting property name enclosed in double quotes")
      | [] => lift (decode_error
                "Expecting property name enclosed in double quotes")
      end
  end
with parse_elems (fuel : nat) (s : str) (acc : list value) {struct fuel}
  : scan (value * str) :=
  match fuel with
  | O => Starved
  | S f =>
      '(v, t) ← scan_once f s;
      match skip_ws t with
      | c :: t1 =>
          if c =? 93 then Done (VList (acc ++ [v]), t1)
          else if c =? 44 then parse_elems f (skip_ws t1) (acc ++ [v])
          else lift (decode_error "Expecting ',' delimiter")
      | [] => lift (decode_error "Expecting ',' delimiter")
      end
  end.

(** [json.loads(s)] for a [str] argument. *)
Definition loads (s : str) : result value :=
  if startswith s [0xFEFF] then decode_error "Unexpected UTF-8 BOM"
  else
    match scan_once (S (2 * length s)) (skip_ws s) with
    | Done (v, rest) =>
        match skip_ws rest with
        | [] => Ok v
        | _ :: _ => decode_error "Extra data"
        end
    | Fail e => Raise e
    | Starved => raise RecursionError "maximum recursion depth exceeded"
    end.

(** ** [json.loads] under the limits of the interpreter

    CPython bounds two things that [loads] above leaves unbounded: the
    number of digits of an integer literal that [int] converts, and the depth
    of nested calls, of which the scanner spends one for each object or
    array that it enters. *)
Record interpreter := Interpreter {
  (** [sys.get_int_max_str_digits()]: 4300 unless it was changed, 0 for no
      limit *)
  int_max_str_digits : N;
  (** the nested calls that are left when the scanner starts; at most
      [sys.getrecursionlimit()] *)
  recursion_remaining : nat;
}.

(** [PyLong_FromString] refuses a numeral of [n] digits, more than 640, when
    a limit is set and [n] is above it. *)
Definition exceeds_limit (i : interpreter) (n : N) : bool :=
  (640 <? n) && (0 <? int_max_str_digits i) && (int_max_str_digits i <? n).

Definition digits_error (i : interpreter) (n : N) : exn :=
  Exn ValueError
    (lit "Exceeds the limit (" ++ digits (int_max_str_digits i)
     ++ lit " digits) for integer string conversion: value has " ++ digits n
     ++ lit " digits; use sys.set_int_max_str_digits() to increase the limit").

(** [_match_number] with the conversion of an integer literal.  The literal
    is the text that was consumed: the digits, after a sign if there is
    one. *)
Definition match_number_in (i : interpreter) (s : str) : result (value * str) :=
  '(v, t) ← match_number s;
  match v with
  | VInt _ =>
      let n := N.of_nat (length s - length t
                         - (if startswith s [45] then 1 else 0)) in
      if exceeds_limit i n then Raise (digits_error i n) else Ok (v, t)
  | _ => Ok (v, t)
  end.

Definition recursion_error {A} (msg : string) : scan A :=
  lift (raise RecursionError msg).

(** [scan_once], [_parse_object] and [_parse_array]: [depth] is the number
    of nested calls that are left, and entering an object or an array takes
    one. *)
Fixpoint scan_once_in (i : interpreter) (fuel depth : nat) (s : str)
    {struct fuel} : scan (value * str) :=
  match fuel with
  | O => Starved
  | S f =>
      match s with
      | [] => lift expecting_value
      | c :: r =>
          if c =? 34 then
            '(x, t) ← lift (scanstring r); Done (VStr x, t)
          else if c =? 123 then
            match depth with
            | O => recursion_error
                     "maximum recursion depth exceeded while decoding a JSON object from a unicode string"
            | S d =>
                match skip_ws r with
                | c1 :: r1 =>
                    if c1 =? 125 then Done (VDict [], r1)
                    else parse_pairs_in i f d (c1 :: r1) []
                | [] => lift (decode_error
                          "Expecting property name enclosed in double quotes")
                end
            end
          else if c =? 91 then
            match depth with
            | O => recursion_error
                     "maximum recursion depth exceeded while decoding a JSON array from a unicode string"
            | S d =>
                match skip_ws r with
                | c1 :: r1 =>
                    if c1 =? 93 then Done (VList [], r1)
                    else parse_elems_in i f d (c1 :: r1) []
                | [] => lift expecting_value
                end
            end
          else
            match match_constant s with
            | Some res => Done res
            | None => lift (match_number_in i s)
            end
      end
  end
with parse_pairs_in (i : interpreter) (fuel depth : nat) (s : str) (acc : dict)
    {struct fuel} : scan (value * str) :=
  match fuel with
  | O => Starved
  | S f =>
      match s with
      | c :: r =>
          if c =? 34 then
            '(key, t) ← lift (scanstring r);
            match skip_ws t with
            | c2 :: t2 =>
                if c2 =? 58 then
                  '(v, t3) ← scan_once_in i f depth (skip_ws t2);
                  match skip_ws t3 with
                  | c4 :: t4 =>
                      if c4 =? 125 then Done (VDict (dict_set acc key v), t4)
                      else if c4 =? 44
                      then parse_pairs_in i f depth (skip_ws t4)
                             (dict_set acc key v)
                      else lift (decode_error "Expecting ',' delimiter")
                  | [] => lift (decode_error "Expecting ',' delimiter")
                  end
                else lift (decode_error "Expecting ':' delimiter")
            | [] => lift (decode_error "Expecting ':' delimiter")
            end
          else lift (decode_error
                 "Expecting property name enclosed in double quotes")
      | [] => lift (decode_error
                "Expecting property name enclosed in double quotes")
      end
  end
with parse_elems_in (i : interpreter) (fuel depth : nat) (s : str)
    (acc : list value) {struct fuel} : scan (value * str) :=
  match fuel with
  | O => Starved
  | S f =>
      '(v, t) ← scan_once_in i f depth s;
      match skip_ws t with
      | c :: t1 =>
          if c =? 93 then Done (VList (acc ++ [v]), t1)
          else if c =? 44 then parse_elems_in i f depth (skip_ws t1) (acc ++ [v])
          else lift (decode_error "Expecting ',' delimiter")
      | [] => lift (decode_error "Expecting ',' delimiter")
      end
  end.

(** [json.loads(s)] for a [str] argument, in the interpreter [i].  The
    model's own fuel never runs out ([loads_in_failures]). *)
Definition loads_in (i : interpreter) (s : str) : result value :=
  if startswith s [0xFEFF] then decode_error "Unexpected UTF-8 BOM"
  else
    match scan_once_in i (S (2 * length s)) (recursion_remaining i) (skip_ws s) with
    | Done (v, rest) =>
        match skip_ws rest with
        | [] => Ok v
        | _ :: _ => decode_error "Extra data"
        end
    | Fail e => Raise e
    | Starved => raise RecursionError "maximum recursion depth exceeded"
    end.

(** ** Values that survive a round trip *)

(** Values that [dumps] and [loads] carry unchanged: no float, strings made
    of Unicode scalar values, dictionaries with distinct keys. *)
Fixpoint plain (v : value) : bool :=
  match v with
  | VNone | VBool _ | VInt _ => true
  | VFloat _ => false
  | VStr s => forallb Utf8.is_scalar s
  | VList l => forallb plain l
  | VDict d =>
      forallb (fun kv => match kv with
                         | (k, x) => forallb Utf8.is_scalar k && plain x
                         end) d
      && bool_decide (NoDup (List.map fst d))
  end.

(** The number of nodes of a value, counting each container entry: the fuel
    that scanning its text needs. *)
Fixpoint size (v : value) : nat :=
  match v with
  | VList l => S (list_sum (List.map (fun x => S (size x)) l))
  | VDict d =>
      S (list_sum (List.map (fun kv => match kv with
                                       | (_, x) => S (size x)
                                       end) d))
  | _ => 1
  end.

(** A scanner outcome that is not [Starved] and, when it succeeds, leaves
    less text than it was given. *)
Definition consumes {A} (r : scan (A * str)) (s : str) : Prop :=
  match r with
  | Done (_, t) => (length t < length s)%nat
  | Fail _ => True
  | Starved => False
  end.

Definition plain_item (kv : str * value) : bool :=
  match kv with
  | (k, x) => forallb Utf8.is_scalar k && plain x
  end.

Definition size_item (kv : str * value) : nat :=
  match kv with
  | (_, x) => S (size x)
  end.

(** Text before which a numeral ends. *)
Definition stops (rest : str) : bool :=
  match rest with
  | [] => true
  | c :: _ => negb (is_digit c) && negb (c =? 46) && negb (c =? 101) && negb (c =? 69)
  end.

(** What the three scanners do on the text that [dumps] writes, given
    enough fuel. *)
Definition scan_spec (n : nat) : Prop :=
  forall v rest, plain v = true -> (size v <= n)%nat -> stops rest = true ->
    scan_once n (dumps v ++ rest) = Done (v, rest).

Definition elems_spec (n : nat) : Prop :=
  forall l acc rest, l <> [] -> forallb plain l = true ->
    (list_sum (List.map (fun x => S (size x)) l) <= n)%nat ->
    parse_elems n (join (lit ", ") (List.map dumps l) ++ 93 :: rest) acc
    = Done (VList (acc ++ l), rest).

Definition pairs_spec (n : nat) : Prop :=
  forall d acc rest, d <> [] -> forallb plain_item d = true ->
    NoDup (List.map fst (acc ++ d)) ->
    (list_sum (List.map size_item d) <= n)%nat ->
    parse_pairs n (join (lit ", ") (List.map dumps_item d) ++ 125 :: rest) acc
    = Done (VDict (acc ++ d), rest).

(** The exceptions of [loads_in] on a text of [n] characters, with [depth]
    nested calls left: the text is not JSON, or it is long enough to hold a
    numeral above the limit, or a nesting deeper than [depth]. *)
Definition syntax_or_limit (i : interpreter) (depth n : nat) (e : exn) : Prop :=
  exn_cls e = JSONDecodeError
  \/ (exn_cls e = ValueError
      /\ 0 < int_max_str_digits i /\ int_max_str_digits i < N.of_nat n)
  \/ (exn_cls e = RecursionError /\ (depth < n)%nat).

(** A scanner outcome that is not [Starved], that leaves less text than it
    was given when it succeeds, and fails as [syntax_or_limit] says. *)
Definition consumes_in {A} (i : interpreter) (depth : nat) (r : scan (A * str))
    (s : str) : Prop :=
  match r with
  | Done (_, t) => (length t < length s)%nat
  | Fail e => syntax_or_limit i depth (length s) e
  | Starved => False
  end.

(** The scanner with limits against the scanner without: the same value
    and rest, the same exception, or an exception of a limit. *)
Definition agrees {A} (r_in r : scan A) : Prop :=
  match r_in with
  | Done a => r = Done a
  | Fail e => r = Fail e \/ exn_cls e = ValueError \/ exn_cls e = RecursionError
  | Starved => r = Starved
  end.

End Json.

(* ===================================================================== *)
(** * [cronos_facilitator.py]: the signer and the codec *)
(* ===================================================================== *)

Module Cronos.

(** One entry of the [TOKENS] table. *)
Record token_config := TokenConfig {
  tc_address : str;
  tc_name : str;
  tc_version : str;
}.

(** [CronosFacilitator.TOKENS] *)
Definition TOKENS : list (str * list (str * token_config)) :=
  [ (lit "cronos-testnet",
      [ (lit "USDC.e",
          TokenConfig (lit "0xc01efAaF7C5C61bEbFAeb358E1161b537b8bC0e0")
                      (lit "Bridged USDC (Stargate)") (lit "1")) ]);
    (lit "cronos-mainnet",
      [ (lit "USDC.e",
          TokenConfig (lit "0xc21223249CA28397B4B6541dfFaEcC539BfF0141")
                      (lit "Bridged USDC (Stargate)") (lit "1")) ]) ].

(** The instance state set by [__init__]. *)
Record facilitator := Facilitator {
  network : str;
  chain_id : str;
}.

Definition init (network : str) : facilitator :=
  Facilitator network
    (if str_eqb network (lit "cronos-testnet") then lit "338" else lit "25").

(** [bytes.hex()]: two lower-case digits per octet. *)
Definition hex_octet (x : N) : str :=
  [Json.hex_digit (N.land (N.shiftr x 4) 15); Json.hex_digit (N.land x 15)].
Definition hex (b : bytes) : str := flat_map hex_octet b.

(** A lower-case hexadecimal digit. *)
Definition is_lower_hex (c : N) : bool :=
  ((48 <=? c) && (c <=? 57) || (97 <=? c) && (c <=? 102))%N.

(** [generate_nonce]; the argument is the value of [os.urandom(32)]. *)
Definition generate_nonce (urandom32 : bytes) : str := lit "0x" ++ hex urandom32.

(** [_get_token_config]: the first entry of the network's table whose
    address equals [asset] once both are lower-cased. *)
Definition _get_token_config (self : facilitator) (asset : str)
  : option token_config :=
  match assoc (network self) TOKENS with
  | None => None
  | Some tokens =>
      snd <$> List.find
                (fun entry => str_eqb (lower (tc_address entry.2)) (lower asset))
                tokens
  end.

(** [x or y] for an optional string [x]: [None] and [''] are false. *)
Definition or_else (x : option str) (y : str) : str :=
  match x with
  | Some (c :: s) => c :: s
  | _ => y
  end.

(** The domain name and version as resolved by [generate_payment_header]. *)
Definition resolve_domain (self : facilitator) (asset : str)
    (token_name token_version : option str) : str * str :=
  match token_name, token_version with
  | Some n, Some v => (n, v)
  | _, _ =>
      match _get_token_config self asset with
      | Some token_config =>
          (or_else token_name (tc_name token_config),
           or_else token_version (tc_version token_config))
      | None =>
          (or_else token_name (lit "Bridged USDC (Stargate)"),
           or_else token_version (lit "1"))
      end
  end.

(** The EIP-712 domain and the [TransferWithAuthorization] message handed
    to the signing library. *)
Record domain := Domain {
  d_name : str;
  d_version : str;
  d_chainId : Z;
  d_verifyingContract : str;
}.

Record message := Message {
  m_from : str;
  m_to : str;
  m_value : Z;
  m_validAfter : Z;
  m_validBefore : Z;
  m_nonce : str;
}.

(** The collaborators of the signer: [eth_account], [web3] and the builtin
    [int] on text.  [text] holds of a string made of Unicode scalar values;
    the libraries return hexadecimal text, and [int] rejects anything that
    is not a numeral. *)
Definition text (s : str) : Prop := Forall (fun c => Utf8.is_scalar c = true) s.

Class Eth := {
  (** [Account.from_key(key).address] *)
  account_address : str -> result str;
  (** [account.sign_message(encode_typed_data(...)).signature.hex()] *)
  sign_typed_data : str -> domain -> message -> result str;
  (** [Web3.to_checksum_address] *)
  to_checksum_address : str -> result str;
  (** [int(s)] *)
  int_of_str : str -> result Z;
  account_address_text : forall k a, account_address k = Ok a -> text a;
  sign_typed_data_text : forall k d m g, sign_typed_data k d m = Ok g -> text g;
  to_checksum_address_text : forall a c, to_checksum_address a = Ok c -> text c;
  int_of_str_text : forall s z, int_of_str s = Ok z -> text s;
}.

(** What one call reads from the operating system: the clock
    ([int(time.time())]) and the random source ([os.urandom(32)]). *)
Record os := Os {
  time : Z;
  urandom32 : bytes;
}.

(** The dictionary built at the end of [generate_payment_header]. *)
Definition payment_header (network from_address to_address amount : str)
    (valid_after valid_before : Z) (nonce signature asset_address : str) : value :=
  VDict [ (lit "x402Version", VInt 1);
          (lit "scheme", VStr (lit "eip3009"));
          (lit "network", VStr network);
          (lit "payload",
            VDict [ (lit "from", VStr from_address);
                    (lit "to", VStr to_address);
                    (lit "value", VStr amount);
                    (lit "validAfter", VInt valid_after);
                    (lit "validBefore", VInt valid_before);
                    (lit "nonce", VStr nonce);
                    (lit "signature", VStr signature);
                    (lit "asset", VStr asset_address) ]) ].

(** The range of the [uint256] fields of the signed message. *)
Definition uint256 (z : Z) : Prop := (0 <= z < 2 ^ 256)%Z.

(** A well-formed credential: a payment header whose strings are text and
    whose validity bounds are [uint256] values. *)
Inductive well_formed : value -> Prop :=
  | WellFormed network from_address to_address amount valid_after valid_before
      nonce signature asset_address :
      text network -> text from_address -> text to_address -> text amount ->
      text nonce -> text signature -> text asset_address ->
      uint256 valid_after -> uint256 valid_before ->
      well_formed (payment_header network from_address to_address amount
                     valid_after valid_before nonce signature asset_address).

(** [base64.b64encode(json.dumps(h).encode()).decode()] *)
Definition encode_header (h : value) : result str :=
  b ← Utf8.encode (Json.dumps h);
  Utf8.decode (Base64.b64encode b).

(** The steps of [generate_payment_header] up to the dictionary. *)
Definition build_payment_header `{Eth} (self : facilitator) (sys : os)
    (private_key pay_to asset amount : str) (timeout_seconds : Z)
    (token_name token_version : option str) : result value :=
  let private_key :=
    if startswith private_key (lit "0x") then private_key
    else lit "0x" ++ private_key in
  address ← account_address private_key;
  from_address ← to_checksum_address (lower address);
  to_address ← to_checksum_address (lower pay_to);
  asset_address ← to_checksum_address (lower asset);
  let nonce := generate_nonce (urandom32 sys) in
  let valid_after := 0%Z in
  let valid_before := (time sys + timeout_seconds)%Z in
  let '(token_name, token_version) :=
    resolve_domain self asset token_name token_version in
  chain ← int_of_str (chain_id self);
  let domain := Domain token_name token_version chain asset_address in
  value ← int_of_str amount;
  let message :=
    Message from_address to_address value valid_after valid_before nonce in
  signature ← sign_typed_data private_key domain message;
  let signature :=
    if startswith signature (lit "0x") then signature
    else lit "0x" ++ signature in
  Ok (payment_header (network self) from_address to_address amount
        valid_after valid_before nonce signature asset_address).

(** [generate_payment_header] *)
Definition generate_payment_header `{Eth} (self : facilitator) (sys : os)
    (private_key pay_to asset amount : str) (timeout_seconds : Z)
    (token_name token_version : option str) : result str :=
  h ← build_payment_header self sys private_key pay_to asset amount
        timeout_seconds token_name token_version;
  encode_header h.

(** [decode_payment_header], in an interpreter whose limits the text does
    not reach ([decode_payment_header_in] has the limits). *)
Definition decode_payment_header (header_b64 : str) : result value :=
  b ← Base64.b64decode header_b64;
  header_json ← Utf8.decode b;
  Json.loads header_json.

(** [decode_payment_header] in the interpreter [i]. *)
Definition decode_payment_header_in (i : Json.interpreter) (header_b64 : str)
  : result value :=
  b ← Base64.b64decode header_b64;
  header_json ← Utf8.decode b;
  Json.loads_in i header_json.

(** Field access on a decoded header: [h[k]] and [h["payload"][k]]. *)
Definition field (h : value) (k : string) : option value :=
  match h with
  | VDict d => dict_get d (lit k)
  | _ => None
  end.

Definition payload_field (h : value) (k : string) : option value :=
  p ← field h "payload"; field p k.

End Cronos.

(** The module-level function of [cronos_facilitator.py]. *)
Module Quick.

Definition generate_payment_header `{Cronos.Eth} (sys : Cronos.os)
    (private_key pay_to asset amount network : str) (timeout_seconds : Z)
  : result str :=
  let facilitator := Cronos.init network in
  Cronos.generate_payment_header facilitator sys private_key pay_to asset amount
    timeout_seconds None None.

End Quick.

(* ===================================================================== *)
(** * [facilitators/__init__.py]: the safe facade *)
(* ===================================================================== *)

Module Facade.

(** Dictionaries passed by reference live in a store; a [context] argument
    is a reference into it (or [None]). *)
Local Notation "'loc'" := positive (only parsing).
Local Notation "'heap'" := (gmap positive dict) (only parsing).

(** The policy engine ([PolicyEngine.validate_transaction]) is a
    collaborator: it receives [to], [value], [data] and the reference to the
    context, may read and write the store, and returns its result
    dictionary or raises. *)
Definition engine := str -> str -> str -> loc -> heap -> heap * result dict.

Record SafeFacilitator := {
  policy_engine : engine;
  facilitator : Cronos.facilitator;
  private_key : str;
  network : str;
  enable_llm_judge : bool;
  enable_simulation : bool;
}.

(** The items written into the context by [context.update({...})]. *)
Definition context_items (self : SafeFacilitator) (pay_to asset amount : str)
  : dict :=
  [ (lit "payment_type", VStr (lit "x402"));
    (lit "recipient", VStr pay_to);
    (lit "token", VStr asset);
    (lit "amount", VStr amount);
    (lit "network", VStr (network self)) ].

(** [self.facilitator._get_account_address]: [CronosFacilitator] defines no
    such attribute, so evaluating the expression raises. *)
Definition _get_account_address (f : Cronos.facilitator) (key : str)
  : result str :=
  raise AttributeError
    "'CronosFacilitator' object has no attribute '_get_account_address'".

(** The [return] of the rejected branch. *)
Definition rejected (validation_result : dict) : dict :=
  [ (lit "approved", VBool false);
    (lit "reason",
      dict_get_default validation_result (lit "reason")
        (VStr (lit "Validation failed")));
    (lit "validation", VDict validation_result);
    (lit "stages",
      dict_get_default validation_result (lit "stages") (VDict [])) ].

(** The body of the [try] block. *)
Definition signed `{Cronos.Eth} (self : SafeFacilitator) (sys : Cronos.os)
    (pay_to asset amount : str) (timeout_seconds : Z)
    (validation_result : dict) : result dict :=
  payment_header ←
    Cronos.generate_payment_header (facilitator self) sys (private_key self)
      pay_to asset amount timeout_seconds None None;
  let stages := dict_get_default validation_result (lit "stages") (VDict []) in
  from ← _get_account_address (facilitator self) (private_key self);
  Ok [ (lit "approved", VBool true);
       (lit "payment_header", VStr payment_header);
       (lit "validation", VDict validation_result);
       (lit "stages", stages);
       (lit "metadata",
         VDict [ (lit "from", VStr from);
                 (lit "to", VStr pay_to);
                 (lit "asset", VStr asset);
                 (lit "amount", VStr amount);
                 (lit "network", VStr (network self));
                 (lit "valid_for_seconds", VInt timeout_seconds) ]) ].

(** The [return] of the [except Exception as e] handler. *)
Definition signing_failed (validation_result : dict) (e : exn) : dict :=
  [ (lit "approved", VBool false);
    (lit "reason",
      VStr (lit "Failed to generate payment header: " ++ exn_msg e));
    (lit "validation", VDict validation_result);
    (lit "stages",
      dict_get_default validation_result (lit "stages") (VDict []));
    (lit "error", VStr (exn_msg e)) ].

(** The first statements of [generate_safe_payment_header]: a missing
    context becomes a new empty dictionary, and the context is updated in
    place.  Returns the reference and the store. *)
Definition prepare_context (self : SafeFacilitator) (pay_to asset amount : str)
    (context : option loc) (h : heap) : loc * heap :=
  let '(context, h) :=
    match context with
    | None => let l := fresh (dom h) in (l, <[l := []]> h)
    | Some l => (l, h)
    end in
  (context,
   alter (fun d => dict_update d (context_items self pay_to asset amount))
     context h).

(** [generate_safe_payment_header].  The result is the store after the call
    and what the call returns (or the exception of the policy engine, which
    is not caught). *)
Definition generate_safe_payment_header `{Cronos.Eth} (self : SafeFacilitator)
    (sys : Cronos.os) (pay_to asset amount : str) (context : option loc)
    (timeout_seconds : Z) (h : heap) : heap * result dict :=
  let '(context, h) := prepare_context self pay_to asset amount context h in
  let '(h, validation) :=
    policy_engine self pay_to amount (lit "0x") context h in
  match validation with
  | Raise e => (h, Raise e)
  | Ok validation_result =>
      if negb (truthy (dict_get_default validation_result (lit "approved")
                         (VBool false)))
      then (h, Ok (rejected validation_result))
      else
        match signed self sys pay_to asset amount timeout_seconds
                validation_result with
        | Ok r => (h, Ok r)
        | Raise e => (h, Ok (signing_failed validation_result e))
        end
  end.

(** [generate_unsafe_payment_header] *)
Definition generate_unsafe_payment_header `{Cronos.Eth} (self : SafeFacilitator)
    (sys : Cronos.os) (pay_to asset amount : str) (timeout_seconds : Z)
  : result str :=
  Cronos.generate_payment_header (facilitator self) sys (private_key self)
    pay_to asset amount timeout_seconds None None.

(** [SafeFacilitator.__init__]; the policy engine is the object that
    [PolicyEngine(policy_path)] returns. *)
Definition init (policy_engine : engine) (private_key network : str)
    (enable_llm_judge enable_simulation : bool) : SafeFacilitator :=
  {| policy_engine := policy_engine;
     facilitator := Cronos.init network;
     private_key := private_key;
     network := network;
     enable_llm_judge := enable_llm_judge;
     enable_simulation := enable_simulation |}.

End Facade.

(* ===================================================================== *)
(** * [simulator.py]: the swap / honeypot probe *)
(* ===================================================================== *)

Module Simulator.

(** What the chain answers through [web3] for one RPC endpoint. *)
Record rpc := Rpc {
  (** [Web3(Web3.HTTPProvider(rpc_url)).is_connected()] *)
  is_connected : result bool;
  (** [Web3.to_checksum_address] *)
  to_checksum_address : str -> result str;
  (** [w3.eth.get_code] *)
  get_code : str -> result bytes;
  (** [contract.functions.name().call()] and its siblings *)
  call_name : str -> result str;
  call_symbol : str -> result str;
  call_totalSupply : str -> result Z;
}.

(** Reading a local variable that no assignment has reached (the message
    is the wording of CPython 3.11 and later). *)
Definition read_local {A} (name : string) (x : option A) : result A :=
  match x with
  | Some a => Ok a
  | None =>
      Raise (Exn UnboundLocalError
               (lit "cannot access local variable '" ++ lit name ++
                lit "' where it is not associated with a value"))
  end.

Definition known_honeypots : list str :=
  [ lower (lit "0x6001B76e8CeA99a749F591ed6E1cE7a704CF231b") ].

(** The innermost [try]: the three metadata calls.  Returns [token_info]
    and the local [total_supply], which stays unbound when a call raises. *)
Definition read_token_info (w : rpc) (token_address contract : str)
  : dict * option Z :=
  match (name ← call_name w contract;
         symbol ← call_symbol w contract;
         total_supply ← call_totalSupply w contract;
         Ok (name, symbol, total_supply)) with
  | Ok (name, symbol, total_supply) =>
      ([ (lit "name", VStr name);
         (lit "symbol", VStr symbol);
         (lit "total_supply", VStr (Json.repr_int total_supply));
         (lit "address", VStr token_address) ],
       Some total_supply)
  | Raise e =>
      ([ (lit "error", VStr (lit "Could not read token info: " ++ exn_msg e));
         (lit "address", VStr token_address) ],
       None)
  end.

(** The body of the middle [try]. *)
Definition inspect_contract (w : rpc) (token_address : str) : result dict :=
  contract ← to_checksum_address w token_address;
  let '(token_info, total_supply) := read_token_info w token_address contract in
  supply ← read_local "total_supply" total_supply;
  if (supply =? 0)%Z then
    Ok (dict_update token_info
          [ (lit "can_buy", VBool false);
            (lit "can_sell", VBool false);
            (lit "reason", VStr (lit "Token has zero supply"));
            (lit "risk", VStr (lit "HIGH")) ])
  else if str_in (lower token_address) known_honeypots then
    Ok (dict_update token_info
          [ (lit "can_buy", VBool true);
            (lit "can_sell", VBool false);
            (lit "reason",
              VStr (lit "Token has transfer restrictions (honeypot)"));
            (lit "risk", VStr (lit "HIGH")) ])
  else
    Ok (dict_update token_info
          [ (lit "can_buy", VBool true);
            (lit "can_sell", VBool true);
            (lit "reason", VStr (lit "Token appears to be standard ERC20"));
            (lit "risk", VStr (lit "LOW")) ]).

(** The body of the outer [try]. *)
Definition probe (w : rpc) (token_address rpc_url : str) : result dict :=
  connected ← is_connected w;
  if negb connected then
    Ok [ (lit "can_buy", VNone);
         (lit "can_sell", VNone);
         (lit "error", VStr (lit "Cannot connect to RPC"));
         (lit "rpc_url", VStr rpc_url) ]
  else
    address ← to_checksum_address w token_address;
    code ← get_code w address;
    if bool_decide (code = []) then
      Ok [ (lit "can_buy", VBool false);
           (lit "can_sell", VBool false);
           (lit "error", VStr (lit "Not a contract address"));
           (lit "token_address", VStr token_address) ]
    else
      match inspect_contract w token_address with
      | Ok r => Ok r
      | Raise e =>
          Ok [ (lit "can_buy", VNone);
               (lit "can_sell", VNone);
               (lit "error",
                 VStr (lit "Contract interaction failed: " ++ exn_msg e));
               (lit "token_address", VStr token_address) ]
      end.

(** [simulate_swap]: every exception is turned into a result dictionary. *)
Definition simulate_swap (w : rpc) (token_address rpc_url : str)
    (amount : option str) : dict :=
  match probe w token_address rpc_url with
  | Ok r => r
  | Raise e =>
      [ (lit "can_buy", VNone);
        (lit "can_sell", VNone);
        (lit "error", VStr (lit "Simulation failed: " ++ exn_msg e));
        (lit "token_address", VStr token_address) ]
  end.

(** The answers of the chain under which the probe reaches the supply
    check: the endpoint is connected, the address has code, and the three
    metadata calls return. *)
Definition readable (w : rpc) (token_address name symbol : str) (supply : Z)
  : Prop :=
  is_connected w = Ok true
  /\ exists address code,
       to_checksum_address w token_address = Ok address
       /\ get_code w address = Ok code /\ code <> []
       /\ call_name w address = Ok name
       /\ call_symbol w address = Ok symbol
       /\ call_totalSupply w address = Ok supply.

(** The entries of [token_info] when the metadata calls return. *)
Definition token_info (token_address name symbol : str) (supply : Z) : dict :=
  [ (lit "name", VStr name);
    (lit "symbol", VStr symbol);
    (lit "total_supply", VStr (Json.repr_int supply));
    (lit "address", VStr token_address) ].

(** The four entries that a verdict adds. *)
Definition verdict (can_buy can_sell : bool) (reason risk : string) : dict :=
  [ (lit "can_buy", VBool can_buy);
    (lit "can_sell", VBool can_sell);
    (lit "reason", VStr (lit reason));
    (lit "risk", VStr (lit risk)) ].

(** The result without a verdict: [can_buy] and [can_sell] are [None]. *)
Definition unknown (error : str) (key : string) (v : str) : dict :=
  [ (lit "can_buy", VNone);
    (lit "can_sell", VNone);
    (lit "error", VStr error);
    (lit key, VStr v) ].

(** The pairs that a result can hold under [can_buy] and [can_sell]. *)
Definition outcomes : list (option value * option value) :=
  [ (Some VNone, Some VNone);
    (Some (VBool false), Some (VBool false));
    (Some (VBool true), Some (VBool false));
    (Some (VBool true), Some (VBool true)) ].

Definition not_a_contract (token_address : str) : dict :=
  [ (lit "can_buy", VBool false);
    (lit "can_sell", VBool false);
    (lit "error", VStr (lit "Not a contract address"));
    (lit "token_address", VStr token_address) ].

End Simulator.

(* ===================================================================== *)
(** * [agentshield-api/main.py]: the [/validate-token] endpoint *)
(* ===================================================================== *)

Module Api.

Record TokenValidationRequest := {
  token_address : str;
  chain : str;
  amount : option str;
}.

Record ValidationResponse := {
  is_safe : bool;
  risk_level : str;
  reason : str;
  details : dict;
  can_buy : option bool;
  can_sell : option bool;
}.

(** What the handler sends back: a response body, or an [HTTPException]. *)
Inductive reply :=
  | Respond (r : ValidationResponse)
  | HTTPException (status_code : Z) (detail : str).

(** The surroundings of one request: whether the two imports succeed, the
    process environment, [Web3.is_address], and the chain behind each RPC
    URL. *)
Record world := {
  import_error : option str;
  getenv : str -> option str;
  is_address : str -> bool;
  rpc_at : str -> Simulator.rpc;
}.

Definition chain_map : list (str * str) :=
  [ (lit "ethereum", lit "ethereum");
    (lit "eth", lit "ethereum");
    (lit "base", lit "base");
    (lit "cronos", lit "cronos");
    (lit "cronos-testnet", lit "cronos-testnet");
    (lit "arbitrum", lit "arbitrum");
    (lit "arb", lit "arbitrum");
    (lit "polygon", lit "polygon");
    (lit "matic", lit "polygon") ].

(** [os.getenv(name, dflt)] *)
Definition getenv_default (w : world) (name dflt : string) : str :=
  default (lit dflt) (getenv w (lit name)).

Definition rpc_urls (w : world) : list (str * str) :=
  [ (lit "ethereum", getenv_default w "ETHEREUM_RPC" "https://eth.llamarpc.com");
    (lit "base", getenv_default w "BASE_RPC" "https://mainnet.base.org");
    (lit "cronos", getenv_default w "CRONOS_RPC" "https://evm.cronos.org");
    (lit "cronos-testnet",
      getenv_default w "CRONOS_TESTNET_RPC" "https://evm-t3.cronos.org");
    (lit "arbitrum", getenv_default w "ARBITRUM_RPC" "https://arb1.arbitrum.io/rpc");
    (lit "polygon", getenv_default w "POLYGON_RPC" "https://polygon-rpc.com") ].

(** Validation of an [Optional[bool]] field of the response model.  The
    probe only ever stores [None] or a boolean under these keys. *)
Definition optional_bool (v : value) : result (option bool) :=
  match v with
  | VNone => Ok None
  | VBool b => Ok (Some b)
  | _ => Raise (Exn (OtherError (lit "ValidationError"))
                  (lit "Input should be a valid boolean"))
  end.

Definition respond (is_safe : bool) (risk_level : string) (reason : str)
    (details : dict) (can_buy can_sell : value) : result ValidationResponse :=
  b ← optional_bool can_buy;
  s ← optional_bool can_sell;
  Ok {| is_safe := is_safe; risk_level := lit risk_level; reason := reason;
        details := details; can_buy := b; can_sell := s |}.

(** The RPC URL of a request's chain, if the chain is supported. *)
Definition rpc_url_of (w : world) (req : TokenValidationRequest) : option str :=
  let normalized_chain :=
    default (lower (chain req)) (assoc (lower (chain req)) chain_map) in
  match assoc normalized_chain (rpc_urls w) with
  | Some (c :: u) => Some (c :: u)
  | _ => None
  end.

(** The body of the handler's [try], after the imports. *)
Definition analyze (w : world) (req : TokenValidationRequest)
  : result ValidationResponse :=
  match rpc_url_of w req with
  | None =>
      respond true "UNKNOWN"
        (lit "Chain " ++ chain req ++ lit " not supported for validation")
        [ (lit "chain", VStr (chain req)); (lit "supported", VBool false) ]
        VNone VNone
  | Some rpc_url =>
      if negb (is_address w (token_address req)) then
        respond false "HIGH" (lit "Invalid token address format")
          [ (lit "token_address", VStr (token_address req));
            (lit "valid", VBool false) ]
          VNone VNone
      else
        let result :=
          Simulator.simulate_swap (rpc_at w rpc_url) (token_address req)
            rpc_url (amount req) in
        let can_buy := dict_get_default result (lit "can_buy") (VBool true) in
        let can_sell := dict_get_default result (lit "can_sell") (VBool true) in
        if negb (truthy can_sell) then
          respond false "HIGH" (lit "Token cannot be sold (honeypot detected)")
            result can_buy can_sell
        else if negb (truthy can_buy) then
          respond false "HIGH" (lit "Token cannot be bought")
            result can_buy can_sell
        else if truthy (default VNone (dict_get result (lit "liquidity_warning")))
        then
          respond true "MEDIUM"
            (lit "Low liquidity detected - proceed with caution")
            result can_buy can_sell
        else if truthy (default VNone (dict_get result (lit "high_slippage")))
        then
          respond true "MEDIUM"
            (lit "High slippage detected - large price impact")
            result can_buy can_sell
        else
          respond true "LOW" (lit "Token passed all safety checks")
            result can_buy can_sell
  end.

(** [validate_token] *)
Definition validate_token (w : world) (req : TokenValidationRequest) : reply :=
  match import_error w with
  | Some msg =>
      HTTPException 500 (lit "AgentShield module not available: " ++ msg)
  | None =>
      match analyze w req with
      | Ok r => Respond r
      | Raise e =>
          Respond {| is_safe := true; risk_level := lit "UNKNOWN";
                     reason := lit "Validation error: " ++ exn_msg e;
                     details := [ (lit "error", VStr (exn_msg e));
                                  (lit "type", VStr (class_name (exn_cls e))) ];
                     can_buy := None; can_sell := None |}
      end
  end.

(** The chain name of a request after [chain_map]. *)
Definition normalized_chain (chain : str) : str :=
  default (lower chain) (assoc (lower chain) chain_map).

(** The keys of [rpc_urls]. *)
Definition supported_chains : list str :=
  [ lit "ethereum"; lit "base"; lit "cronos"; lit "cronos-testnet";
    lit "arbitrum"; lit "polygon" ].

(** The response for a chain without an RPC URL. *)
Definition unsupported (chain : str) : ValidationResponse :=
  {| is_safe := true;
     risk_level := lit "UNKNOWN";
     reason := lit "Chain " ++ chain ++ lit " not supported for validation";
     details := [ (lit "chain", VStr chain); (lit "supported", VBool false) ];
     can_buy := None;
     can_sell := None |}.

End Api.

(* ===================================================================== *)
(** * [agentshield-api/main.py]: the [/x402/generate-header] endpoint *)
(* ===================================================================== *)

Module X402.
Import Cronos.

(** What the handler sends back: a JSON body, or an [HTTPException]. *)
Inductive response :=
  | Body (content : dict)
  | HTTPException (status_code : Z) (detail : str).

(** The surroundings of one request. *)
Record world := {
  (** the exception of [from agentshield.facilitators import ...], if the
      import fails *)
  import_failure : option exn;
  (** [isinstance(e, ImportError)] *)
  is_import_error : exn -> bool;
  (** [str(HTTPException(status_code, detail))]; the text depends on the
      version of Starlette *)
  http_exception_str : Z -> str -> str;
  (** [bool(x)] for a float, given as its numeral *)
  float_truth : str -> bool;
  (** the clock and the random source *)
  sys : os;
  (** what the facilitator does with field values that are not strings
      (or, for the timeout, not an integer): Python passes them on
      unchecked *)
  untyped : dict -> result dict;
}.

Definition missing_fields : str :=
  lit "Missing required fields: private_key, pay_to, asset, amount".

(** [request.get(k)] *)
Definition get (request : dict) (k : string) : value :=
  default VNone (dict_get request (lit k)).

(** Truth value testing, floats included. *)
Definition truth (w : world) (v : value) : bool :=
  match v with
  | VFloat numeral => float_truth w numeral
  | _ => truthy v
  end.

(** The statements after the check of the required fields. *)
Definition facilitate `{Eth} (w : world) (request : dict) : result dict :=
  match get request "private_key", get request "pay_to", get request "asset",
        get request "amount",
        dict_get_default request (lit "network") (VStr (lit "cronos-testnet")),
        dict_get_default request (lit "timeout_seconds") (VInt 300) with
  | VStr private_key, VStr pay_to, VStr asset, VStr amount, VStr network,
    VInt timeout_seconds =>
      let facilitator := init network in
      payment_header ←
        generate_payment_header facilitator (sys w) private_key pay_to asset
          amount timeout_seconds None None;
      decoded ← decode_payment_header payment_header;
      Ok [ (lit "payment_header", VStr payment_header);
           (lit "decoded", decoded);
           (lit "network", VStr network);
           (lit "protocol", VStr (lit "eip3009")) ]
  | _, _, _, _, _, _ => untyped w request
  end.

(** [generate_x402_header].  The [HTTPException] with status 400 is raised
    inside the [try] block, where [except Exception] catches it. *)
Definition generate_x402_header `{Eth} (w : world) (request : dict) : response :=
  let handle (e : exn) :=
    if is_import_error w e then
      HTTPException 500
        (lit "Cronos Facilitator not available. Install required dependencies.")
    else HTTPException 500 (exn_msg e) in
  match import_failure w with
  | Some e => handle e
  | None =>
      if negb (forallb (fun k => truth w (get request k))
                 ["private_key"; "pay_to"; "asset"; "amount"]%string)
      then HTTPException 500 (http_exception_str w 400 missing_fields)
      else
        match facilitate w request with
        | Ok content => Body content
        | Raise e => handle e
        end
  end.

End X402.

(* ===================================================================== *)
(** * [re]: the two patterns of the command parser *)
(* ===================================================================== *)

Module Re.
Local Open Scope N_scope.

(** The classes [\d], [\w] and [\s] on the ASCII range, and the class
    [[a-fA-F0-9]]. *)
Definition digit (c : N) : bool := (48 <=? c) && (c <=? 57).
Definition word (c : N) : bool :=
  digit c || (65 <=? c) && (c <=? 90) || (97 <=? c) && (c <=? 122) || (c =? 95).
Definition space (c : N) : bool :=
  (9 <=? c) && (c <=? 13) || (28 <=? c) && (c <=? 32).
Definition hexdigit (c : N) : bool :=
  (97 <=? c) && (c <=? 102) || (65 <=? c) && (c <=? 70) || digit c.
Definition char (x : string) (c : N) : bool := bool_decide ([c] = lit x).

(** The patterns that occur: classes, sequence, a greedy optional part,
    greedy repetition of a class, and numbered capturing groups. *)
Inductive regex :=
  | Class (p : N -> bool)
  | Seq (r1 r2 : regex)
  | Opt (r : regex)
  | Star (p : N -> bool)
  | Plus (p : N -> bool)
  | Times (n : nat) (p : N -> bool)
  | Group (i : nat) (r : regex).

(** The text captured by each group that took part in a match. *)
Definition captures := list (nat * str).

(** Greedy repetition with backtracking: the longest run is tried first,
    then shorter ones, until the rest of the pattern ([k]) matches. *)
Fixpoint star {A} (p : N -> bool) (s : str) (k : str -> option A) : option A :=
  match s with
  | c :: s' =>
      if p c then
        match star p s' k with
        | Some m => Some m
        | None => k s
        end
      else k s
  | [] => k []
  end.

Definition plus {A} (p : N -> bool) (s : str) (k : str -> option A) : option A :=
  match s with
  | c :: s' => if p c then star p s' k else None
  | [] => None
  end.

Fixpoint times {A} (n : nat) (p : N -> bool) (s : str) (k : str -> option A)
  : option A :=
  match n with
  | O => k s
  | S n' =>
      match s with
      | c :: s' => if p c then times n' p s' k else None
      | [] => None
      end
  end.

(** Matching at the start of [s]: [k] is the rest of the pattern, given the
    text that is left and the groups captured so far. *)
Fixpoint run (r : regex) (s : str) (caps : captures)
    (k : str -> captures -> option captures) : option captures :=
  match r with
  | Class p =>
      match s with
      | c :: s' => if p c then k s' caps else None
      | [] => None
      end
  | Seq r1 r2 => run r1 s caps (fun s' caps' => run r2 s' caps' k)
  | Opt r' =>
      match run r' s caps k with
      | Some m => Some m
      | None => k s caps
      end
  | Star p => star p s (fun s' => k s' caps)
  | Plus p => plus p s (fun s' => k s' caps)
  | Times n p => times n p s (fun s' => k s' caps)
  | Group i r' =>
      run r' s caps
        (fun s' caps' => k s' ((i, take (length s - length s') s) :: caps'))
  end.

(** [re.search]: the match at the leftmost position that has one. *)
Fixpoint search (r : regex) (s : str) : option captures :=
  match run r s [] (fun _ caps => Some caps) with
  | Some m => Some m
  | None =>
      match s with
      | [] => None
      | _ :: s' => search r s'
      end
  end.

(** [m.group(i)], for a group that took part in the match. *)
Definition group (m : captures) (i : nat) : str :=
  default [] (snd <$> List.find (fun e => Nat.eqb e.1 i) m).

(** The text [rest] does not go on with a character of the class [p]. *)
Definition ends (p : N -> bool) (rest : str) : bool :=
  match rest with
  | [] => true
  | c :: _ => negb (p c)
  end.

(** An amount as the pattern reads it: digits, then optionally a point and
    more digits. *)
Definition digits (ds : str) : bool :=
  negb (bool_decide (ds = [])) && forallb digit ds.

Definition fraction (frac : str) : bool :=
  match frac with
  | [] => true
  | c :: fs => char "." c && digits fs
  end.

(** A name as the pattern reads it: word characters, at least one. *)
Definition name (tok : str) : bool :=
  negb (bool_decide (tok = [])) && forallb word tok.

(** Text without a digit. *)
Definition digit_free (s : str) : bool := forallb (fun c => negb (digit c)) s.

End Re.

(* ===================================================================== *)
(** * [integrations/crypto_com_agent.py]: the staged pipeline *)
(* ===================================================================== *)

Module Agent.

(** The stage methods of [SafeCryptoComAgent]. *)
Inductive stage := Stage1 | Stage2 | Stage3.

(** What a run does besides returning: lines written to the console and
    stage methods invoked, in order. *)
Inductive event :=
  | Console (line : str)
  | Invoke (s : stage).

(** A computation that logs events and may raise. *)
Definition run (A : Type) : Type := list event * result A.

#[export] Instance run_ret : MRet run := fun A a => ([], Ok a).
#[export] Instance run_bind : MBind run := fun A B f m =>
  match m with
  | (log, Ok a) => let '(log', r) := f a in (log ++ log', r)
  | (log, Raise e) => (log, Raise e)
  end.

Definition console_print (line : str) : run unit := ([Console line], Ok tt).
Definition invoke {A} (s : stage) (r : result A) : run A := ([Invoke s], r).
Definition trace {A} (m : run A) : list event := m.1.
Definition outcome {A} (m : run A) : result A := m.2.

(** What a stage method returns: [{'passed': ..., 'reason': ...}]. *)
Record stage_result := StageResult {
  passed : bool;
  reason : str;
}.

(** [float(x)], comparison with an integer and [str] of a float, for the
    values found under ['amount']. *)
Class Float := {
  float : Type;
  to_float : value -> result float;
  float_gt : float -> Z -> bool;
  float_str : float -> str;
}.

(** The instance state: [llm_judge] and [policy_engine] are objects, or
    [None] when their import failed. *)
Record SafeCryptoComAgent := {
  api_key : option str;
  network : str;
  enable_validation : bool;
  llm_judge : bool;
  policy_engine : bool;
}.

(** [intent[k]] *)
Definition getitem (intent : dict) (k : string) : result value :=
  match dict_get intent (lit k) with
  | Some v => Ok v
  | None => Raise (Exn KeyError (lit "'" ++ lit k ++ lit "'"))
  end.

(** ['{v}'] inside an f-string, for the scalars an intent holds (the text
    of a container is not modelled). *)
Definition format (v : value) : str :=
  match v with
  | VStr s => s
  | VInt z => Json.repr_int z
  | VFloat numeral => numeral
  | VNone => lit "None"
  | VBool true => lit "True"
  | VBool false => lit "False"
  | VList _ | VDict _ => []
  end.

(** [_stage1_llm_judge] *)
Definition _stage1_llm_judge (intent : dict) : result stage_result :=
  Ok (StageResult true (lit "Intent is safe")).

(** [_stage2_policy] *)
Definition _stage2_policy `{Float} (intent : dict) : result stage_result :=
  action ← getitem intent "action";
  if is_str action (lit "transfer") then
    amount ← to_float (dict_get_default intent (lit "amount") (VInt 0));
    if float_gt amount 100 then
      token ← getitem intent "token";
      Ok (StageResult false
            (lit "Transfer amount (" ++ float_str amount ++ lit " " ++
             format token ++ lit ") exceeds policy limit (100)"))
    else Ok (StageResult true (lit "Within policy limits"))
  else Ok (StageResult true (lit "Within policy limits")).

Definition honeypot_tokens : list str :=
  [lit "SCAM"; lit "FAKE"; lit "RUG"; lit "HONEYPOT"].

(** [_stage3_honeypot] *)
Definition _stage3_honeypot (intent : dict) : result stage_result :=
  let token :=
    dict_get_default intent (lit "to_token")
      (dict_get_default intent (lit "token") (VStr [])) in
  match token with
  | VStr t =>
      let token := upper t in
      if existsb (fun hp => contains token hp) honeypot_tokens then
        Ok (StageResult false
              (lit "Honeypot token detected: " ++ token ++ lit " cannot be sold"))
      else Ok (StageResult true (lit "Token is safe"))
  | _ => raise AttributeError "object has no attribute 'upper'"
  end.

(** The stage methods as looked up on [self]. *)
Record methods := Methods {
  stage1 : dict -> result stage_result;
  stage2 : dict -> result stage_result;
  stage3 : dict -> result stage_result;
}.

Definition own_methods `{Float} : methods :=
  Methods _stage1_llm_judge _stage2_policy _stage3_honeypot.

Definition check_mark : str := [0x2705%N].

Definition blocked (reason stage_failed : str) : dict :=
  [ (lit "approved", VBool false);
    (lit "reason", VStr reason);
    (lit "stage_failed", VStr stage_failed) ].

Definition approved : dict :=
  [ (lit "approved", VBool true);
    (lit "reason", VStr (lit "All validation stages passed")) ].

(** Stage 4 and the final [return]. *)
Definition validate_stage4 : run dict :=
  _ ← console_print (lit "[dim]   Stage 4: LLM Analysis...[/dim]");
  _ ← console_print (lit "[green]   " ++ check_mark ++ lit " Stage 4: Passed[/green]");
  mret approved.

(** Stage 3.5 onwards. *)
Definition validate_stage3 (m : methods) (intent : dict) : run dict :=
  action ← ([], getitem intent "action");
  if existsb (is_str action) [lit "swap"; lit "buy"] then
    _ ← console_print (lit "[dim]   Stage 3.5: Honeypot Detection...[/dim]");
    honeypot_result ← invoke Stage3 (stage3 m intent);
    if negb (passed honeypot_result) then
      mret (blocked (reason honeypot_result) (lit "Honeypot Detection"))
    else
      _ ← console_print
            (lit "[green]   " ++ check_mark ++ lit " Stage 3.5: Passed[/green]");
      validate_stage4
  else validate_stage4.

(** Stage 2 onwards. *)
Definition validate_stage2 (self : SafeCryptoComAgent) (m : methods)
    (intent : dict) : run dict :=
  _ ← console_print (lit "[dim]   Stage 2: Policy Validation...[/dim]");
  let continue : run dict :=
    _ ← console_print
          (lit "[green]   " ++ check_mark ++ lit " Stage 2: Passed[/green]");
    validate_stage3 m intent in
  if policy_engine self then
    policy_result ← invoke Stage2 (stage2 m intent);
    if negb (passed policy_result) then
      mret (blocked (reason policy_result) (lit "Policy Validation"))
    else continue
  else continue.

(** [_validate_with_agentshield] *)
Definition _validate_with_agentshield (self : SafeCryptoComAgent) (m : methods)
    (intent : dict) : run dict :=
  _ ← console_print
        ([10%N] ++ lit "[cyan]" ++ [0x1F6E1; 0xFE0F]%N ++
         lit "  AgentShield Validation:[/cyan]");
  _ ← console_print (lit "[dim]   Stage 1: LLM Intent Judge...[/dim]");
  let continue : run dict :=
    _ ← console_print
          (lit "[green]   " ++ check_mark ++ lit " Stage 1: Passed[/green]");
    validate_stage2 self m intent in
  if llm_judge self then
    llm_result ← invoke Stage1 (stage1 m intent);
    if negb (passed llm_result) then
      mret (blocked (reason llm_result) (lit "LLM Intent Judge"))
    else continue
  else continue.

(** The events of stage 4: its two console lines. *)
Definition stage4_events : list event :=
  [ Console (lit "[dim]   Stage 4: LLM Analysis...[/dim]");
    Console (lit "[green]   " ++ check_mark ++ lit " Stage 4: Passed[/green]") ].

#[export] Instance stage_eq_dec : EqDecision stage.
Proof. solve_decision. Defined.
#[export] Instance event_eq_dec : EqDecision event.
Proof. solve_decision. Defined.

(** A stage that is switched on ([enabled]) passes, or fails with a reason.
    A stage that is switched off is not run and counts as passed. *)
Definition passes (enabled : bool) (r : result stage_result) : Prop :=
  enabled = true -> exists x, r = Ok x /\ passed x = true.

Definition fails (enabled : bool) (r : result stage_result) (why : str) : Prop :=
  enabled = true /\ exists x, r = Ok x /\ passed x = false /\ reason x = why.

(** The intent's action is [swap] or [buy]. *)
Definition trades (intent : dict) : bool :=
  match dict_get intent (lit "action") with
  | Some action => existsb (is_str action) [lit "swap"; lit "buy"]
  | None => false
  end.

(** No event of the list [later] occurs in the trace. *)
Definition silent (later : list event) (log : list event) : Prop :=
  forall e, e ∈ later -> e ∉ log.

(** ** The command parser and [execute] *)

(** [SafeCryptoComAgent.__init__]: the object that it builds. [imported]
    tells whether the imports of the policy engine and of the judge
    succeeded; when they did not, the constructor also writes
    [demo_mode_line] (see [execute_safe_command]). *)
Definition init (api_key : option str) (network : str) (enable_validation : bool)
    (imported : bool) : SafeCryptoComAgent :=
  {| api_key := api_key;
     network := network;
     enable_validation := enable_validation;
     llm_judge := imported;
     policy_engine := imported |}.

(** [(\d+(?:\.\d+)?)\s*(\w+)] *)
Definition amount_pattern : Re.regex :=
  Re.Seq
    (Re.Group 1
       (Re.Seq (Re.Plus Re.digit)
          (Re.Opt (Re.Seq (Re.Class (Re.char ".")) (Re.Plus Re.digit)))))
    (Re.Seq (Re.Star Re.space) (Re.Group 2 (Re.Plus Re.word))).

(** [(0x[a-fA-F0-9]{40})] *)
Definition address_pattern : Re.regex :=
  Re.Group 1
    (Re.Seq (Re.Class (Re.char "0"))
       (Re.Seq (Re.Class (Re.char "x")) (Re.Times 40 Re.hexdigit))).

(** The amount and the token of a command, or the defaults. *)
Definition amount_and_token (command : str) (amount token : string) : str * str :=
  match Re.search amount_pattern command with
  | Some amount_match =>
      (Re.group amount_match 1, upper (Re.group amount_match 2))
  | None => (lit amount, lit token)
  end.

(** [_parse_intent] *)
Definition _parse_intent (self : SafeCryptoComAgent) (command : str) : dict :=
  let command_lower := lower command in
  if contains command_lower (lit "send") || contains command_lower (lit "transfer")
  then
    let '(amount, token) := amount_and_token command "10" "USDC" in
    let to_address :=
      match Re.search address_pattern command with
      | Some address_match => Re.group address_match 1
      | None => lit "0x742d35Cc6634C0532925a3b844Bc9e7595f0bEb"
      end in
    [ (lit "action", VStr (lit "transfer"));
      (lit "token", VStr token);
      (lit "amount", VStr amount);
      (lit "to", VStr to_address);
      (lit "from", VStr (lit "0x7BD6Cd1A975438E510e1CC70a815042Bb357B131"));
      (lit "network", VStr (network self)) ]
  else if contains command_lower (lit "buy") || contains command_lower (lit "swap")
  then
    let '(amount, token) := amount_and_token command "100" "SCAM" in
    [ (lit "action", VStr (lit "swap"));
      (lit "token", VStr token);
      (lit "amount", VStr amount);
      (lit "from_token", VStr (lit "USDC"));
      (lit "to_token", VStr token);
      (lit "network", VStr (network self)) ]
  else
    [ (lit "action", VStr (lit "query"));
      (lit "query", VStr command);
      (lit "network", VStr (network self)) ].

(** [v[:10]] (the messages are those of CPython 3.11). *)
Definition first10 (v : value) : result value :=
  match v with
  | VStr s => Ok (VStr (take 10 s))
  | VList l => Ok (VList (take 10 l))
  | VNone => raise (OtherError (lit "TypeError"))
               "'NoneType' object is not subscriptable"
  | VBool _ => raise (OtherError (lit "TypeError"))
                 "'bool' object is not subscriptable"
  | VInt _ => raise (OtherError (lit "TypeError"))
                "'int' object is not subscriptable"
  | VFloat _ => raise (OtherError (lit "TypeError"))
                  "'float' object is not subscriptable"
  | VDict _ => raise (OtherError (lit "TypeError")) "unhashable type: 'slice'"
  end.

(** [_execute_transaction] *)
Definition _execute_transaction (intent : dict) : result dict :=
  action ← getitem intent "action";
  if is_str action (lit "transfer") then
    amount ← getitem intent "amount";
    token ← getitem intent "token";
    to ← getitem intent "to";
    to ← first10 to;
    Ok [ (lit "message",
           VStr (lit "Transferred " ++ format amount ++ lit " " ++ format token
                 ++ lit " to " ++ format to ++ lit "..."));
         (lit "tx_hash", VStr (lit "0x" ++ repeat 49%N 64)) ]
  else
    action ← getitem intent "action";
    if is_str action (lit "swap") then
      amount ← getitem intent "amount";
      from_token ← getitem intent "from_token";
      to_token ← getitem intent "to_token";
      Ok [ (lit "message",
             VStr (lit "Swapped " ++ format amount ++ lit " " ++ format from_token
                   ++ lit " for " ++ format to_token));
           (lit "tx_hash", VStr (lit "0x" ++ repeat 50%N 64)) ]
    else
      query ← getitem intent "query";
      Ok [ (lit "message", VStr (lit "Executed query: " ++ format query)) ].

(** Rich parses the console markup of a line before writing it; for a line
    that it rejects, [console.print] raises instead of writing. *)
Class Rich := {
  markup_error : str -> option exn;
}.

(** [console.print] of a line that contains interpolated text. *)
Definition console_print_text `{Rich} (line : str) : run unit :=
  match markup_error line with
  | Some e => ([], Raise e)
  | None => console_print line
  end.

Definition command_line (command : str) : str :=
  [10%N] ++ lit "[cyan]" ++ [0x1F916%N] ++ lit " AI Agent Command:[/cyan] "
  ++ command.

Definition intent_line (action : value) : str :=
  lit "[dim]   Parsed intent: " ++ format action ++ lit "[/dim]".

Definition reason_line (reason : value) : str :=
  lit "[red]   Reason: " ++ format reason ++ lit "[/red]".

Definition blocked_line : str :=
  lit "[red]" ++ [0x274C%N] ++ lit " BLOCKED by AgentShield[/red]".

Definition executed_line : str :=
  lit "[green]" ++ check_mark ++ lit " APPROVED and executed[/green]".

(** Step 3 of [execute] and its last [return]. *)
Definition execute_step3 (command : str) (intent : dict) : run dict :=
  result ← ([], _execute_transaction intent);
  _ ← console_print executed_line;
  message ← ([], getitem result "message");
  mret [ (lit "approved", VBool true);
         (lit "message", message);
         (lit "tx_hash", default VNone (dict_get result (lit "tx_hash")));
         (lit "command", VStr command);
         (lit "intent", VDict intent) ].

(** Step 2 of [execute]: validation, and the [return] of a blocked
    command. *)
Definition execute_step2 `{Rich} (self : SafeCryptoComAgent) (m : methods)
    (command : str) (intent : dict) : run dict :=
  if enable_validation self then
    validation ← _validate_with_agentshield self m intent;
    approved ← ([], getitem validation "approved");
    if negb (truthy approved) then
      _ ← console_print blocked_line;
      reason ← ([], getitem validation "reason");
      _ ← console_print_text (reason_line reason);
      reason ← ([], getitem validation "reason");
      stage_failed ← ([], getitem validation "stage_failed");
      mret [ (lit "approved", VBool false);
             (lit "reason", reason);
             (lit "stage_failed", stage_failed);
             (lit "command", VStr command);
             (lit "intent", VDict intent) ]
    else execute_step3 command intent
  else execute_step3 command intent.

(** [execute] *)
Definition execute `{Rich} (self : SafeCryptoComAgent) (m : methods)
    (command : str) : run dict :=
  _ ← console_print_text (command_line command);
  let intent := _parse_intent self command in
  action ← ([], getitem intent "action");
  _ ← console_print_text (intent_line action);
  execute_step2 self m command intent.

(** The line that the constructor writes when an import fails. *)
Definition demo_mode_line : str :=
  lit "[yellow]" ++ [0x26A0; 0xFE0F]%N
  ++ lit "  AgentShield not fully configured, running in demo mode[/yellow]".

(** [execute_safe_command] *)
Definition execute_safe_command `{Rich} `{Float} (imported : bool) (command : str)
    (api_key : option str) : run dict :=
  _ ← (if imported then mret tt else console_print demo_mode_line);
  let agent := init api_key (lit "cronos-testnet") true imported in
  execute agent own_methods command.

(** The command mentions one of the words, whatever the letter case. *)
Definition mentions (command : str) (words : list string) : bool :=
  existsb (fun w => contains (lower command) (lit w)) words.

(** The action of the intent that a command is parsed into. *)
Definition parsed_action (self : SafeCryptoComAgent) (command : str) : value :=
  default VNone (dict_get (_parse_intent self command) (lit "action")).

(** What [execute] returns for a command that was carried out. *)
Definition executed (command : str) (intent : dict) (message : str)
    (tx_hash : value) : dict :=
  [ (lit "approved", VBool true);
    (lit "message", VStr message);
    (lit "tx_hash", tx_hash);
    (lit "command", VStr command);
    (lit "intent", VDict intent) ].

(** What [execute] returns for a command that validation stopped. *)
Definition refused (command : str) (intent : dict) (reason stage_failed : str)
  : dict :=
  [ (lit "approved", VBool false);
    (lit "reason", VStr reason);
    (lit "stage_failed", VStr stage_failed);
    (lit "command", VStr command);
    (lit "intent", VDict intent) ].

(** Everything that a validation run can write or invoke. *)
Definition pipeline_events : list event :=
  [ Console ([10%N] ++ lit "[cyan]" ++ [0x1F6E1; 0xFE0F]%N ++
             lit "  AgentShield Validation:[/cyan]");
    Console (lit "[dim]   Stage 1: LLM Intent Judge...[/dim]");
    Invoke Stage1;
    Console (lit "[green]   " ++ check_mark ++ lit " Stage 1: Passed[/green]");
    Console (lit "[dim]   Stage 2: Policy Validation...[/dim]");
    Invoke Stage2;
    Console (lit "[green]   " ++ check_mark ++ lit " Stage 2: Passed[/green]");
    Console (lit "[dim]   Stage 3.5: Honeypot Detection...[/dim]");
    Invoke Stage3;
    Console (lit "[green]   " ++ check_mark ++ lit " Stage 3.5: Passed[/green]") ]
  ++ stage4_events.

End Agent.

(* ===================================================================== *)
(** * Executable collaborators *)
(* ===================================================================== *)

(** Stand-ins for the libraries and services that the sources call, simple
    enough to run: they are used to evaluate the embedding on examples. *)

Module Demo.
Import Cronos.

Lemma ascii_text_text s : ascii_text s -> text s.
Proof.
  intros H. eapply Forall_impl; [exact H|]. clear H.
  intros c Hc. cbn beta in Hc. unfold Utf8.is_scalar, Utf8.is_surrogate.
  apply andb_true_iff. split; [apply N.ltb_lt; lia|].
  apply negb_true_iff, andb_false_iff. left. apply N.leb_gt. lia.
Qed.

Lemma forallb_ascii_text (P : N -> bool) s :
  (forall c, P c = true -> (c < 128)%N) -> forallb P s = true -> text s.
Proof.
  intros HP Hs. apply ascii_text_text. apply Forall_forall. intros c Hc.
  apply HP. rewrite forallb_forall in Hs. apply Hs. by apply list_elem_of_In.
Qed.

Definition hex_or_x (c : N) : bool := is_lower_hex c || (c =? 120)%N.

Lemma hex_or_x_ascii c : hex_or_x c = true -> (c < 128)%N.
Proof.
  unfold hex_or_x, is_lower_hex. intros H.
  repeat (apply orb_true_iff in H as [H|H]);
    try (apply andb_true_iff in H as [_ H]; apply N.leb_le in H; lia).
  apply N.eqb_eq in H. lia.
Qed.

(** An address is accepted when it is [0x] and forty lower-case digits; it
    is returned as it is (no mixed-case checksum is computed). *)
Definition checksum (a : str) : result str :=
  if (length a =? 42)%nat && startswith a (lit "0x") && forallb hex_or_x a
  then Ok a
  else raise ValueError "when sending a str, it must be a hex string".

(** A key is accepted when it is [0x] and sixty-four digits; every key has
    the same address. *)
Definition address_of_key (k : str) : result str :=
  if (length k =? 66)%nat && forallb hex_or_x k
  then Ok (lit "0x7bd6cd1a975438e510e1cc70a815042bb357b131")
  else raise ValueError "The private key must be exactly 32 bytes long".

(** Every message gets the same 65 octets as its signature. *)
Definition sign (k : str) (d : domain) (m : message) : result str :=
  Ok (hex (repeat 0xAB%N 65)).

(** [int] on plain decimal numerals. *)
Definition int_of_numeral (s : str) : result Z :=
  match s with
  | [] => raise ValueError "invalid literal for int() with base 10"
  | _ :: _ =>
      if forallb Json.is_digit s then Ok (Z.of_N (Json.int_of_digits s))
      else raise ValueError "invalid literal for int() with base 10"
  end.

#[export, refine] Instance eth : Eth := {
  account_address := address_of_key;
  sign_typed_data := sign;
  to_checksum_address := checksum;
  int_of_str := int_of_numeral;
}.
Proof.
  - intros k a. unfold address_of_key. case_match; [|done].
    intros [= <-]. apply ascii_text_text. by apply Forall_forall; vm_compute;
      intros c Hc; repeat (apply elem_of_cons in Hc as [->|Hc]; [done|]);
      apply elem_of_nil in Hc.
  - intros k d m g [= <-]. apply (forallb_ascii_text hex_or_x); [apply hex_or_x_ascii|].
    by vm_compute.
  - intros a c. unfold checksum. case_match eqn:E; [|done]. intros [= <-].
    apply andb_true_iff in E as [_ E].
    by apply (forallb_ascii_text hex_or_x); [apply hex_or_x_ascii|].
  - intros s z. unfold int_of_numeral. destruct s as [|c s]; [done|].
    case_match eqn:E; [|done]. intros _.
    apply (forallb_ascii_text Json.is_digit); [|done].
    intros d Hd. unfold Json.is_digit in Hd.
    apply andb_true_iff in Hd as [_ Hd]. apply N.leb_le in Hd. lia.
Defined.

(** A policy engine that approves every transaction and leaves the store
    alone, and one that rejects every transaction. *)
Definition approving_engine : Facade.engine := fun to value data context h =>
  (h, Ok [ (lit "approved", VBool true); (lit "stages", VDict []) ]).

Definition rejecting_engine : Facade.engine := fun to value data context h =>
  (h, Ok [ (lit "approved", VBool false);
           (lit "reason", VStr (lit "Exceeds daily limit")) ]).

Definition safe_facilitator (e : Facade.engine) (key : str) : Facade.SafeFacilitator :=
  {| Facade.policy_engine := e;
     Facade.facilitator := Cronos.init (lit "cronos-testnet");
     Facade.private_key := key;
     Facade.network := lit "cronos-testnet";
     Facade.enable_llm_judge := true;
     Facade.enable_simulation := true |}.

Definition key : str :=
  lit "0x1111111111111111111111111111111111111111111111111111111111111111".
Definition pay_to : str := lit "0x742d35cc6634c0532925a3b844bc9e7595f0beb1".
Definition usdc : str := lit "0xc01efAaF7C5C61bEbFAeb358E1161b537b8bC0e0".
Definition clock : os := Os 1700000000 (repeat 0x5A%N 32).

(** An endpoint that cannot be reached. *)
Definition offline : Simulator.rpc :=
  {| Simulator.is_connected := Ok false;
     Simulator.to_checksum_address := fun a => Ok a;
     Simulator.get_code := fun _ => Ok [];
     Simulator.call_name := fun _ => Ok [];
     Simulator.call_symbol := fun _ => Ok [];
     Simulator.call_totalSupply := fun _ => Ok 0%Z |}.

(** A deployed contract whose metadata calls revert. *)
Definition unreadable : Simulator.rpc :=
  {| Simulator.is_connected := Ok true;
     Simulator.to_checksum_address := fun a => Ok a;
     Simulator.get_code := fun _ => Ok [0x60; 0x80; 0x60; 0x40]%N;
     Simulator.call_name := fun _ =>
       Raise (Exn (OtherError (lit "ContractLogicError")) (lit "execution reverted"));
     Simulator.call_symbol := fun _ =>
       Raise (Exn (OtherError (lit "ContractLogicError")) (lit "execution reverted"));
     Simulator.call_totalSupply := fun _ =>
       Raise (Exn (OtherError (lit "ContractLogicError")) (lit "execution reverted")) |}.

(** A process with no environment variables set, in front of an endpoint
    that cannot be reached. *)
Definition cut_off : Api.world :=
  {| Api.import_error := None;
     Api.getenv := fun _ => None;
     Api.is_address := fun a => (length a =? 42)%nat;
     Api.rpc_at := fun _ => offline |}.

Definition request : Api.TokenValidationRequest :=
  {| Api.token_address := usdc;
     Api.chain := lit "Cronos-Testnet";
     Api.amount := Some (lit "1.0") |}.

(** Floats that are whole numbers below [10^15], which [float] reads from
    a numeral and [str] prints without rounding. *)
Definition whole_of (v : value) : result N :=
  match v with
  | VInt z =>
      if ((0 <=? z) && (z <? 10 ^ 15))%Z then Ok (Z.to_N z)
      else raise ValueError "could not convert to float"
  | VStr (c :: s) =>
      if forallb Json.is_digit (c :: s) && (length (c :: s) <=? 15)%nat
      then Ok (Json.int_of_digits (c :: s))
      else raise ValueError "could not convert string to float"
  | _ => raise ValueError "could not convert string to float"
  end.

#[export] Instance whole : Agent.Float := {
  Agent.float := N;
  Agent.to_float := whole_of;
  Agent.float_gt := fun x k => (k <? Z.of_N x)%Z;
  Agent.float_str := fun x => Json.digits x ++ lit ".0";
}.

Definition agent : Agent.SafeCryptoComAgent :=
  {| Agent.api_key := None;
     Agent.network := lit "cronos-testnet";
     Agent.enable_validation := true;
     Agent.llm_judge := true;
     Agent.policy_engine := true |}.

Definition transfer (amount : string) : dict :=
  [ (lit "action", VStr (lit "transfer"));
    (lit "token", VStr (lit "USDC"));
    (lit "amount", VStr (lit amount));
    (lit "to", VStr pay_to);
    (lit "from", VStr (lit "0x7BD6Cd1A975438E510e1CC70a815042Bb357B131"));
    (lit "network", VStr (lit "cronos-testnet")) ].

Definition swap (token : string) : dict :=
  [ (lit "action", VStr (lit "swap"));
    (lit "token", VStr (lit token));
    (lit "amount", VStr (lit "100"));
    (lit "from_token", VStr (lit "USDC"));
    (lit "to_token", VStr (lit token));
    (lit "network", VStr (lit "cronos-testnet")) ].

(** An interpreter with the limits that CPython starts with: 4300 digits,
    and a recursion limit of 1000 of which ten calls are in use. *)
Definition cpython : Json.interpreter :=
  {| Json.int_max_str_digits := 4300; Json.recursion_remaining := 990 |}.

(** A policy engine that raises. *)
Definition failing_engine : Facade.engine := fun to value data context h =>
  (h, raise (OtherError (lit "FileNotFoundError")) "policy.yaml").

(** A deployed token whose metadata can be read. *)
Definition token (supply : Z) : Simulator.rpc :=
  {| Simulator.is_connected := Ok true;
     Simulator.to_checksum_address := fun a => Ok a;
     Simulator.get_code := fun _ => Ok [0x60; 0x80; 0x60; 0x40]%N;
     Simulator.call_name := fun _ => Ok (lit "Test Token");
     Simulator.call_symbol := fun _ => Ok (lit "TST");
     Simulator.call_totalSupply := fun _ => Ok supply |}.

(** A process with no environment variables set, in front of a chain on
    which every address holds the same token. *)
Definition online (supply : Z) : Api.world :=
  {| Api.import_error := None;
     Api.getenv := fun _ => None;
     Api.is_address := fun a => (length a =? 42)%nat;
     Api.rpc_at := fun _ => token supply |}.

(** A console that writes every line. *)
#[export] Instance plain : Agent.Rich := {| Agent.markup_error := fun _ => None |}.

(** A request body with string fields. *)
Definition body (private_key : str) : dict :=
  [ (lit "private_key", VStr private_key);
    (lit "pay_to", VStr pay_to);
    (lit "asset", VStr usdc);
    (lit "amount", VStr (lit "1000000")) ].

Definition server : X402.world :=
  {| X402.import_failure := None;
     X402.is_import_error := fun e =>
       match exn_cls e with
       | OtherError name => str_eqb name (lit "ImportError")
       | _ => false
       end;
     X402.http_exception_str := fun status detail =>
       Json.repr_int status ++ lit ": " ++ detail;
     X402.float_truth := fun _ => true;
     X402.sys := clock;
     X402.untyped := fun _ =>
       raise (OtherError (lit "TypeError")) "unsupported operand type(s)" |}.

End Demo.

(* ===================================================================== *)
(** * Properties *)
(* ===================================================================== *)

(** ** Base64: decoding inverts encoding *)

Module Base64Facts.
Import Base64.
Local Open Scope N_scope.

Lemma forall_below (n : N) (P : N -> bool) :
  forallb P (List.map N.of_nat (seq 0 (N.to_nat n))) = true ->
  forall x, x < n -> P x = true.
Proof.
  intros H x Hx. rewrite forallb_forall in H. apply H.
  apply in_map_iff. exists (N.to_nat x). split; [apply N2Nat.id|].
  apply in_seq. lia.
Qed.

Lemma forall_below2 (n m : N) (P : N -> N -> bool) :
  forallb (fun a => forallb (P a) (List.map N.of_nat (seq 0 (N.to_nat m))))
    (List.map N.of_nat (seq 0 (N.to_nat n))) = true ->
  forall x y, x < n -> y < m -> P x y = true.
Proof.
  intros H x y Hx Hy.
  apply (forall_below m (P x)); [|done].
  by apply (forall_below n (fun a => forallb (P a) _)).
Qed.

Lemma table_roundtrip i :
  i < 64 -> table_a2b (table_b2a i) = Some i /\ (table_b2a i =? 61) = false.
Proof.
  intros Hi.
  pose proof (forall_below 64
    (fun i => bool_decide (table_a2b (table_b2a i) = Some i)
              && negb (table_b2a i =? 61))) as H.
  specialize (H ltac:(vm_compute; reflexivity) i Hi).
  apply andb_true_iff in H as [H1 H2].
  apply bool_decide_eq_true in H1. by apply negb_true_iff in H2.
Qed.

Lemma a2b_step qp lc pads i rest :
  i < 64 ->
  a2b_loop qp lc pads (table_b2a i :: rest) =
    if qp =? 0 then a2b_loop 1 i 0 rest
    else if qp =? 1 then
      cons (N.lor (N.shiftl lc 2) (N.shiftr i 4)) <$> a2b_loop 2 (N.land i 15) 0 rest
    else if qp =? 2 then
      cons (N.lor (N.shiftl lc 4) (N.shiftr i 2)) <$> a2b_loop 3 (N.land i 3) 0 rest
    else cons (N.lor (N.shiftl lc 6) i) <$> a2b_loop 0 0 0 rest.
Proof.
  intros Hi. destruct (table_roundtrip i Hi) as [H1 H2].
  cbn [a2b_loop]. by rewrite H2, H1.
Qed.



Lemma octet_facts a b : a < 256 -> b < 256 -> octet_check a b = true.
Proof.
  apply (forall_below2 256 256 octet_check). vm_compute. reflexivity.
Qed.

Lemma octet_props a b :
  a < 256 -> b < 256 ->
  (s1 a < 64 /\ s2 a b < 64 /\ s3 a b < 64 /\ s4 a < 64 /\ t2 a < 64 /\ t3 a < 64)
  /\ N.lor (N.shiftl (s1 a) 2) (N.shiftr (s2 a b) 4) = a
  /\ N.land (s2 a b) 15 = N.shiftr b 4
  /\ N.lor (N.shiftl (N.shiftr a 4) 4) (N.shiftr (s3 a b) 2) = a
  /\ N.land (s3 a b) 3 = N.shiftr b 6
  /\ N.lor (N.shiftl (N.shiftr a 6) 6) (s4 a) = a
  /\ N.lor (N.shiftl (s1 a) 2) (N.shiftr (t2 a) 4) = a
  /\ N.lor (N.shiftl (N.shiftr a 4) 4) (N.shiftr (t3 a) 2) = a.
Proof.
  intros Ha Hb. pose proof (octet_facts a b Ha Hb) as F. unfold octet_check in F.
  repeat (let G := fresh "G" in apply andb_true_iff in F as [F G]).
  repeat match goal with
         | H : (_ <? _) = true |- _ => apply N.ltb_lt in H
         | H : (_ =? _) = true |- _ => apply N.eqb_eq in H
         end.
  repeat split; assumption.
Qed.

Lemma a2b_b2a_len n : forall data,
  (length data <= n)%nat -> octets data -> a2b_loop 0 0 0 (b2a_base64 data) = Ok data.
Proof.
  induction n as [n IH] using lt_wf_ind. intros data Hlen Hoct.
  destruct data as [|a [|b [|c rest]]]; [done| | |].
  - apply Forall_cons in Hoct as [Ha _].
    destruct (octet_props a a Ha Ha) as ((?&?&?&?&?&?)&_&_&_&_&_&E&_).
    cbn [b2a_base64]. fold (s1 a) (t2 a).
    rewrite !a2b_step by done. cbn -[s1 t2 N.shiftl N.shiftr N.lor N.land].
    by rewrite E.
  - apply Forall_cons in Hoct as [Ha Hoct]. apply Forall_cons in Hoct as [Hb _].
    destruct (octet_props a b Ha Hb) as ((?&?&?&?&?&?)&E1&E2&_).
    destruct (octet_props b b Hb Hb) as ((?&?&?&?&?&?)&_&_&_&_&_&_&E3).
    cbn [b2a_base64]. fold (s1 a) (s2 a b) (t3 b).
    rewrite !a2b_step by done. cbn -[s1 s2 t3 N.shiftl N.shiftr N.lor N.land].
    by rewrite E1, E2, E3.
  - apply Forall_cons in Hoct as [Ha Hoct]. apply Forall_cons in Hoct as [Hb Hoct].
    apply Forall_cons in Hoct as [Hc Hoct].
    destruct (octet_props a b Ha Hb) as ((?&?&?&?&?&?)&E1&E2&_).
    destruct (octet_props b c Hb Hc) as ((?&?&?&?&?&?)&_&_&E3&E4&_).
    destruct (octet_props c c Hc Hc) as ((?&?&?&?&?&?)&_&_&_&_&E5&_).
    cbn [b2a_base64]. fold (s1 a) (s2 a b) (s3 b c) (s4 c).
    rewrite !a2b_step by done. cbn -[s1 s2 s3 s4 N.shiftl N.shiftr N.lor N.land].
    rewrite E1, E2, E3, E4, E5.
    rewrite (IH (length rest)) with (data := rest); [done| |done|done].
    cbn in Hlen. lia.
Qed.

(** [b64decode] inverts [b64encode] on every sequence of octets. *)
Lemma a2b_b2a data : octets data -> a2b_base64 (b2a_base64 data) = Ok data.
Proof. apply (a2b_b2a_len (length data)). done. Qed.

Lemma table_b2a_ascii i : table_b2a i < 128.
Proof.
  unfold table_b2a.
  repeat match goal with
         | |- context [?x <? ?y] => destruct (N.ltb_spec x y)
         | |- context [?x =? ?y] => destruct (N.eqb_spec x y)
         end; lia.
Qed.

(** The encoded text is ASCII. *)
Lemma b2a_ascii data : Forall (fun c => c < 128) (b2a_base64 data).
Proof.
  induction data as [data IH] using (induction_ltof1 _ (@length N)).
  unfold ltof in IH.
  destruct data as [|a [|b [|c rest]]]; cbn [b2a_base64].
  - constructor.
  - repeat constructor; try apply table_b2a_ascii; lia.
  - repeat constructor; try apply table_b2a_ascii; lia.
  - repeat (constructor; [apply table_b2a_ascii|]). apply IH. cbn. lia.
Qed.

Lemma ascii_encode_ascii s :
  Forall (fun c => c < 128) s -> ascii_encode s = Ok s.
Proof.
  intros H. unfold ascii_encode.
  replace (forallb _ s) with true; [done|].
  symmetry. apply forallb_forall. intros x Hx.
  rewrite Forall_forall in H. apply N.ltb_lt, H. by apply list_elem_of_In.
Qed.

Lemma b64decode_b64encode data :
  octets data -> b64decode (b64encode data) = Ok data.
Proof.
  intros H. unfold b64decode, b64encode.
  rewrite ascii_encode_ascii by apply b2a_ascii. by apply a2b_b2a.
Qed.

End Base64Facts.

(** ** UTF-8 on ASCII text *)

Module Utf8Facts.
Import Utf8.
Local Open Scope N_scope.

Lemma encode_ascii s : Forall (fun c => c < 128) s -> encode s = Ok s.
Proof.
  induction 1 as [|c s Hc _ IH]; [done|].
  cbn [encode]. unfold encode_char.
  apply N.ltb_lt in Hc. rewrite Hc. cbn. by rewrite IH.
Qed.

Lemma decode_ascii b : Forall (fun c => c < 128) b -> decode b = Ok b.
Proof.
  induction 1 as [|c s Hc _ IH]; [done|].
  cbn [decode]. apply N.ltb_lt in Hc. rewrite Hc. by rewrite IH.
Qed.

End Utf8Facts.

(** ** JSON: [loads] inverts [dumps] *)

Module JsonFacts.
Import Json.
Local Open Scope N_scope.

(** *** Integers *)

Lemma int_of_digits_snoc ds d :
  int_of_digits (ds ++ [d]) = int_of_digits ds * 10 + (d - 48).
Proof. unfold int_of_digits. by rewrite fold_left_app. Qed.

Lemma digits_fuel_S f n :
  digits_fuel (S f) n =
    (if n <? 10 then [] else digits_fuel f (n / 10)) ++ [48 + n mod 10].
Proof. reflexivity. Qed.

Lemma digits_fuel_spec f : forall n,
  n < 2 ^ N.of_nat f ->
  int_of_digits (digits_fuel (S f) n) = n
  /\ Forall (fun c => is_digit c = true) (digits_fuel (S f) n)
  /\ (exists c t, digits_fuel (S f) n = c :: t
                  /\ (if n =? 0 then c = 48 /\ t = [] else 49 <= c <= 57)).
Proof.
  induction f as [|f IH]; intros n Hn.
  - assert (n = 0) as -> by (cbn in Hn; lia). cbn. repeat split; eauto.
  - rewrite (digits_fuel_S (S f) n).
    assert (Hd : is_digit (48 + n mod 10) = true).
    { unfold is_digit. pose proof (N.mod_upper_bound n 10 ltac:(lia)) as U.
      revert U. generalize (n mod 10). clear. intros r U.
      apply andb_true_iff. split; apply N.leb_le; lia. }
    destruct (N.ltb_spec n 10) as [Hlt|Hge].
    + rewrite N.mod_small by done. cbn [app]. repeat split.
      * unfold int_of_digits. cbn [fold_left]. clear. lia.
      * rewrite N.mod_small in Hd by done. by constructor.
      * exists (48 + n), []. split; [done|].
        destruct (N.eqb_spec n 0); [split; [lia|done]|lia].
    + assert (Hq : n / 10 < 2 ^ N.of_nat f).
      { apply N.Div0.div_lt_upper_bound.
        rewrite Nat2N.inj_succ, N.pow_succ_r' in Hn.
        revert Hn. generalize (2 ^ N.of_nat f). clear. lia. }
      destruct (IH _ Hq) as (E & D & c & t & Ect & Hc). repeat split.
      * rewrite int_of_digits_snoc, E.
        pose proof (N.div_mod n 10 ltac:(lia)) as Hdm.
        revert Hdm. generalize (n / 10) (n mod 10). clear. lia.
      * apply Forall_app. split; [done|]. by constructor.
      * rewrite Ect. exists c, (t ++ [48 + n mod 10]). split; [done|].
        assert (n / 10 <> 0).
        { intros Hz. apply N.div_small_iff in Hz; clear -Hz Hge; lia. }
        destruct (N.eqb_spec n 0); [lia|].
        destruct (N.eqb_spec (n / 10) 0); [lia|done].
Qed.

Lemma digits_spec n :
  int_of_digits (digits n) = n
  /\ Forall (fun c => is_digit c = true) (digits n)
  /\ (exists c t, digits n = c :: t
                  /\ (if n =? 0 then c = 48 /\ t = [] else 49 <= c <= 57)).
Proof.
  apply digits_fuel_spec. rewrite N2Nat.id. apply N.size_gt.
Qed.


(** *** Bit operations as arithmetic *)

Lemma lor_shiftl_add x y k : y < 2 ^ k -> N.lor (N.shiftl x k) y = x * 2 ^ k + y.
Proof.
  intros Hy. rewrite <- N.shiftl_mul_pow2.
  assert (Hd : N.land (N.shiftl x k) y = 0).
  { apply N.bits_inj. intros n. rewrite N.land_spec, N.bits_0.
    destruct (N.lt_ge_cases n k) as [Hn|Hn].
    - by rewrite N.shiftl_spec_low.
    - destruct (N.eq_dec y 0) as [->|Hy0]; [by rewrite N.bits_0, andb_false_r|].
      rewrite (N.bits_above_log2 y n), andb_false_r; [done|].
      apply N.lt_le_trans with k; [|done].
      apply N.log2_lt_pow2; [lia|done]. }
  by rewrite <- N.lxor_lor, <- N.add_nocarry_lxor.
Qed.

Lemma land_low x k : N.land x (N.ones k) = x mod 2 ^ k.
Proof. apply N.land_ones. Qed.

Lemma hex_val_digit d : d < 16 -> hex_val (hex_digit d) = Some d.
Proof.
  intros Hd.
  pose proof (Base64Facts.forall_below 16
    (fun d => bool_decide (hex_val (hex_digit d) = Some d))) as H.
  specialize (H ltac:(vm_compute; reflexivity) d Hd).
  by apply bool_decide_eq_true in H.
Qed.

Lemma hex_digit_ascii d : d < 16 -> hex_digit d < 128.
Proof. intros Hd. unfold hex_digit. destruct (N.ltb_spec d 10); lia. Qed.

Lemma nibble_lt c k : N.land (N.shiftr c k) 15 < 16.
Proof.
  change 15 with (N.ones 4). rewrite land_low. by apply N.mod_upper_bound.
Qed.

(** The four hexadecimal digits written by [u_escape] are read back. *)
Lemma hex4_u_escape c :
  c < 0x10000 ->
  hex4 (hex_digit (N.land (N.shiftr c 12) 15)) (hex_digit (N.land (N.shiftr c 8) 15))
       (hex_digit (N.land (N.shiftr c 4) 15)) (hex_digit (N.land c 15)) = Some c.
Proof.
  intros Hc. unfold hex4.
  rewrite !hex_val_digit by (apply nibble_lt || apply (nibble_lt c 0)).
  cbn [mbind option_bind]. f_equal.
  rewrite !(lor_shiftl_add _ _ 4) by (apply nibble_lt || apply (nibble_lt c 0)).
  change 15 with (N.ones 4). rewrite !land_low, !N.shiftr_div_pow2.
  change (2 ^ 4) with 16. change (2 ^ 8) with (16 * 16).
  change (2 ^ 12) with (16 * 16 * 16).
  rewrite <- !N.Div0.div_div.
  pose proof (N.div_mod c 16 ltac:(lia)) as E0.
  pose proof (N.mod_upper_bound c 16 ltac:(lia)) as U0. revert E0 U0.
  generalize (c mod 16). set (c1 := c / 16).
  pose proof (N.div_mod c1 16 ltac:(lia)) as E1.
  pose proof (N.mod_upper_bound c1 16 ltac:(lia)) as U1. revert E1 U1.
  generalize (c1 mod 16). set (c2 := c1 / 16).
  pose proof (N.div_mod c2 16 ltac:(lia)) as E2.
  pose proof (N.mod_upper_bound c2 16 ltac:(lia)) as U2. revert E2 U2.
  generalize (c2 mod 16). set (c3 := c2 / 16).
  assert (E3 : c3 mod 16 = c3).
  { apply N.mod_small. unfold c3, c2, c1. rewrite !N.Div0.div_div.
    apply N.Div0.div_lt_upper_bound. lia. }
  rewrite E3. clearbody c3 c2 c1. intros. lia.
Qed.


(** A code point above the basic plane and its surrogate pair. *)
Lemma surrogate_pair c :
  0x10000 <= c < 0x110000 ->
  high_surrogate c < 0x10000 /\ low_surrogate c < 0x10000
  /\ is_high_surrogate (high_surrogate c) = true
  /\ is_low_surrogate (low_surrogate c) = true
  /\ join_surrogates (high_surrogate c) (low_surrogate c) = c.
Proof.
  intros Hc. unfold high_surrogate, low_surrogate, join_surrogates,
    is_high_surrogate, is_low_surrogate.
  change 0x3FF with (N.ones 10). rewrite !land_low, N.shiftr_div_pow2.
  change (2 ^ 10) with 1024. change (0xD800 - 0x40) with 55232.
  pose proof (N.div_mod c 1024 ltac:(lia)) as E.
  pose proof (N.mod_upper_bound c 1024 ltac:(lia)) as U.
  revert E U. generalize (c mod 1024). generalize (c / 1024). intros q r E U.
  assert (Hq : 64 <= q < 1088) by lia.
  assert (Hhi : (55232 + q) mod 1024 = q - 64).
  { replace (55232 + q) with ((q - 64) + 54 * 1024) by lia.
    rewrite N.Div0.mod_add. apply N.mod_small. lia. }
  assert (Hlo : (56320 + r) mod 1024 = r).
  { replace (56320 + r) with (r + 55 * 1024) by lia.
    rewrite N.Div0.mod_add. by apply N.mod_small. }
  rewrite Hhi, Hlo, (lor_shiftl_add _ _ 10) by done.
  change (2 ^ 10) with 1024.
  repeat split; try lia.
  - apply andb_true_iff. split; apply N.leb_le; lia.
  - apply andb_true_iff. split; apply N.leb_le; lia.
Qed.


(** *** Strings *)

Lemma scanstring_u h1 h2 h3 h4 b r6 :
  scanstring (92 :: 117 :: h1 :: h2 :: h3 :: h4 :: b :: r6) =
  match hex4 h1 h2 h3 h4 with
  | None => decode_error "Invalid \uXXXX escape"
  | Some c1 =>
      match r6 with
      | u :: g1 :: g2 :: g3 :: g4 :: (_ :: _) as r11 =>
          if is_high_surrogate c1 && (b =? 92) && (u =? 117) then
            match hex4 g1 g2 g3 g4 with
            | None => decode_error "Invalid \uXXXX escape"
            | Some c2 =>
                if is_low_surrogate c2
                then push (join_surrogates c1 c2) (scanstring r11)
                else push c1 (scanstring (b :: r6))
            end
          else push c1 (scanstring (b :: r6))
      | _ => push c1 (scanstring (b :: r6))
      end
  end.
Proof.
  cbn [scanstring]. change (92 =? 34) with false. change (92 =? 92) with true.
  change (117 =? 117) with true. cbv iota.
  destruct (hex4 h1 h2 h3 h4); [|done].
  by destruct r6 as [|u [|g1 [|g2 [|g3 [|g4 [|x r]]]]]].
Qed.

Lemma scanstring_u_single h1 h2 h3 h4 c t :
  hex4 h1 h2 h3 h4 = Some c -> is_high_surrogate c = false -> t <> [] ->
  scanstring (92 :: 117 :: h1 :: h2 :: h3 :: h4 :: t) = push c (scanstring t).
Proof.
  intros Hh Hc Ht. destruct t as [|b r6]; [done|].
  rewrite scanstring_u, Hh.
  destruct r6 as [|u [|g1 [|g2 [|g3 [|g4 [|x r]]]]]]; try done.
  by rewrite Hc.
Qed.

Lemma scanstring_u_pair h1 h2 h3 h4 g1 g2 g3 g4 hi lo t :
  hex4 h1 h2 h3 h4 = Some hi -> hex4 g1 g2 g3 g4 = Some lo ->
  is_high_surrogate hi = true -> is_low_surrogate lo = true -> t <> [] ->
  scanstring (92 :: 117 :: h1 :: h2 :: h3 :: h4
              :: 92 :: 117 :: g1 :: g2 :: g3 :: g4 :: t)
  = push (join_surrogates hi lo) (scanstring t).
Proof.
  intros Hh Hg Hhi Hlo Ht. destruct t as [|x r]; [done|].
  by rewrite scanstring_u, Hh, Hhi, Hg, Hlo.
Qed.

Lemma scalar_not_high c : Utf8.is_scalar c = true -> is_high_surrogate c = false.
Proof.
  unfold Utf8.is_scalar, Utf8.is_surrogate, is_high_surrogate.
  intros H. apply andb_true_iff in H as [_ H]. apply negb_true_iff in H.
  apply andb_false_iff in H. apply andb_false_iff.
  destruct H as [H|H]; [by left|right].
  apply N.leb_gt in H. apply N.leb_gt. lia.
Qed.

(** One escaped character is read back as that character. *)
Lemma scanstring_escape c t :
  Utf8.is_scalar c = true -> t <> [] ->
  scanstring (escape_char c ++ t) = push c (scanstring t).
Proof.
  intros Hc Ht. unfold escape_char.
  repeat match goal with
         | |- context [?x =? ?k] => destruct (N.eqb_spec x k) as [->|?]; [done|]
         end.
  destruct ((32 <=? c) && (c <=? 126)) eqn:H.
  - apply andb_true_iff in H as [H1 H2].
    apply N.leb_le in H1, H2. cbn [app scanstring].
    rewrite (proj2 (N.eqb_neq c 34)), (proj2 (N.eqb_neq c 92)) by done.
    by rewrite (proj2 (N.leb_gt c 31)) by lia.
  - destruct (N.ltb_spec c 0x10000) as [Hlt|Hge].
    + apply scanstring_u_single; [by apply hex4_u_escape|by apply scalar_not_high|done].
    + assert (Hr : 0x10000 <= c < 0x110000).
      { split; [done|]. unfold Utf8.is_scalar in Hc.
        apply andb_true_iff in Hc as [Hc _]. by apply N.ltb_lt in Hc. }
      destruct (surrogate_pair c Hr) as (B1 & B2 & S1 & S2 & J).
      rewrite <- J at 3. unfold u_escape. cbn [app].
      by apply scanstring_u_pair; [apply hex4_u_escape|apply hex4_u_escape|..].
Qed.

Lemma scanstring_escaped s rest :
  forallb Utf8.is_scalar s = true ->
  scanstring (flat_map escape_char s ++ 34 :: rest) = Ok (s, rest).
Proof.
  induction s as [|c s IH]; intros Hs; [done|].
  cbn [forallb] in Hs. apply andb_true_iff in Hs as [Hc Hs].
  cbn [flat_map]. rewrite <- app_assoc.
  rewrite scanstring_escape; [|done|by destruct (flat_map escape_char s)].
  by rewrite IH.
Qed.


(** *** Numbers *)

Lemma stops_head c rest :
  stops (c :: rest) = true ->
  is_digit c = false /\ (c =? 46) = false /\ (c =? 101) = false /\ (c =? 69) = false.
Proof.
  cbn [stops]. intros H.
  repeat (apply andb_true_iff in H as [H ?]).
  repeat match goal with H : negb _ = true |- _ => apply negb_true_iff in H end.
  done.
Qed.

Lemma span_digits_app ds rest :
  Forall (fun c => is_digit c = true) ds -> stops rest = true ->
  span_digits (ds ++ rest) = (ds, rest).
Proof.
  intros Hds Hrest. induction Hds as [|c ds Hc _ IH].
  - destruct rest as [|c rest]; [done|].
    apply stops_head in Hrest as (Hd & _). cbn [app span_digits]. by rewrite Hd.
  - cbn [app span_digits]. by rewrite Hc, IH.
Qed.

Lemma number_tail_stops neg ip rest :
  stops rest = true ->
  number_tail neg ip rest =
    (VInt (if neg then - Z.of_N (int_of_digits ip) else Z.of_N (int_of_digits ip))%Z,
     rest).
Proof.
  intros Hrest. unfold number_tail.
  destruct rest as [|c rest]; [done|].
  apply stops_head in Hrest as (Hd & Hp & He1 & He2).
  destruct rest as [|d rest].
  - cbv zeta. cbn [orb andb]. rewrite He1, He2. done.
  - rewrite Hp. cbn [andb]. cbv iota zeta. rewrite He1, He2. done.
Qed.

Lemma match_number_digits (neg : bool) n rest :
  stops rest = true ->
  match_number ((if neg then [45] else []) ++ digits n ++ rest) =
    Ok (VInt (if neg then - Z.of_N n else Z.of_N n)%Z, rest).
Proof.
  intros Hrest.
  destruct (digits_spec n) as (E & D & c & t & Ect & Hc).
  assert (Hs1 : match_number ((if neg then [45] else []) ++ digits n ++ rest) =
                if (49 <=? c) && (c <=? 57)
                then let '(ds, t') := span_digits (t ++ rest) in
                     Ok (number_tail neg (c :: ds) t')
                else if c =? 48 then Ok (number_tail neg [48] (t ++ rest))
                else expecting_value).
  { rewrite Ect. destruct neg; [done|].
    unfold match_number. cbn [app].
    replace (c =? 45) with false; [done|].
    symmetry. apply N.eqb_neq. intros ->.
    rewrite Ect in D. apply Forall_cons in D as [D _]. done. }
  rewrite Hs1. clear Hs1. rewrite Ect in D, E.
  apply Forall_cons in D as [Dc Dt].
  destruct (N.eqb_spec n 0) as [->|Hn].
  - destruct Hc as [-> ->]. cbn [app]. change ((49 <=? 48) && (48 <=? 57)) with false.
    cbv iota. change (48 =? 48) with true. cbv iota.
    by rewrite number_tail_stops.
  - replace ((49 <=? c) && (c <=? 57)) with true.
    2:{ symmetry. apply andb_true_iff. split; apply N.leb_le; lia. }
    rewrite span_digits_app by done.
    by rewrite number_tail_stops, E.
Qed.

Lemma match_number_repr z rest :
  stops rest = true -> match_number (repr_int z ++ rest) = Ok (VInt z, rest).
Proof.
  intros Hrest. unfold repr_int.
  destruct (Z.ltb_spec z 0) as [Hz|Hz].
  - etrans; [apply (match_number_digits true (Z.abs_N z) rest Hrest)|].
    do 3 f_equal. rewrite N2Z.inj_abs_N. lia.
  - etrans; [apply (match_number_digits false (Z.abs_N z) rest Hrest)|].
    do 3 f_equal. rewrite N2Z.inj_abs_N. lia.
Qed.


(** *** Values *)

Lemma digit_head_facts c :
  is_digit c = true \/ c = 45 ->
  is_ws c = false /\ (c =? 34) = false /\ (c =? 123) = false /\ (c =? 91) = false
  /\ (c =? 93) = false /\ (c =? 125) = false
  /\ (110 =? c) = false /\ (116 =? c) = false /\ (102 =? c) = false
  /\ (78 =? c) = false /\ (73 =? c) = false.
Proof.
  intros [H| ->]; [|done].
  unfold is_digit in H. apply andb_true_iff in H as [H1 H2].
  apply N.leb_le in H1, H2. unfold is_ws.
  repeat split; repeat (apply orb_false_iff; split); apply N.eqb_neq; lia.
Qed.

Lemma repr_int_head z :
  exists c t, repr_int z = c :: t /\ (is_digit c = true \/ c = 45)
              /\ (c = 45 -> exists d t', t = d :: t' /\ is_digit d = true).
Proof.
  unfold repr_int.
  destruct (digits_spec (Z.abs_N z)) as (_ & D & c & t & Ect & _).
  rewrite Ect in D. apply Forall_cons in D as [Dc _].
  destruct (z <? 0)%Z.
  - exists 45, (digits (Z.abs_N z)). split; [done|]. split; [by right|].
    intros _. rewrite Ect. eauto.
  - exists c, t. rewrite Ect. split; [done|]. split; [by left|].
    intros ->. done.
Qed.

Lemma match_constant_repr z rest : match_constant (repr_int z ++ rest) = None.
Proof.
  destruct (repr_int_head z) as (c & t & E & Hc & Hneg). rewrite E.
  destruct (digit_head_facts c Hc) as (_ & _ & _ & _ & _ & _ & N1 & N2 & N3 & N4 & N5).
  unfold match_constant. cbn [app lit List.map list_ascii_of_string strip].
  change (N_of_ascii "n") with 110. change (N_of_ascii "t") with 116.
  change (N_of_ascii "f") with 102. change (N_of_ascii "N") with 78.
  change (N_of_ascii "I") with 73. change (N_of_ascii "-") with 45.
  rewrite N1, N2, N3, N4, N5.
  destruct (N.eqb_spec 45 c) as [<-|]; [|done].
  destruct (Hneg eq_refl) as (d & t' & -> & Hd). cbn [app].
  destruct (digit_head_facts d (or_introl Hd)) as (_ & _ & _ & _ & _ & _ & _ & _ & _ & _ & M).
  by rewrite M.
Qed.

Lemma scan_once_int f z rest :
  stops rest = true -> scan_once (S f) (repr_int z ++ rest) = Done (VInt z, rest).
Proof.
  intros Hrest. pose proof (match_constant_repr z rest) as Hm.
  pose proof (match_number_repr z rest Hrest) as Hn.
  destruct (repr_int_head z) as (c & t & E & Hc & _).
  destruct (digit_head_facts c Hc) as (_ & Q1 & Q2 & Q3 & _).
  rewrite E in *. cbn [app] in *. cbn [scan_once].
  by rewrite Q1, Q2, Q3, Hm, Hn.
Qed.

Lemma scan_once_str f s rest :
  forallb Utf8.is_scalar s = true ->
  scan_once (S f) (dumps_str s ++ rest) = Done (VStr s, rest).
Proof.
  intros Hs. unfold dumps_str. cbn [app scan_once].
  change (34 =? 34) with true. cbv iota.
  rewrite <- app_assoc. cbn [app]. by rewrite scanstring_escaped.
Qed.

Lemma skip_ws_head c t : is_ws c = false -> skip_ws (c :: t) = c :: t.
Proof. intros H. cbn [skip_ws]. by rewrite H. Qed.

(** The first character of a value's text: not white space and not a
    closing bracket. *)
Lemma dumps_head v :
  plain v = true ->
  exists c t, dumps v = c :: t /\ is_ws c = false
              /\ (c =? 93) = false /\ (c =? 125) = false.
Proof.
  destruct v as [|[]|z|x|s|l|d]; intros Hv; try done;
    try (by eexists _, _; split; [reflexivity|done]).
  destruct (repr_int_head z) as (c & t & E & Hc & _).
  destruct (digit_head_facts c Hc) as (W & _ & _ & _ & B1 & B2 & _).
  exists c, t. by rewrite <- E.
Qed.

Lemma dict_set_fresh (acc : dict) k v :
  k ∉ List.map fst acc -> dict_set acc k v = acc ++ [(k, v)].
Proof.
  induction acc as [|[k' v'] acc IH]; intros Hk; [done|].
  cbn [dict_set]. cbn [List.map fst] in Hk.
  apply not_elem_of_cons in Hk as [Hne Hk].
  unfold str_eqb. rewrite bool_decide_eq_false_2 by done.
  cbn [app]. by rewrite IH.
Qed.


Lemma dumps_list l : dumps (VList l) = 91 :: join (lit ", ") (List.map dumps l) ++ [93].
Proof. reflexivity. Qed.

Lemma dumps_dict d :
  dumps (VDict d) = 123 :: join (lit ", ") (List.map dumps_item d) ++ [125].
Proof. reflexivity. Qed.

Lemma plain_dict d :
  plain (VDict d) = forallb plain_item d && bool_decide (NoDup (List.map fst d)).
Proof. reflexivity. Qed.

Lemma size_list l : size (VList l) = S (list_sum (List.map (fun x => S (size x)) l)).
Proof. reflexivity. Qed.

Lemma size_dict d : size (VDict d) = S (list_sum (List.map size_item d)).
Proof. reflexivity. Qed.

Lemma join_cons sep x y r : join sep (x :: y :: r) = x ++ sep ++ join sep (y :: r).
Proof. reflexivity. Qed.

Lemma join_dumps_head l rest :
  l <> [] -> forallb plain l = true ->
  exists c t, join (lit ", ") (List.map dumps l) ++ rest = c :: t
              /\ is_ws c = false /\ (c =? 93) = false.
Proof.
  destruct l as [|x l]; [done|]. intros _ Hl.
  cbn [forallb] in Hl. apply andb_true_iff in Hl as [Hx _].
  destruct (dumps_head x Hx) as (c & t & E & W & B & _).
  destruct l as [|y l]; cbn [List.map]; [cbn [join]|rewrite join_cons];
    rewrite E; eexists _, _; (split; [reflexivity|done]).
Qed.

Lemma join_items_head d rest :
  d <> [] ->
  exists t, join (lit ", ") (List.map dumps_item d) ++ rest = 34 :: t.
Proof.
  destruct d as [|[k x] [|y d]]; [done|..]; intros _;
    cbn [List.map]; [cbn [join]|rewrite join_cons];
    unfold dumps_item at 1, dumps_str; cbn [app]; eauto.
Qed.

Lemma scan_step n : scan_spec n -> elems_spec n -> pairs_spec n -> scan_spec (S n).
Proof.
  intros IHs IHe IHp v rest Hv Hsz Hrest.
  destruct v as [|[]|z|x|s|l|d]; try done.
  - by apply scan_once_int.
  - by apply scan_once_str.
  - rewrite dumps_list. cbn [app scan_once].
    change (91 =? 34) with false. change (91 =? 123) with false.
    change (91 =? 91) with true. cbv iota.
    destruct l as [|x l]; [done|].
    rewrite <- app_assoc. cbn [app].
    destruct (join_dumps_head (x :: l) (93 :: rest)) as (c & t & E & W & B);
      [done|done|].
    rewrite E, skip_ws_head, B by done. rewrite <- E.
    rewrite size_list in Hsz. apply (IHe (x :: l) []); [done|done|lia].
  - rewrite dumps_dict. cbn [app scan_once].
    change (123 =? 34) with false. change (123 =? 123) with true. cbv iota.
    destruct d as [|kx d]; [done|].
    rewrite <- app_assoc. cbn [app].
    destruct (join_items_head (kx :: d) (125 :: rest)) as (t & E); [done|].
    rewrite E, skip_ws_head by done. change (34 =? 125) with false. cbv iota.
    rewrite <- E. rewrite plain_dict in Hv. apply andb_true_iff in Hv as [Hp Hnd].
    apply bool_decide_eq_true in Hnd. rewrite size_dict in Hsz.
    apply (IHp (kx :: d) []); [done|done|done|lia].
Qed.


Lemma stops_close rest : stops (93 :: rest) = true /\ stops (125 :: rest) = true
                         /\ stops (44 :: rest) = true.
Proof. done. Qed.

Lemma skip_ws_space t : skip_ws (32 :: t) = skip_ws t.
Proof. reflexivity. Qed.

Lemma elems_step n : scan_spec n -> elems_spec n -> elems_spec (S n).
Proof.
  intros IHs IHe l acc rest Hne Hl Hsz.
  destruct l as [|x l]; [done|]. clear Hne.
  cbn [forallb] in Hl. apply andb_true_iff in Hl as [Hx Hl].
  destruct l as [|y l]; cbn [List.map list_sum fold_right] in Hsz.
  - cbn [List.map join parse_elems].
    rewrite IHs; [|done|lia|done]. cbn [mbind scan_bind skip_ws is_ws].
    change (93 =? 93) with true. done.
  - cbn [List.map]. rewrite join_cons, <- !app_assoc.
    destruct (join_dumps_head (y :: l) (93 :: rest)) as (c & t & E & W & B);
      [done|done|].
    assert (IH' := IHe (y :: l) (acc ++ [x]) rest ltac:(done) Hl
                   ltac:(cbn [List.map list_sum fold_right]; lia)).
    cbn [List.map] in E, IH'. rewrite <- app_assoc in IH'.
    revert E IH'. generalize (join (lit ", ") (dumps y :: List.map dumps l) ++ 93 :: rest).
    intros tail -> IH'.
    cbn [parse_elems]. rewrite IHs; [|done|lia|done].
    cbn [mbind scan_bind]. change (lit ", " ++ c :: t) with (44 :: 32 :: c :: t).
    rewrite (skip_ws_head 44) by done.
    change (44 =? 93) with false. change (44 =? 44) with true. cbv iota.
    by rewrite skip_ws_space, skip_ws_head, IH' by done.
Qed.


Lemma parse_pairs_item n k x tail acc :
  scan_spec n -> forallb Utf8.is_scalar k = true -> plain x = true ->
  (size x <= n)%nat -> stops tail = true -> k ∉ List.map fst acc ->
  parse_pairs (S n) (dumps_item (k, x) ++ tail) acc =
    match skip_ws tail with
    | c4 :: t4 =>
        if c4 =? 125 then Done (VDict (acc ++ [(k, x)]), t4)
        else if c4 =? 44 then parse_pairs n (skip_ws t4) (acc ++ [(k, x)])
        else lift (decode_error "Expecting ',' delimiter")
    | [] => lift (decode_error "Expecting ',' delimiter")
    end.
Proof.
  intros IHs Hk Hx Hsz Htail Hfresh.
  unfold dumps_item, dumps_str. cbn [app]. rewrite <- !app_assoc.
  cbn [app parse_pairs]. change (34 =? 34) with true. cbv iota.
  rewrite scanstring_escaped by done. cbn [lift mbind scan_bind].
  change (lit ": " ++ dumps x ++ tail) with (58 :: 32 :: dumps x ++ tail).
  rewrite (skip_ws_head 58) by done. change (58 =? 58) with true. cbv iota.
  rewrite skip_ws_space.
  destruct (dumps_head x Hx) as (c & t & E & W & _).
  assert (Hskip : skip_ws (dumps x ++ tail) = dumps x ++ tail).
  { rewrite E. cbn [app]. by apply skip_ws_head. }
  rewrite Hskip, IHs by done. cbn [mbind scan_bind].
  by rewrite dict_set_fresh.
Qed.

Lemma pairs_step n : scan_spec n -> pairs_spec n -> pairs_spec (S n).
Proof.
  intros IHs IHp d acc rest Hne Hd Hnd Hsz.
  destruct d as [|[k x] d]; [done|]. clear Hne.
  cbn [forallb plain_item] in Hd. apply andb_true_iff in Hd as [Hkx Hd].
  apply andb_true_iff in Hkx as [Hk Hx].
  assert (Hfresh : k ∉ List.map fst acc).
  { rewrite List.map_app in Hnd. apply NoDup_app in Hnd as (_ & Hnd & _).
    intros Hin. apply (Hnd k Hin). cbn [List.map fst]. left. }
  destruct d as [|y d]; cbn [List.map list_sum fold_right] in Hsz;
    unfold size_item at 1 in Hsz.
  - cbn [List.map join].
    rewrite parse_pairs_item; [|done|done|done|lia|done|done].
    rewrite (skip_ws_head 125) by done. by change (125 =? 125) with true.
  - cbn [List.map]. rewrite join_cons, <- !app_assoc.
    destruct (join_items_head (y :: d) (125 :: rest)) as (t & E); [done|].
    assert (IH' := IHp (y :: d) (acc ++ [(k, x)]) rest ltac:(done) Hd).
    rewrite <- app_assoc in IH'. specialize (IH' Hnd ltac:(cbn [List.map list_sum fold_right]; lia)).
    cbn [List.map] in E, IH'.
    revert E IH'.
    generalize (join (lit ", ") (dumps_item y :: List.map dumps_item d) ++ 125 :: rest).
    intros tail -> IH'.
    rewrite parse_pairs_item; [|done|done|done|lia|done|done].
    change (lit ", " ++ 34 :: t) with (44 :: 32 :: 34 :: t).
    rewrite (skip_ws_head 44) by done.
    change (44 =? 125) with false. change (44 =? 44) with true. cbv iota.
    rewrite skip_ws_space, (skip_ws_head 34) by done. exact IH'.
Qed.

(** Enough fuel reads back every plain value. *)
Lemma scan_all n : scan_spec n /\ elems_spec n /\ pairs_spec n.
Proof.
  induction n as [|n (IHs & IHe & IHp)].
  - repeat split.
    + intros v rest _ Hsz _. destruct v; cbn in Hsz; lia.
    + intros [|x l] acc rest Hne _ Hsz; [done|]. cbn in Hsz. lia.
    + intros [|[k x] d] acc rest Hne _ _ Hsz; [done|]. cbn in Hsz. lia.
  - repeat split; [by apply scan_step|by apply elems_step|by apply pairs_step].
Qed.


(** *** Induction over values, and the size and alphabet of their text *)

Lemma value_nested_ind (P : value -> Prop) :
  P VNone -> (forall b, P (VBool b)) -> (forall z, P (VInt z)) ->
  (forall x, P (VFloat x)) -> (forall s, P (VStr s)) ->
  (forall l, Forall P l -> P (VList l)) ->
  (forall d, Forall (fun kv => P kv.2) d -> P (VDict d)) ->
  forall v, P v.
Proof.
  intros HN HB HI HF HS HL HD. fix IH 1.
  intros [|b|z|x|s|l|d]; [apply HN|apply HB|apply HI|apply HF|apply HS| |].
  - apply HL. induction l as [|x l IHl]; constructor; [apply IH|exact IHl].
  - apply HD. induction d as [|[k x] d IHd]; constructor; [apply IH|exact IHd].
Qed.

Lemma u_escape_ascii c : ascii_text (u_escape c).
Proof.
  unfold u_escape.
  repeat (constructor; [first [apply hex_digit_ascii; first [apply nibble_lt|apply (nibble_lt c 0)]|done]|]).
  constructor.
Qed.

Lemma escape_char_ascii c : ascii_text (escape_char c).
Proof.
  unfold escape_char.
  repeat match goal with
         | |- context [?x =? ?k] => destruct (N.eqb_spec x k) as [->|?];
                                    [by repeat constructor|]
         end.
  destruct ((32 <=? c) && (c <=? 126)) eqn:H.
  - apply andb_true_iff in H as [_ H]. apply N.leb_le in H.
    constructor; [lia|constructor].
  - destruct (c <? 0x10000); [apply u_escape_ascii|].
    apply Forall_app. split; apply u_escape_ascii.
Qed.

Lemma dumps_str_ascii s : ascii_text (dumps_str s).
Proof.
  unfold dumps_str. constructor; [done|]. apply Forall_app. split.
  - induction s as [|c s IH]; [constructor|].
    cbn [flat_map]. apply Forall_app. split; [apply escape_char_ascii|done].
  - by repeat constructor.
Qed.

Lemma repr_int_ascii z : ascii_text (repr_int z).
Proof.
  assert (H : forall n, ascii_text (digits n)).
  { intros n. destruct (digits_spec n) as (_ & D & _).
    eapply Forall_impl; [exact D|]. intros c Hc. cbn beta in Hc.
    unfold is_digit in Hc. apply andb_true_iff in Hc as [_ Hc].
    apply N.leb_le in Hc. lia. }
  unfold repr_int. destruct (z <? 0)%Z; [constructor; [done|]|]; apply H.
Qed.

Lemma join_ascii l : Forall ascii_text l -> ascii_text (join (lit ", ") l).
Proof.
  induction 1 as [|x l Hx Hl IH]; [constructor|].
  destruct l as [|y l]; [done|].
  rewrite join_cons. apply Forall_app. split; [done|].
  apply Forall_app. split; [by repeat constructor|done].
Qed.

(** The text of a plain value is ASCII. *)
Lemma dumps_ascii v : plain v = true -> ascii_text (dumps v).
Proof.
  induction v as [|[]|z|x|s|l IH|d IH] using value_nested_ind; intros Hv;
    try done; try (by repeat constructor).
  - apply repr_int_ascii.
  - apply dumps_str_ascii.
  - rewrite dumps_list. constructor; [done|]. apply Forall_app.
    split; [|by repeat constructor]. apply join_ascii.
    cbn [plain] in Hv. fold plain in Hv.
    induction IH as [|x l Hx _ IHl]; [constructor|].
    cbn [forallb] in Hv. apply andb_true_iff in Hv as [H1 H2].
    cbn [List.map]. constructor; auto.
  - rewrite dumps_dict. constructor; [done|]. apply Forall_app.
    split; [|by repeat constructor]. apply join_ascii.
    rewrite plain_dict in Hv. apply andb_true_iff in Hv as [Hv _].
    induction IH as [|[k x] d Hx _ IHd]; [constructor|].
    cbn [forallb plain_item] in Hv. apply andb_true_iff in Hv as [H1 H2].
    apply andb_true_iff in H1 as [_ H1].
    cbn [List.map]. constructor; [|auto].
    unfold dumps_item. apply Forall_app. split; [apply dumps_str_ascii|].
    apply Forall_app. split; [by repeat constructor|exact (Hx H1)].
Qed.


Lemma join_length_bound {A} (f : A -> str) (g : A -> nat) (l : list A) :
  l <> [] -> Forall (fun x => (g x <= length (f x))%nat) l ->
  (list_sum (List.map (fun x => S (g x)) l)
   <= S (length (join (lit ", ") (List.map f l))))%nat.
Proof.
  intros Hne Hl. induction Hl as [|x l Hx Hl IH]; [done|]. clear Hne.
  destruct l as [|y l].
  - cbn [List.map list_sum fold_right join]. lia.
  - specialize (IH ltac:(done)). cbn [List.map] in *. rewrite join_cons.
    rewrite !length_app. cbn [list_sum fold_right] in *.
    change (length (lit ", ")) with 2%nat. lia.
Qed.

(** The fuel [loads] gives the scanner covers the size of the value. *)
Lemma size_le_length v : plain v = true -> (size v <= length (dumps v))%nat.
Proof.
  induction v as [|[]|z|x|s|l IH|d IH] using value_nested_ind; intros Hv;
    try done; try (cbn; lia).
  - destruct (repr_int_head z) as (c & t & E & _). cbn [dumps size].
    rewrite E. cbn [length]. lia.
  - rewrite dumps_list, size_list. cbn [length]. rewrite length_app.
    destruct l as [|x l]; [cbn; lia|].
    pose proof (join_length_bound dumps size (x :: l) ltac:(done)) as H.
    cbn [plain] in Hv. fold plain in Hv.
    assert (Hall : Forall (fun x => (size x <= length (dumps x))%nat) (x :: l)).
    { clear H. revert Hv IH. generalize (x :: l). intros l' Hv IH.
      induction IH as [|y l'' Hy _ IHl]; [constructor|].
      cbn [forallb] in Hv. apply andb_true_iff in Hv as [H1 H2].
      constructor; auto. }
    specialize (H Hall). cbn [length]. lia.
  - rewrite dumps_dict, size_dict. cbn [length]. rewrite length_app.
    destruct d as [|kx d]; [cbn; lia|].
    pose proof (join_length_bound dumps_item (fun kv => size kv.2) (kx :: d)
                  ltac:(done)) as H.
    rewrite plain_dict in Hv. apply andb_true_iff in Hv as [Hv _].
    assert (Hall : Forall (fun kv => (size kv.2 <= length (dumps_item kv))%nat)
                     (kx :: d)).
    { clear H. revert Hv IH. generalize (kx :: d). intros d' Hv IH.
      induction IH as [|[k y] d'' Hy _ IHd]; [constructor|].
      cbn [forallb plain_item] in Hv. apply andb_true_iff in Hv as [H1 H2].
      apply andb_true_iff in H1 as [_ H1].
      constructor; [|auto]. cbn [snd]. unfold dumps_item.
      rewrite !length_app. specialize (Hy H1). cbn [snd] in Hy. lia. }
    specialize (H Hall). cbn [length].
    replace (List.map size_item (kx :: d))
      with (List.map (fun kv : str * value => S (size kv.2)) (kx :: d)).
    2:{ apply List.map_ext. by intros []. }
    lia.
Qed.

(** [json.loads(json.dumps(v)) == v] for every plain value. *)
Lemma loads_dumps v : plain v = true -> loads (dumps v) = Ok v.
Proof.
  intros Hv. unfold loads.
  destruct (dumps_head v Hv) as (c & t & E & W & _).
  pose proof (dumps_ascii v Hv) as Ha.
  assert (Hbom : startswith (dumps v) [0xFEFF] = false).
  { rewrite E in *. apply Forall_cons in Ha as [Hc _].
    unfold startswith. apply bool_decide_eq_false. cbn. intros [= ->]. lia. }
  rewrite Hbom.
  assert (Hskip : skip_ws (dumps v) = dumps v).
  { rewrite E. by apply skip_ws_head. }
  rewrite Hskip.
  destruct (scan_all (S (2 * length (dumps v)))) as (Hs & _).
  pose proof (Hs v [] Hv) as H. rewrite app_nil_r in H.
  rewrite H; [done| |done].
  pose proof (size_le_length v Hv). lia.
Qed.


(** *** The fuel given by [loads] suffices *)

Lemma skip_ws_length s : (length (skip_ws s) <= length s)%nat.
Proof.
  induction s as [|c s IH]; [done|]. cbn [skip_ws].
  destruct (is_ws c); cbn [length]; lia.
Qed.

Lemma push_ok c r x t : push c r = Ok (x, t) -> exists x', r = Ok (x', t).
Proof. destruct r as [[x' t']|e]; [|done]. cbn. intros [= _ ->]. eauto. Qed.

Lemma scanstring_length n : forall s x t,
  (length s <= n)%nat -> scanstring s = Ok (x, t) -> (length t < length s)%nat.
Proof.
  induction n as [|n IH]; intros s x t Hn H.
  { destruct s; [done|cbn in Hn; lia]. }
  destruct s as [|c r]; [done|]. cbn [scanstring] in H. cbn [length] in *.
  repeat (case_match; try done; simplify_eq; cbn [length] in * );
    try (apply push_ok in H as [x' H]; apply IH in H; cbn [length] in *; lia);
    try lia.
Qed.

Lemma span_digits_length s : (length (span_digits s).2 <= length s)%nat.
Proof.
  induction s as [|c s IH]; [done|]. cbn [span_digits].
  destruct (is_digit c); [|done].
  destruct (span_digits s) as [d t]. cbn [snd length] in *. lia.
Qed.

Lemma number_tail_length neg ip t :
  (length (number_tail neg ip t).2 <= length t)%nat.
Proof.
  unfold number_tail.
  assert (S1 := span_digits_length).
  repeat (case_match; simplify_eq; cbn [snd length tl] in * );
    repeat match goal with
           | H : span_digits ?s = (_, ?t) |- _ =>
               let H' := fresh in
               pose proof (S1 s) as H'; rewrite H in H'; cbn [snd length] in H';
               clear H
           end; try lia.
Qed.

Lemma match_number_length s v t :
  match_number s = Ok (v, t) -> (length t < length s)%nat.
Proof.
  unfold match_number. intros H.
  assert (S1 := span_digits_length). assert (T1 := number_tail_length).
  repeat (case_match; try done; simplify_eq; cbn [length] in * );
    repeat match goal with
           | H : span_digits ?s = (_, ?t) |- _ =>
               let H' := fresh in
               pose proof (S1 s) as H'; rewrite H in H'; cbn [snd length] in H';
               clear H
           | H : number_tail ?a ?b ?c = (_, ?t) |- _ =>
               let H' := fresh in
               pose proof (T1 a b c) as H'; rewrite H in H'; cbn [snd length] in H';
               clear H
           end; try lia.
Qed.

Lemma strip_length p s t : strip p s = Some t -> length s = (length p + length t)%nat.
Proof.
  revert s. induction p as [|a p IH]; intros s H.
  - by injection H as ->.
  - destruct s as [|b s]; [done|]. cbn [strip] in H.
    destruct (a =? b); [|done]. apply IH in H. cbn [length]. lia.
Qed.

Lemma match_constant_length s v t :
  match_constant s = Some (v, t) -> (length t < length s)%nat.
Proof.
  unfold match_constant. intros H.
  repeat (case_match; try done; simplify_eq);
    match goal with
    | H : strip _ _ = Some _ |- _ => apply strip_length in H; cbn in H; lia
    end.
Qed.


Lemma consumes_mono {A} (r : scan (A * str)) s s' :
  consumes r s' -> (length s' <= length s)%nat -> consumes r s.
Proof. destruct r as [[a t]| |]; cbn; [lia|done|done]. Qed.

Lemma consumes_lift {A} (r : result (A * str)) s :
  (forall a t, r = Ok (a, t) -> (length t < length s)%nat) -> consumes (lift r) s.
Proof. destruct r as [[a t]|e]; cbn; [|done]. intros H. by apply (H a t). Qed.

Ltac skip_ws_facts :=
  repeat match goal with
         | H : skip_ws ?s = ?t |- _ =>
             let H' := fresh "L" in
             pose proof (skip_ws_length s) as H'; rewrite H in H';
             cbn [length] in H'; revert H
         end; intros.

Lemma scan_once_fuel n :
  (forall s, (2 * length s + 1 <= n)%nat -> consumes (scan_once n s) s)
  /\ (forall s acc, (2 * length s + 2 <= n)%nat -> consumes (parse_pairs n s acc) s)
  /\ (forall s acc, (2 * length s + 2 <= n)%nat -> consumes (parse_elems n s acc) s).
Proof.
  induction n as [|n (IHs & IHp & IHe)].
  { repeat split; intros; lia. }
  repeat split.
  - intros [|c r] Hn; [done|]. cbn [length] in Hn. cbn [scan_once].
    destruct (c =? 34).
    { destruct (scanstring r) as [[x t]|e] eqn:E; [|done].
      apply (scanstring_length (length r)) in E; [|done]. cbn. lia. }
    destruct (c =? 123).
    { destruct (skip_ws r) as [|c1 r1] eqn:E; [done|]. skip_ws_facts.
      destruct (c1 =? 125); [cbn; lia|].
      eapply consumes_mono; [apply IHp|]; cbn [length]; lia. }
    destruct (c =? 91).
    { destruct (skip_ws r) as [|c1 r1] eqn:E; [done|]. skip_ws_facts.
      destruct (c1 =? 93); [cbn; lia|].
      eapply consumes_mono; [apply IHe|]; cbn [length]; lia. }
    destruct (match_constant (c :: r)) as [[v t]|] eqn:E.
    { apply match_constant_length in E. done. }
    apply consumes_lift. intros v t. apply match_number_length.
  - intros [|c r] acc Hn; [done|]. cbn [length] in Hn. cbn [parse_pairs].
    destruct (c =? 34); [|done].
    destruct (scanstring r) as [[key t]|e] eqn:E; [|done].
    apply (scanstring_length (length r)) in E; [|done]. cbn [lift mbind scan_bind].
    destruct (skip_ws t) as [|c2 t2] eqn:E2; [done|]. skip_ws_facts.
    destruct (c2 =? 58); [|done].
    pose proof (skip_ws_length t2) as L2.
    pose proof (IHs (skip_ws t2) ltac:(lia)) as Hs.
    destruct (scan_once n (skip_ws t2)) as [[v t3]| |]; [|done|done].
    cbn in Hs. cbn [mbind scan_bind].
    destruct (skip_ws t3) as [|c4 t4] eqn:E4; [done|]. skip_ws_facts.
    destruct (c4 =? 125); [cbn; lia|].
    destruct (c4 =? 44); [|done].
    pose proof (skip_ws_length t4) as L4.
    eapply consumes_mono; [apply IHp|]; cbn [length]; lia.
  - intros s acc Hn. cbn [parse_elems].
    pose proof (IHs s ltac:(lia)) as Hs.
    destruct (scan_once n s) as [[v t]| |]; [|done|done].
    cbn in Hs. cbn [mbind scan_bind].
    destruct (skip_ws t) as [|c t1] eqn:E; [done|]. skip_ws_facts.
    destruct (c =? 93); [cbn; lia|].
    destruct (c =? 44); [|done].
    pose proof (skip_ws_length t1) as L1.
    eapply consumes_mono; [apply IHe|]; lia.
Qed.

Lemma push_raise c r e : push c r = Raise e -> r = Raise e.
Proof. destruct r as [[x' t']|e']; [done|]. cbn. by intros [= ->]. Qed.

Lemma scanstring_raises n : forall s e,
  (length s <= n)%nat -> scanstring s = Raise e -> exn_cls e = JSONDecodeError.
Proof.
  induction n as [|n IH]; intros s e Hn H.
  { destruct s; [by injection H as <-|cbn in Hn; lia]. }
  destruct s as [|c r]; [by injection H as <-|].
  cbn [scanstring] in H. cbn [length] in *.
  repeat (case_match; try done; simplify_eq; cbn [length] in * );
    try (by injection H as <-);
    try (apply push_raise in H; apply IH in H; [done|cbn [length] in *; lia]).
Qed.

Lemma match_number_raises s e :
  match_number s = Raise e -> exn_cls e = JSONDecodeError.
Proof.
  unfold match_number. intros H.
  repeat (case_match; try done; simplify_eq); by injection H as <-.
Qed.

Lemma lift_fail {A} (r : result A) e : lift r = Fail e -> r = Raise e.
Proof. destruct r; [done|]. by intros [= ->]. Qed.

Lemma scan_once_raises n :
  (forall s e, scan_once n s = Fail e -> exn_cls e = JSONDecodeError)
  /\ (forall s acc e, parse_pairs n s acc = Fail e -> exn_cls e = JSONDecodeError)
  /\ (forall s acc e, parse_elems n s acc = Fail e -> exn_cls e = JSONDecodeError).
Proof.
  induction n as [|n (IHs & IHp & IHe)]; [done|].
  repeat split.
  - intros s e H. cbn [scan_once] in H.
    repeat (case_match; try done; simplify_eq);
      try (by injection H as <-); try (by eapply IHp); try (by eapply IHe).
    + destruct (scanstring _) as [[x t]|e'] eqn:E; [done|].
      injection H as ->. by eapply scanstring_raises.
    + apply lift_fail in H. by eapply match_number_raises.
  - intros s acc e H. cbn [parse_pairs] in H.
    destruct s as [|c r]; [by injection H as <-|].
    destruct (c =? 34); [|by injection H as <-].
    destruct (scanstring r) as [[key t]|e'] eqn:E.
    2:{ injection H as ->. by eapply scanstring_raises. }
    cbn [lift mbind scan_bind] in H.
    destruct (skip_ws t) as [|c2 t2]; [by injection H as <-|].
    destruct (c2 =? 58); [|by injection H as <-].
    destruct (scan_once n (skip_ws t2)) as [[v t3]|e'|] eqn:E3; [| |done].
    2:{ injection H as ->. by eapply IHs. }
    cbn [mbind scan_bind] in H.
    destruct (skip_ws t3) as [|c4 t4]; [by injection H as <-|].
    destruct (c4 =? 125); [done|].
    destruct (c4 =? 44); [by eapply IHp|by injection H as <-].
  - intros s acc e H. cbn [parse_elems] in H.
    destruct (scan_once n s) as [[v t]|e'|] eqn:E; [| |done].
    2:{ injection H as ->. by eapply IHs. }
    cbn [mbind scan_bind] in H.
    destruct (skip_ws t) as [|c t1]; [by injection H as <-|].
    destruct (c =? 93); [done|].
    destruct (c =? 44); [by eapply IHe|by injection H as <-].
Qed.

(** [loads] never runs out of fuel: it returns a value or raises
    [JSONDecodeError]. *)
Lemma fuel_suffices s :
  match loads s with
  | Ok _ => True
  | Raise e => exn_cls e = JSONDecodeError
  end.
Proof.
  unfold loads. destruct (startswith s [65279]); [done|].
  destruct (scan_once_fuel (S (2 * length s))) as (Hs & _).
  pose proof (skip_ws_length s) as L.
  pose proof (Hs (skip_ws s) ltac:(lia)) as H.
  destruct (scan_once _ _) as [[v t]|e|] eqn:E; [| |done].
  - by destruct (skip_ws t).
  - destruct (scan_once_raises (S (2 * length s))) as (R & _). by eapply R.
Qed.

(** *** [loads_in]: the limits of the interpreter *)

Lemma match_number_in_cases i s :
  match match_number_in i s with
  | Ok (v, t) => match_number s = Ok (v, t)
  | Raise e =>
      match_number s = Raise e
      \/ (exn_cls e = ValueError
          /\ 0 < int_max_str_digits i
          /\ int_max_str_digits i < N.of_nat (length s))
  end.
Proof.
  unfold match_number_in.
  destruct (match_number s) as [[v t]|e] eqn:E; cbn [mbind result_bind]; [|by left].
  destruct v; try done.
  destruct (exceeds_limit i _) eqn:X; [|done].
  right. unfold exceeds_limit in X.
  apply andb_true_iff in X as [X X3]. apply andb_true_iff in X as [X1 X2].
  apply N.ltb_lt in X2, X3. split; [done|]. split; [done|].
  eapply N.lt_le_trans; [exact X3|]. lia.
Qed.

Lemma consumes_in_mono {A} i d (r : scan (A * str)) s s' :
  consumes_in i d r s' -> (length s' <= length s)%nat -> consumes_in i d r s.
Proof.
  destruct r as [[a t]|e|]; cbn; [lia| |done].
  unfold syntax_or_limit. intros [H|[(H1 & H2 & H3)|(H1 & H2)]] L; [by left| |].
  - right. left. split_and!; [done|done|lia].
  - right. right. split; [done|lia].
Qed.

Lemma consumes_in_enter {A} i d (r : scan (A * str)) s s' :
  consumes_in i d r s' -> (length s' < length s)%nat -> consumes_in i (S d) r s.
Proof.
  destruct r as [[a t]|e|]; cbn; [lia| |done].
  unfold syntax_or_limit. intros [H|[(H1 & H2 & H3)|(H1 & H2)]] L; [by left| |].
  - right. left. split_and!; [done|done|lia].
  - right. right. split; [done|lia].
Qed.

Lemma consumes_in_syntax {A} i d (r : result (A * str)) s :
  match r with
  | Ok (_, t) => (length t < length s)%nat
  | Raise e => exn_cls e = JSONDecodeError
  end ->
  consumes_in i d (lift r) s.
Proof. destruct r as [[a t]|e]; cbn; [done|]. by left. Qed.

Lemma scanstring_outcome r :
  match scanstring r with
  | Ok (_, t) => (length t < length r)%nat
  | Raise e => exn_cls e = JSONDecodeError
  end.
Proof.
  destruct (scanstring r) as [[x t]|e] eqn:E.
  - by apply (scanstring_length (length r)) in E.
  - by apply (scanstring_raises (length r)) in E.
Qed.

Lemma scan_once_in_fuel i n :
  (forall d s, (2 * length s + 1 <= n)%nat ->
     consumes_in i d (scan_once_in i n d s) s)
  /\ (forall d s acc, (2 * length s + 2 <= n)%nat ->
        consumes_in i d (parse_pairs_in i n d s acc) s)
  /\ (forall d s acc, (2 * length s + 2 <= n)%nat ->
        consumes_in i d (parse_elems_in i n d s acc) s).
Proof.
  induction n as [|n (IHs & IHp & IHe)].
  { repeat split; intros; lia. }
  repeat split.
  - intros d [|c r] Hn; [by left|]. cbn [length] in Hn. cbn [scan_once_in].
    destruct (c =? 34).
    { pose proof (scanstring_outcome r) as Hr.
      destruct (scanstring r) as [[x t]|e]; cbn; [lia|by left]. }
    destruct (c =? 123).
    { destruct d as [|d]; [right; right; split; [done|cbn [length]; lia]|].
      destruct (skip_ws r) as [|c1 r1] eqn:E; [by left|]. skip_ws_facts.
      destruct (c1 =? 125); [cbn; lia|].
      eapply consumes_in_enter; [apply IHp|]; cbn [length]; lia. }
    destruct (c =? 91).
    { destruct d as [|d]; [right; right; split; [done|cbn [length]; lia]|].
      destruct (skip_ws r) as [|c1 r1] eqn:E; [by left|]. skip_ws_facts.
      destruct (c1 =? 93); [cbn; lia|].
      eapply consumes_in_enter; [apply IHe|]; cbn [length]; lia. }
    destruct (match_constant (c :: r)) as [[v t]|] eqn:E.
    { apply match_constant_length in E. done. }
    pose proof (match_number_in_cases i (c :: r)) as Hm.
    destruct (match_number_in i (c :: r)) as [[v t]|e]; cbn.
    + by apply match_number_length in Hm.
    + destruct Hm as [Hm|Hm]; [left; by eapply match_number_raises|by right; left].
  - intros d [|c r] acc Hn; [by left|]. cbn [length] in Hn. cbn [parse_pairs_in].
    destruct (c =? 34); [|by left].
    pose proof (scanstring_outcome r) as Hr.
    destruct (scanstring r) as [[key t]|e]; [|by left].
    cbn [lift mbind scan_bind].
    destruct (skip_ws t) as [|c2 t2] eqn:E2; [by left|]. skip_ws_facts.
    destruct (c2 =? 58); [|by left].
    pose proof (skip_ws_length t2) as L2.
    pose proof (IHs d (skip_ws t2) ltac:(lia)) as Hs.
    destruct (scan_once_in i n d (skip_ws t2)) as [[v t3]|e|]; [| |done].
    2:{ cbn [mbind scan_bind]. eapply (consumes_in_mono i d (Fail e)); [exact Hs|].
        cbn [length]. lia. }
    cbn in Hs. cbn [mbind scan_bind].
    destruct (skip_ws t3) as [|c4 t4] eqn:E4; [by left|]. skip_ws_facts.
    destruct (c4 =? 125); [cbn; lia|].
    destruct (c4 =? 44); [|by left].
    pose proof (skip_ws_length t4) as L4.
    eapply consumes_in_mono; [apply IHp|]; cbn [length]; lia.
  - intros d s acc Hn. cbn [parse_elems_in].
    pose proof (IHs d s ltac:(lia)) as Hs.
    destruct (scan_once_in i n d s) as [[v t]|e|]; [|done|done].
    cbn in Hs. cbn [mbind scan_bind].
    destruct (skip_ws t) as [|c t1] eqn:E; [by left|]. skip_ws_facts.
    destruct (c =? 93); [cbn; lia|].
    destruct (c =? 44); [|by left].
    pose proof (skip_ws_length t1) as L1.
    eapply consumes_in_mono; [apply IHe|]; lia.
Qed.

(** [loads_in] returns a value or raises one of three exceptions; a
    [ValueError] or a [RecursionError] needs a text longer than the limit. *)
Lemma loads_in_failures i s :
  match loads_in i s with
  | Ok _ => True
  | Raise e => syntax_or_limit i (recursion_remaining i) (length s) e
  end.
Proof.
  unfold loads_in. destruct (startswith s [65279]); [by left|].
  destruct (scan_once_in_fuel i (S (2 * length s))) as (Hs & _).
  pose proof (skip_ws_length s) as L.
  pose proof (Hs (recursion_remaining i) (skip_ws s) ltac:(lia)) as H.
  destruct (scan_once_in _ _ _ _) as [[v t]|e|] eqn:E; [| |done].
  - destruct (skip_ws t); [done|by left].
  - eapply (consumes_in_mono i _ (Fail e) s) in H; [exact H|done].
Qed.

Lemma agrees_bind {A B} (r_in r : scan A) (f_in f : A -> scan B) :
  agrees r_in r -> (forall a, agrees (f_in a) (f a)) ->
  agrees (r_in ≫= f_in) (r ≫= f).
Proof.
  destruct r_in as [a|e|]; cbn.
  - intros -> H. apply H.
  - intros [->|H] _; [by left|by right].
  - by intros ->.
Qed.

Lemma agrees_refl {A} (r : scan A) : agrees r r.
Proof. destruct r; cbn; [done|by left|done]. Qed.

Lemma scan_once_in_agrees i n :
  (forall d s, agrees (scan_once_in i n d s) (scan_once n s))
  /\ (forall d s acc, agrees (parse_pairs_in i n d s acc) (parse_pairs n s acc))
  /\ (forall d s acc, agrees (parse_elems_in i n d s acc) (parse_elems n s acc)).
Proof.
  induction n as [|n (IHs & IHp & IHe)]; [done|].
  repeat split.
  - intros d [|c r]; [apply agrees_refl|]. cbn [scan_once_in scan_once].
    destruct (c =? 34); [apply agrees_refl|].
    destruct (c =? 123).
    { destruct d as [|d]; [by right; right|].
      destruct (skip_ws r) as [|c1 r1]; [apply agrees_refl|].
      destruct (c1 =? 125); [done|apply IHp]. }
    destruct (c =? 91).
    { destruct d as [|d]; [by right; right|].
      destruct (skip_ws r) as [|c1 r1]; [apply agrees_refl|].
      destruct (c1 =? 93); [done|apply IHe]. }
    destruct (match_constant (c :: r)); [done|].
    pose proof (match_number_in_cases i (c :: r)) as Hm.
    destruct (match_number_in i (c :: r)) as [[v t]|e]; cbn.
    + by rewrite Hm.
    + destruct Hm as [->|(Hm & _)]; [by left|by right; left].
  - intros d [|c r] acc; [apply agrees_refl|]. cbn [parse_pairs_in parse_pairs].
    destruct (c =? 34); [|apply agrees_refl].
    destruct (scanstring r) as [[key t]|e]; [|by left].
    cbn [lift mbind scan_bind].
    destruct (skip_ws t) as [|c2 t2]; [apply agrees_refl|].
    destruct (c2 =? 58); [|apply agrees_refl].
    apply agrees_bind; [apply IHs|]. intros [v t3].
    destruct (skip_ws t3) as [|c4 t4]; [apply agrees_refl|].
    destruct (c4 =? 125); [done|].
    destruct (c4 =? 44); [apply IHp|apply agrees_refl].
  - intros d s acc. cbn [parse_elems_in parse_elems].
    apply agrees_bind; [apply IHs|]. intros [v t].
    destruct (skip_ws t) as [|c t1]; [apply agrees_refl|].
    destruct (c =? 93); [done|].
    destruct (c =? 44); [apply IHe|apply agrees_refl].
Qed.

(** What [loads_in] returns is what [loads] returns, and an exception of
    [loads_in] is the one of [loads] unless a limit was reached. *)
Lemma loads_in_agrees i s :
  match loads_in i s with
  | Ok v => loads s = Ok v
  | Raise e =>
      loads s = Raise e \/ exn_cls e = ValueError \/ exn_cls e = RecursionError
  end.
Proof.
  unfold loads_in, loads. destruct (startswith s [65279]); [by left|].
  destruct (scan_once_in_agrees i (S (2 * length s))) as (Hs & _).
  specialize (Hs (recursion_remaining i) (skip_ws s)).
  destruct (scan_once_in _ _ _ _) as [[v t]|e|]; cbn [agrees] in Hs.
  - rewrite Hs. destruct (skip_ws t); [done|by left].
  - destruct Hs as [->|Hs]; [by left|by right].
  - by right; right.
Qed.

(** On a text that is too short to reach a limit, [loads_in] is [loads]. *)
Lemma loads_in_small i s :
  (int_max_str_digits i = 0 \/ N.of_nat (length s) <= int_max_str_digits i) ->
  (length s <= recursion_remaining i)%nat ->
  loads_in i s = loads s.
Proof.
  intros Hd Hr.
  pose proof (loads_in_failures i s) as Hf.
  pose proof (loads_in_agrees i s) as Ha.
  pose proof (fuel_suffices s) as Hl.
  destruct (loads_in i s) as [v|e]; [done|].
  destruct Hf as [Hf|[(Hf & H1 & H2)|(Hf & H1)]]; [|lia|lia].
  destruct Ha as [Ha|[Ha|Ha]]; [done| |]; by rewrite Hf in Ha.
Qed.

Lemma scan_once_in_nesting i rest : forall d fuel,
  (2 * d < fuel)%nat ->
  scan_once_in i fuel d (repeat 91 (S d) ++ rest)
  = recursion_error
      "maximum recursion depth exceeded while decoding a JSON array from a unicode string".
Proof.
  induction d as [|d IH]; intros fuel Hf.
  - destruct fuel as [|f]; [lia|]. reflexivity.
  - destruct fuel as [|[|f]]; [lia|lia|].
    change (repeat 91 (S (S d)) ++ rest) with (91 :: repeat 91 (S d) ++ rest).
    cbn [scan_once_in N.eqb Pos.eqb]. 
    change (repeat 91 (S d) ++ rest) with (91 :: repeat 91 d ++ rest).
    cbn [skip_ws is_ws N.eqb Pos.eqb orb parse_elems_in].
    change (91 :: repeat 91 d ++ rest) with (repeat 91 (S d) ++ rest).
    rewrite IH by lia. reflexivity.
Qed.

(** The nesting limit is reached by one more opening bracket than there are
    nested calls left, whatever follows. *)
Lemma loads_in_nesting i rest :
  loads_in i (repeat 91 (S (recursion_remaining i)) ++ rest)
  = raise RecursionError
      "maximum recursion depth exceeded while decoding a JSON array from a unicode string".
Proof.
  unfold loads_in.
  change (repeat 91 (S (recursion_remaining i)) ++ rest)
    with (91 :: repeat 91 (recursion_remaining i) ++ rest) at 1 3.
  cbn [skip_ws is_ws N.eqb Pos.eqb orb].
  replace (startswith _ _) with false by done.
  change (91 :: repeat 91 (recursion_remaining i) ++ rest)
    with (repeat 91 (S (recursion_remaining i)) ++ rest).
  rewrite scan_once_in_nesting; [done|].
  rewrite length_app, repeat_length. lia.
Qed.

Lemma span_digits_ones k : span_digits (repeat 49 k) = (repeat 49 k, []).
Proof. induction k as [|k IH]; [done|]. cbn [repeat span_digits]. by rewrite IH. Qed.

(** The digit limit is reached by an integer literal with more digits than
    the limit. *)
Lemma loads_in_digits i k :
  exceeds_limit i (N.of_nat k) = true ->
  loads_in i (repeat 49 k) = Raise (digits_error i (N.of_nat k)).
Proof.
  intros X. destruct k as [|k]; [done|].
  unfold loads_in. cbn [repeat skip_ws is_ws N.eqb Pos.eqb orb].
  replace (startswith _ _) with false by done.
  cbn [scan_once_in N.eqb Pos.eqb].
  replace (match_constant (49 :: repeat 49 k)) with (@None (value * str)) by done.
  unfold match_number_in, match_number.
  replace (49 =? 45) with false by done.
  replace ((49 <=? 49) && (49 <=? 57)) with true by done.
  rewrite span_digits_ones. 
  cbn [number_tail mbind result_bind].
  replace (startswith _ _) with false by done.
  cbn [length]. rewrite Nat.sub_0_r, Nat.sub_0_r.
  change (S (length (repeat 49 k))) with (length (repeat 49 (S k))).
  rewrite repeat_length. by rewrite X.
Qed.

End JsonFacts.


(* ===================================================================== *)
(** * The codec and the signer *)
(* ===================================================================== *)

Module CronosProps.
Import Cronos.

Lemma text_forallb s : text s -> forallb Utf8.is_scalar s = true.
Proof.
  intros H. apply forallb_forall. intros c Hc.
  unfold text in H. rewrite Forall_forall in H. apply H. by apply list_elem_of_In.
Qed.

Lemma octets_of_ascii s : ascii_text s -> Base64.octets s.
Proof.
  intros H. eapply Forall_impl; [exact H|]. intros c Hc. cbn beta in Hc. lia.
Qed.

(** Every plain value survives encoding and decoding. *)
Lemma decode_encode_plain h :
  Json.plain h = true ->
  encode_header h = Ok (Base64.b64encode (Json.dumps h))
  /\ decode_payment_header (Base64.b64encode (Json.dumps h)) = Ok h.
Proof.
  intros Hh. pose proof (JsonFacts.dumps_ascii h Hh) as Ha.
  unfold encode_header, decode_payment_header.
  rewrite Utf8Facts.encode_ascii by done. cbn [mbind result_bind].
  rewrite Utf8Facts.decode_ascii by apply Base64Facts.b2a_ascii.
  split; [done|].
  rewrite Base64Facts.b64decode_b64encode by by apply octets_of_ascii.
  cbn [mbind result_bind]. rewrite Utf8Facts.decode_ascii by done.
  cbn [mbind result_bind]. by apply JsonFacts.loads_dumps.
Qed.

Lemma plain_payment_header network from_address to_address amount
    valid_after valid_before nonce signature asset_address :
  text network -> text from_address -> text to_address -> text amount ->
  text nonce -> text signature -> text asset_address ->
  Json.plain (payment_header network from_address to_address amount
                valid_after valid_before nonce signature asset_address) = true.
Proof.
  intros T1 T2 T3 T4 T5 T6 T7.
  apply text_forallb in T1, T2, T3, T4, T5, T6, T7.
  unfold payment_header.
  cbn [forallb Json.plain_item Json.plain List.map fst].
  rewrite T1, T2, T3, T4, T5, T6, T7. by vm_compute.
Qed.

(** C1. Round trip of the codec: for every well-formed credential, the
    encoding that [generate_payment_header] applies to it succeeds, and
    [decode_payment_header] returns the credential from it unchanged, field
    for field: the strings of [value], [nonce] and [signature] are the very
    strings that were encoded. *)
Theorem decode_encode_payment_header x :
  well_formed x ->
  exists header_b64,
    encode_header x = Ok header_b64 /\ decode_payment_header header_b64 = Ok x.
Proof.
  intros [network from_address to_address amount valid_after valid_before
            nonce signature asset_address T1 T2 T3 T4 T5 T6 T7 _ _].
  eexists. apply decode_encode_plain. by apply plain_payment_header.
Qed.

Lemma decode_encode_payment_header_witness :
  exists header_b64,
    encode_header
      (payment_header (lit "cronos-testnet")
         (lit "0x7bd6cd1a975438e510e1cc70a815042bb357b131") Demo.pay_to
         (lit "1000000") 0 1700000300
         (generate_nonce (repeat 0x5A%N 32)) (lit "0xabab")
         (lit "0xc01efaaf7c5c61bebfaeb358e1161b537b8bc0e0")) = Ok header_b64
    /\ decode_payment_header header_b64 =
       Ok (payment_header (lit "cronos-testnet")
             (lit "0x7bd6cd1a975438e510e1cc70a815042bb357b131") Demo.pay_to
             (lit "1000000") 0 1700000300
             (generate_nonce (repeat 0x5A%N 32)) (lit "0xabab")
             (lit "0xc01efaaf7c5c61bebfaeb358e1161b537b8bc0e0")).
Proof.
  apply decode_encode_payment_header.
  constructor; try (apply Demo.ascii_text_text; vm_compute; repeat constructor);
    (split; [done|reflexivity]).
Defined.

Lemma fmap_raise {A B} (f : A -> B) (r : result A) e :
  f <$> r = Raise e -> r = Raise e.
Proof. destruct r; [done|]. by intros [= ->]. Qed.

Lemma a2b_loop_raises s : forall qp lc pads e,
  Base64.a2b_loop qp lc pads s = Raise e -> exn_cls e = BinasciiError.
Proof.
  induction s as [|c s IH]; intros qp lc pads e H; cbn [Base64.a2b_loop] in H.
  - repeat case_match; try done; by injection H as <-.
  - repeat case_match; try done;
      try (apply fmap_raise in H); by eapply IH.
Qed.

Lemma b64decode_raises s e :
  Base64.b64decode s = Raise e ->
  exn_cls e = BinasciiError \/ exn_cls e = ValueError.
Proof.
  unfold Base64.b64decode, Base64.ascii_encode.
  destruct (forallb _ s); cbn [mbind result_bind].
  - intros H. left. by eapply a2b_loop_raises.
  - intros [= <-]. by right.
Qed.

Lemma utf8_decode_raises n : forall b e,
  (length b <= n)%nat -> Utf8.decode b = Raise e -> exn_cls e = UnicodeDecodeError.
Proof.
  induction n as [|n IH]; intros b e Hn H.
  { destruct b; [done|cbn in Hn; lia]. }
  destruct b as [|b0 r0]; [done|]. cbn [Utf8.decode] in H. cbn [length] in Hn.
  repeat (case_match; try done; simplify_eq; cbn [length] in * );
    try (by injection H as <-);
    try (apply fmap_raise in H; apply IH in H; [done|lia]).
Qed.

(** What [decode_payment_header_in] returns, [decode_payment_header]
    returns. *)
Lemma decode_payment_header_in_agrees i header_b64 h :
  decode_payment_header_in i header_b64 = Ok h ->
  decode_payment_header header_b64 = Ok h.
Proof.
  unfold decode_payment_header_in, decode_payment_header.
  destruct (Base64.b64decode header_b64) as [b|e]; [|done]. cbn [mbind result_bind].
  destruct (Utf8.decode b) as [j|e]; [|done]. cbn [mbind result_bind].
  intros Hj. pose proof (JsonFacts.loads_in_agrees i j) as Ha. by rewrite Hj in Ha.
Qed.

(** C5, as the code has it.  [decode_payment_header] raises exactly when a
    step of it raises: [base64.b64decode] ([binascii.Error], or
    [ValueError] for text that is not ASCII), then [bytes.decode]
    ([UnicodeDecodeError]), then [json.loads]: [JSONDecodeError] for text
    that is not JSON, [ValueError] for an integer literal with more digits
    than the interpreter converts, [RecursionError] for a nesting deeper
    than the interpreter allows; the last two need a text longer than the
    limit in question.  On every other input it returns what [json.loads]
    returns, whichever fields that value has. *)
Theorem decode_payment_header_failures i header_b64 :
  match decode_payment_header_in i header_b64 with
  | Ok h =>
      exists b header_json,
        Base64.b64decode header_b64 = Ok b /\ Utf8.decode b = Ok header_json
        /\ Json.loads_in i header_json = Ok h
  | Raise e =>
      (Base64.b64decode header_b64 = Raise e
       /\ (exn_cls e = BinasciiError \/ exn_cls e = ValueError))
      \/ (exists b, Base64.b64decode header_b64 = Ok b /\ Utf8.decode b = Raise e
                    /\ exn_cls e = UnicodeDecodeError)
      \/ (exists b header_json,
            Base64.b64decode header_b64 = Ok b /\ Utf8.decode b = Ok header_json
            /\ Json.loads_in i header_json = Raise e
            /\ (exn_cls e = JSONDecodeError
                \/ (exn_cls e = ValueError
                    /\ (0 < Json.int_max_str_digits i
                        < N.of_nat (length header_json))%N)
                \/ (exn_cls e = RecursionError
                    /\ Json.recursion_remaining i < length header_json)))
  end.
Proof.
  unfold decode_payment_header_in.
  destruct (Base64.b64decode header_b64) as [b|e] eqn:Eb; cbn [mbind result_bind].
  2:{ left. split; [done|]. by eapply b64decode_raises. }
  destruct (Utf8.decode b) as [j|e] eqn:Ej; cbn [mbind result_bind].
  2:{ right. left. exists b. repeat split; [done|]. by eapply utf8_decode_raises. }
  pose proof (JsonFacts.loads_in_failures i j) as Hj.
  destruct (Json.loads_in i j) as [h|e] eqn:Eh.
  - by exists b, j.
  - right. right. exists b, j. split_and!; [done..|].
    destruct Hj as [Hj|[(Hj & H1 & H2)|(Hj & H1)]]; [by left| |].
    + right. left. by split_and!.
    + right. right. by split.
Qed.

(** C5, counterexample to the claim as stated: the header ["e30="] is the
    encoding of the empty JSON object; every required field is absent from
    it, and decoding it succeeds, also under the limits that CPython starts
    with. *)
Lemma decode_payment_header_without_fields :
  decode_payment_header (lit "e30=") = Ok (VDict [])
  /\ field (VDict []) "x402Version" = None
  /\ field (VDict []) "scheme" = None
  /\ field (VDict []) "network" = None
  /\ field (VDict []) "payload" = None
  /\ decode_payment_header_in Demo.cpython (lit "e30=") = Ok (VDict []).
Proof. by vm_compute. Qed.


(** *** The nonce *)

Lemma hex_octet_lower x : forallb is_lower_hex (hex_octet x) = true.
Proof.
  assert (H : forall d, (d < 16)%N -> is_lower_hex (Json.hex_digit d) = true).
  { intros d Hd.
    by apply (Base64Facts.forall_below 16 (fun d => is_lower_hex (Json.hex_digit d))). }
  unfold hex_octet. cbn [forallb].
  rewrite !H; [done|apply (JsonFacts.nibble_lt x 0)|apply JsonFacts.nibble_lt].
Qed.

Lemma hex_lower b : forallb is_lower_hex (hex b) = true.
Proof.
  induction b as [|x b IH]; [done|].
  unfold hex in *. cbn [flat_map]. rewrite forallb_app, hex_octet_lower. done.
Qed.

Lemma hex_length b : length (hex b) = (2 * length b)%nat.
Proof.
  induction b as [|x b IH]; [done|].
  unfold hex in *. cbn [flat_map]. rewrite length_app, IH. cbn [length hex_octet]. lia.
Qed.

Lemma octet_nibbles x :
  (x < 256)%N -> x = (N.land (N.shiftr x 4) 15 * 16 + N.land x 15)%N.
Proof.
  intros Hx. change 15%N with (N.ones 4).
  rewrite !JsonFacts.land_low, N.shiftr_div_pow2. change (2 ^ 4)%N with 16%N.
  rewrite (N.mod_small (x / 16)) by (apply N.Div0.div_lt_upper_bound; lia).
  pose proof (N.div_mod x 16 ltac:(lia)) as E. revert E.
  generalize (x / 16)%N (x mod 16)%N. clear. lia.
Qed.

Lemma hex_digit_inj a b :
  (a < 16)%N -> (b < 16)%N -> Json.hex_digit a = Json.hex_digit b -> a = b.
Proof.
  intros Ha Hb E. apply (f_equal Json.hex_val) in E.
  rewrite !JsonFacts.hex_val_digit in E by done. by injection E.
Qed.

Lemma octet_of_hex x y :
  (x < 256)%N -> (y < 256)%N -> hex_octet x = hex_octet y -> x = y.
Proof.
  intros Hx Hy E. unfold hex_octet in E. injection E as E1 E2.
  apply hex_digit_inj in E1; [|apply JsonFacts.nibble_lt..].
  apply hex_digit_inj in E2; [|apply (JsonFacts.nibble_lt _ 0)..].
  rewrite (octet_nibbles x), (octet_nibbles y) by done. by rewrite E1, E2.
Qed.

Lemma hex_inj b1 : forall b2,
  Base64.octets b1 -> Base64.octets b2 -> hex b1 = hex b2 -> b1 = b2.
Proof.
  induction b1 as [|x b1 IH]; intros [|y b2] H1 H2 E; try done.
  apply Forall_cons in H1 as [Hx H1]. apply Forall_cons in H2 as [Hy H2].
  unfold hex in E. cbn [flat_map hex_octet app] in E.
  injection E as E1 E2 E3.
  f_equal; [|by apply IH].
  apply octet_of_hex; [done|done|]. unfold hex_octet. by rewrite E1, E2.
Qed.

Lemma nonce_text rnd : text (generate_nonce rnd).
Proof.
  apply (Demo.forallb_ascii_text Demo.hex_or_x); [apply Demo.hex_or_x_ascii|].
  unfold generate_nonce. rewrite forallb_app. apply andb_true_iff. split; [done|].
  pose proof (hex_lower rnd) as H. rewrite forallb_forall in H |- *.
  intros c Hc. unfold Demo.hex_or_x. by rewrite (H c Hc).
Qed.

(** *** What a generated credential looks like *)

Lemma build_payment_header_shape `{Eth} self sys private_key pay_to asset amount
    timeout_seconds token_name token_version h :
  build_payment_header self sys private_key pay_to asset amount timeout_seconds
    token_name token_version = Ok h ->
  exists from_address to_address signature asset_address,
    h = payment_header (network self) from_address to_address amount 0
          (time sys + timeout_seconds) (generate_nonce (urandom32 sys))
          signature asset_address
    /\ text from_address /\ text to_address /\ text amount /\ text signature
    /\ text asset_address.
Proof.
  unfold build_payment_header. intros Hb.
  destruct (account_address _) as [address|] eqn:E1; [|done].
  cbn [mbind result_bind] in Hb.
  destruct (to_checksum_address (lower address)) as [from_address|] eqn:E2; [|done].
  cbn [mbind result_bind] in Hb.
  destruct (to_checksum_address (lower pay_to)) as [to_address|] eqn:E3; [|done].
  cbn [mbind result_bind] in Hb.
  destruct (to_checksum_address (lower asset)) as [asset_address|] eqn:E4; [|done].
  cbn [mbind result_bind] in Hb.
  destruct (resolve_domain self asset token_name token_version) as [name version].
  destruct (int_of_str (chain_id self)) as [chain|] eqn:E5; [|done].
  cbn [mbind result_bind] in Hb.
  destruct (int_of_str amount) as [value|] eqn:E6; [|done].
  cbn [mbind result_bind] in Hb.
  destruct (sign_typed_data _ _ _) as [signature|] eqn:E7; [|done].
  cbn [mbind result_bind] in Hb. injection Hb as <-.
  eexists _, _, _, _. split; [reflexivity|].
  apply to_checksum_address_text in E2, E3, E4.
  apply int_of_str_text in E6. apply sign_typed_data_text in E7.
  assert (text (if startswith signature (lit "0x") then signature
                else lit "0x" ++ signature)).
  { destruct (startswith signature (lit "0x")); [done|].
    apply Forall_app. split; [|done]. by repeat constructor. }
  by split_and!.
Qed.


(** C4, as the code has it.  Every header that [generate_payment_header]
    returns (for a network name that is text) decodes to a credential with
    [scheme = "eip3009"], [validAfter = 0] and
    [validBefore = issuedAt + timeoutSeconds], where [issuedAt] is the clock
    reading of the call: the window [validBefore - validAfter] is
    [issuedAt + timeoutSeconds], and it is [validBefore - issuedAt] that
    equals [timeoutSeconds]. *)
Theorem generated_header_window `{Eth} self sys private_key pay_to asset amount
    timeout_seconds token_name token_version header_b64 :
  text (network self) ->
  generate_payment_header self sys private_key pay_to asset amount
    timeout_seconds token_name token_version = Ok header_b64 ->
  exists h valid_after valid_before,
    decode_payment_header header_b64 = Ok h
    /\ field h "scheme" = Some (VStr (lit "eip3009"))
    /\ payload_field h "validAfter" = Some (VInt valid_after)
    /\ payload_field h "validBefore" = Some (VInt valid_before)
    /\ valid_after = 0%Z
    /\ valid_before = (time sys + timeout_seconds)%Z
    /\ (valid_before - valid_after = time sys + timeout_seconds)%Z
    /\ (valid_before - time sys = timeout_seconds)%Z.
Proof.
  intros Hnet. unfold generate_payment_header.
  destruct (build_payment_header _ _ _ _ _ _ _ _ _) as [h|] eqn:Hb; [|done].
  cbn [mbind result_bind]. intros He.
  destruct (build_payment_header_shape _ _ _ _ _ _ _ _ _ _ Hb)
    as (f & t & g & a & -> & Tf & Tt & Tm & Tg & Ta).
  pose proof (plain_payment_header (network self) f t amount 0
                (time sys + timeout_seconds) (generate_nonce (urandom32 sys)) g a
                Hnet Tf Tt Tm (nonce_text _) Tg Ta) as Hp.
  destruct (decode_encode_plain _ Hp) as [Hen Hde].
  rewrite Hen in He. injection He as <-.
  eexists _, 0%Z, (time sys + timeout_seconds)%Z.
  split; [exact Hde|]. split_and!; try done; lia.
Qed.

Lemma generated_header_window_witness :
  exists header_b64,
    @generate_payment_header Demo.eth (init (lit "cronos-testnet")) Demo.clock Demo.key
      Demo.pay_to Demo.usdc (lit "1000000") 300 None None = Ok header_b64
    /\ exists h valid_after valid_before,
         decode_payment_header header_b64 = Ok h
         /\ field h "scheme" = Some (VStr (lit "eip3009"))
         /\ payload_field h "validAfter" = Some (VInt valid_after)
         /\ payload_field h "validBefore" = Some (VInt valid_before)
         /\ valid_after = 0%Z
         /\ valid_before = (1700000000 + 300)%Z
         /\ (valid_before - valid_after = 1700000000 + 300)%Z
         /\ (valid_before - 1700000000 = 300)%Z.
Proof.
  eexists. split; [vm_compute; reflexivity|].
  apply (@generated_header_window Demo.eth (init (lit "cronos-testnet")) Demo.clock Demo.key
           Demo.pay_to Demo.usdc (lit "1000000") 300 None None).
  - apply Demo.ascii_text_text. vm_compute. repeat constructor.
  - vm_compute. reflexivity.
Defined.

(** C4, counterexample to the claim as stated: a header generated at clock
    reading 1700000000 with a timeout of 300 seconds decodes to
    [validAfter = 0] and [validBefore = 1700000300], and their difference is
    not 300. *)
Lemma window_is_not_timeout :
  exists header_b64 h,
    @generate_payment_header Demo.eth (init (lit "cronos-testnet")) Demo.clock Demo.key
      Demo.pay_to Demo.usdc (lit "1000000") 300 None None = Ok header_b64
    /\ decode_payment_header header_b64 = Ok h
    /\ field h "scheme" = Some (VStr (lit "eip3009"))
    /\ payload_field h "validAfter" = Some (VInt 0)
    /\ payload_field h "validBefore" = Some (VInt 1700000300)
    /\ (1700000300 - 0 <> 300)%Z.
Proof.
  eexists _, _. split; [vm_compute; reflexivity|].
  split; [vm_compute; reflexivity|]. by split_and!.
Qed.


Lemma nonce_format rnd :
  length rnd = 32%nat ->
  length (generate_nonce rnd) = 66%nat
  /\ take 2 (generate_nonce rnd) = lit "0x"
  /\ forallb is_lower_hex (drop 2 (generate_nonce rnd)) = true.
Proof.
  intros Hl. unfold generate_nonce. split_and!.
  - rewrite length_app, hex_length, Hl. done.
  - done.
  - apply hex_lower.
Qed.

Lemma nonce_inj r1 r2 :
  Base64.octets r1 -> Base64.octets r2 ->
  generate_nonce r1 = generate_nonce r2 -> r1 = r2.
Proof.
  intros H1 H2 E. unfold generate_nonce in E.
  apply app_inv_head in E. by apply hex_inj.
Qed.

(** C7. The nonce of a credential is drawn per call: it is the 32 octets
    read from the random source, written as ["0x"] followed by 64 lower-case
    hexadecimal digits; and two credentials built from the same inputs have
    different nonces whenever the two calls drew different octets. *)
Theorem nonce_is_fresh `{Eth} self sys1 sys2 private_key pay_to asset amount
    timeout_seconds token_name token_version h1 h2 :
  length (urandom32 sys1) = 32%nat -> Base64.octets (urandom32 sys1) ->
  length (urandom32 sys2) = 32%nat -> Base64.octets (urandom32 sys2) ->
  build_payment_header self sys1 private_key pay_to asset amount timeout_seconds
    token_name token_version = Ok h1 ->
  build_payment_header self sys2 private_key pay_to asset amount timeout_seconds
    token_name token_version = Ok h2 ->
  (exists nonce,
     payload_field h1 "nonce" = Some (VStr nonce)
     /\ nonce = generate_nonce (urandom32 sys1)
     /\ length nonce = 66%nat
     /\ take 2 nonce = lit "0x"
     /\ forallb is_lower_hex (drop 2 nonce) = true)
  /\ (urandom32 sys1 <> urandom32 sys2 ->
      payload_field h1 "nonce" <> payload_field h2 "nonce").
Proof.
  intros L1 O1 L2 O2 B1 B2.
  destruct (build_payment_header_shape _ _ _ _ _ _ _ _ _ _ B1)
    as (f1 & t1 & g1 & a1 & -> & _).
  destruct (build_payment_header_shape _ _ _ _ _ _ _ _ _ _ B2)
    as (f2 & t2 & g2 & a2 & -> & _).
  split.
  - exists (generate_nonce (urandom32 sys1)).
    destruct (nonce_format _ L1) as (F1 & F2 & F3). by split_and!.
  - intros Hne. change (Some (VStr (generate_nonce (urandom32 sys1)))
                        <> Some (VStr (generate_nonce (urandom32 sys2)))).
    intros E. apply Hne. apply nonce_inj; [done|done|congruence].
Qed.

Lemma nonce_is_fresh_witness :
  exists h1 h2,
    @build_payment_header Demo.eth (init (lit "cronos-testnet"))
      (Os 1700000000 (repeat 0x5A%N 32)) Demo.key Demo.pay_to Demo.usdc
      (lit "1000000") 300 None None = Ok h1
    /\ @build_payment_header Demo.eth (init (lit "cronos-testnet"))
         (Os 1700000000 (repeat 0xC3%N 32)) Demo.key Demo.pay_to Demo.usdc
         (lit "1000000") 300 None None = Ok h2
    /\ payload_field h1 "nonce" <> payload_field h2 "nonce".
Proof.
  eexists _, _. split; [vm_compute; reflexivity|].
  split; [vm_compute; reflexivity|].
  apply (@nonce_is_fresh Demo.eth (init (lit "cronos-testnet"))
           (Os 1700000000 (repeat 0x5A%N 32)) (Os 1700000000 (repeat 0xC3%N 32))
           Demo.key Demo.pay_to Demo.usdc (lit "1000000") 300 None None).
  - reflexivity.
  - apply Forall_forall. intros x Hx. apply list_elem_of_In, repeat_spec in Hx.
    subst x. reflexivity.
  - reflexivity.
  - apply Forall_forall. intros x Hx. apply list_elem_of_In, repeat_spec in Hx.
    subst x. reflexivity.
  - vm_compute. reflexivity.
  - vm_compute. reflexivity.
  - vm_compute. intros [=].
Defined.

(** *** The signing domain *)

Lemma get_token_config_lower self1 self2 asset1 asset2 :
  network self1 = network self2 -> lower asset1 = lower asset2 ->
  _get_token_config self1 asset1 = _get_token_config self2 asset2.
Proof. unfold _get_token_config. by intros -> ->. Qed.

Lemma get_token_config_match self asset cfg :
  _get_token_config self asset = Some cfg ->
  lower (tc_address cfg) = lower asset.
Proof.
  unfold _get_token_config. destruct (assoc _ _) as [tokens|]; [|done].
  destruct (List.find _ tokens) as [[name c]|] eqn:E; [|done].
  intros [= <-]. apply List.find_some in E as [_ E]. cbn [snd] in E.
  unfold str_eqb in E. by apply bool_decide_eq_true in E.
Qed.





End CronosProps.

(* ===================================================================== *)
(** * The safe facade *)
(* ===================================================================== *)

Module FacadeProps.
Import Facade.

Lemma dict_get_set_eq (d : dict) k v : dict_get (dict_set d k v) k = Some v.
Proof.
  induction d as [|[k' v'] d IH]; cbn [dict_set dict_get].
  - unfold str_eqb. by rewrite bool_decide_eq_true_2.
  - unfold str_eqb in *. destruct (bool_decide (k' = k)) eqn:E; cbn [dict_get];
      unfold str_eqb; by rewrite E.
Qed.

Lemma dict_get_set_ne (d : dict) k v k' :
  k <> k' -> dict_get (dict_set d k v) k' = dict_get d k'.
Proof.
  intros Hne. induction d as [|[k0 v0] d IH]; cbn [dict_set dict_get].
  - unfold str_eqb. by rewrite bool_decide_eq_false_2.
  - unfold str_eqb in *. destruct (bool_decide (k0 = k)) eqn:E; cbn [dict_get];
      unfold str_eqb.
    + apply bool_decide_eq_true in E as ->. by rewrite !bool_decide_eq_false_2.
    + by rewrite IH.
Qed.

Lemma dict_get_update_other (d e : dict) k :
  k ∉ List.map fst e -> dict_get (dict_update d e) k = dict_get d k.
Proof.
  unfold dict_update. revert d. induction e as [|[k' v'] e IH]; intros d Hk; [done|].
  cbn [List.map fst] in Hk. apply not_elem_of_cons in Hk as [Hne Hk].
  cbn [fold_left fst snd]. rewrite IH by done. by apply dict_get_set_ne.
Qed.

(** What the context holds after [context.update]. *)
Lemma context_items_written self pay_to asset amount (d : dict) :
  let d' := dict_update d (context_items self pay_to asset amount) in
  dict_get d' (lit "payment_type") = Some (VStr (lit "x402"))
  /\ dict_get d' (lit "recipient") = Some (VStr pay_to)
  /\ dict_get d' (lit "token") = Some (VStr asset)
  /\ dict_get d' (lit "amount") = Some (VStr amount)
  /\ dict_get d' (lit "network") = Some (VStr (network self)).
Proof.
  cbn zeta. unfold dict_update, context_items. cbn [fold_left fst snd].
  split_and!;
    repeat first [ apply dict_get_set_eq
                 | rewrite dict_get_set_ne by (by vm_compute) ].
Qed.

(** C10. [generate_safe_payment_header] writes into the dictionary that the
    caller passed as [context]: after the call (whatever it returns, and
    provided the policy engine does not itself rewrite the context) the
    caller's dictionary holds [payment_type], [recipient], [token],
    [amount] and [network] with the values of this call, replacing any
    values the caller had stored under these keys; every other key is as the
    caller left it. *)
Theorem context_is_updated_in_place `{Cronos.Eth} self sys pay_to asset amount
    context timeout_seconds (h : gmap positive dict) (d : dict) :
  h !! context = Some d ->
  (forall hh, (policy_engine self pay_to amount (lit "0x") context hh).1 !! context
              = hh !! context) ->
  exists d',
    (generate_safe_payment_header self sys pay_to asset amount (Some context)
       timeout_seconds h).1 !! context = Some d'
    /\ d' = dict_update d (context_items self pay_to asset amount)
    /\ dict_get d' (lit "payment_type") = Some (VStr (lit "x402"))
    /\ dict_get d' (lit "recipient") = Some (VStr pay_to)
    /\ dict_get d' (lit "token") = Some (VStr asset)
    /\ dict_get d' (lit "amount") = Some (VStr amount)
    /\ dict_get d' (lit "network") = Some (VStr (network self))
    /\ (forall k, k ∉ List.map fst (context_items self pay_to asset amount) ->
                  dict_get d' k = dict_get d k).
Proof.
  intros Hd Hframe.
  exists (dict_update d (context_items self pay_to asset amount)).
  split.
  - unfold generate_safe_payment_header, prepare_context.
    set (h1 := alter _ context h).
    specialize (Hframe h1).
    destruct (policy_engine self pay_to amount (lit "0x") context h1)
      as [h2 validation]. cbn [fst] in Hframe.
    assert (Hh1 : h1 !! context
                  = Some (dict_update d (context_items self pay_to asset amount))).
    { unfold h1. by rewrite lookup_alter_eq, Hd. }
    rewrite <- Hh1, <- Hframe.
    destruct validation as [validation_result|e]; [|done].
    destruct (negb _); [done|]. by destruct (signed _ _ _ _ _ _ _).
  - split; [done|].
    destruct (context_items_written self pay_to asset amount d)
      as (H1 & H2 & H3 & H4 & H5).
    split_and!; try done. intros k Hk. by apply dict_get_update_other.
Qed.


Lemma context_is_updated_in_place_witness :
  exists d',
    (@generate_safe_payment_header Demo.eth
       (Demo.safe_facilitator Demo.rejecting_engine Demo.key) Demo.clock
       Demo.pay_to Demo.usdc (lit "1000000") (Some 1%positive) 300
       {[ 1%positive := [ (lit "user_intent", VStr (lit "Pay for API access"));
                          (lit "amount", VStr (lit "5")) ] ]}).1 !! 1%positive
    = Some d'
    /\ dict_get d' (lit "user_intent") = Some (VStr (lit "Pay for API access"))
    /\ dict_get d' (lit "amount") = Some (VStr (lit "1000000"))
    /\ dict_get d' (lit "payment_type") = Some (VStr (lit "x402")).
Proof.
  destruct (@context_is_updated_in_place Demo.eth
              (Demo.safe_facilitator Demo.rejecting_engine Demo.key) Demo.clock
              Demo.pay_to Demo.usdc (lit "1000000") 1%positive 300
              {[ 1%positive := [ (lit "user_intent", VStr (lit "Pay for API access"));
                                 (lit "amount", VStr (lit "5")) ] ]}
              [ (lit "user_intent", VStr (lit "Pay for API access"));
                (lit "amount", VStr (lit "5")) ])
    as (d' & Hd' & -> & _).
  - apply lookup_singleton_eq.
  - intros hh. reflexivity.
  - eexists. split; [exact Hd'|]. split_and!; reflexivity.
Defined.



(** X7. The success path evaluates
    [self.facilitator._get_account_address], an attribute that
    [CronosFacilitator] does not define, inside the [try] block: whatever the
    policy engine and the signer answer, a result that the facade returns
    has [approved = False] and no [payment_header]. *)
Lemma safe_header_never_approved `{Cronos.Eth} self sys pay_to asset amount
    context timeout_seconds (h h' : gmap positive dict) r :
  generate_safe_payment_header self sys pay_to asset amount context
    timeout_seconds h = (h', Ok r) ->
  dict_get r (lit "approved") = Some (VBool false)
  /\ dict_get r (lit "payment_header") = None.
Proof.
  unfold generate_safe_payment_header.
  destruct (prepare_context self pay_to asset amount context h) as [ctx h1].
  destruct (policy_engine self pay_to amount (lit "0x") ctx h1) as [h2 [vr|e]];
    [|done].
  destruct (negb _); [by intros [= _ <-]|].
  destruct (signed _ _ _ _ _ _ _) as [ok|e] eqn:E; [|by intros [= _ <-]].
  unfold signed in E.
  destruct (Cronos.generate_payment_header _ _ _ _ _ _ _ _ _); done.
Qed.

End FacadeProps.

(* ===================================================================== *)
(** * The probe and the [/validate-token] endpoint *)
(* ===================================================================== *)

Module ProbeProps.
Import Simulator Api.

(** What the probe answers when the endpoint cannot be reached. *)
Lemma simulate_swap_offline w token_address rpc_url amount :
  is_connected w = Ok false ->
  simulate_swap w token_address rpc_url amount =
    [ (lit "can_buy", VNone); (lit "can_sell", VNone);
      (lit "error", VStr (lit "Cannot connect to RPC"));
      (lit "rpc_url", VStr rpc_url) ].
Proof. intros H. unfold simulate_swap, probe. by rewrite H. Qed.

(** What the probe answers for a deployed contract whose first metadata
    call raises: reading [total_supply] raises [UnboundLocalError], which
    the handler of the middle [try] turns into an unknown verdict. *)
Lemma simulate_swap_unreadable w token_address rpc_url amount address code e :
  is_connected w = Ok true ->
  to_checksum_address w token_address = Ok address ->
  get_code w address = Ok code -> code <> [] ->
  call_name w address = Raise e ->
  let r := simulate_swap w token_address rpc_url amount in
  dict_get r (lit "can_buy") = Some VNone
  /\ dict_get r (lit "can_sell") = Some VNone
  /\ dict_get r (lit "risk") = None.
Proof.
  intros Hc Ha Hcode Hne Hname. cbn zeta. unfold simulate_swap, probe.
  rewrite Hc. cbn [negb mbind result_bind]. rewrite Ha. cbn [mbind result_bind].
  rewrite Hcode. cbn [mbind result_bind].
  rewrite bool_decide_eq_false_2 by done.
  unfold inspect_contract. rewrite Ha. cbn [mbind result_bind].
  unfold read_token_info. rewrite Hname. cbn [mbind result_bind read_local].
  done.
Qed.

(** C8, on the code.  For a token whose contract code is present and whose
    metadata calls raise, [simulate_swap] does not report the token as
    tradable: [can_buy] and [can_sell] are [None], there is no [risk] entry,
    and [error] reports the failed read of [total_supply]. *)
Theorem unreadable_token_verdict :
  let r := simulate_swap Demo.unreadable Demo.usdc (lit "https://evm-t3.cronos.org")
             (Some (lit "1.0")) in
  dict_get r (lit "can_buy") = Some VNone
  /\ dict_get r (lit "can_sell") = Some VNone
  /\ dict_get r (lit "risk") = None
  /\ dict_get r (lit "error")
     = Some (VStr (lit "Contract interaction failed: cannot access local variable 'total_supply' where it is not associated with a value"))
  /\ dict_get r (lit "can_buy") <> Some (VBool true).
Proof. by vm_compute. Qed.

(** C9. When the request's chain is supported, its token address is well
    formed, and the probe finds the RPC endpoint unreachable (so that it
    reports [can_buy = None] and [can_sell = None]), the endpoint answers
    [is_safe = false], [risk_level = "HIGH"] and the reason
    ["Token cannot be sold (honeypot detected)"]: the [None] under
    [can_sell] is taken for a failed sell check. *)
Theorem unreachable_rpc_is_reported_as_honeypot w req rpc_url :
  import_error w = None ->
  rpc_url_of w req = Some rpc_url ->
  is_address w (token_address req) = true ->
  is_connected (rpc_at w rpc_url) = Ok false ->
  let result := simulate_swap (rpc_at w rpc_url) (token_address req) rpc_url
                  (amount req) in
  dict_get result (lit "can_buy") = Some VNone
  /\ dict_get result (lit "can_sell") = Some VNone
  /\ validate_token w req =
     Respond {| is_safe := false;
                risk_level := lit "HIGH";
                reason := lit "Token cannot be sold (honeypot detected)";
                details := result;
                can_buy := None;
                can_sell := None |}.
Proof.
  intros Himp Hurl Haddr Hoff. cbn zeta.
  rewrite (simulate_swap_offline _ _ _ _ Hoff).
  split; [done|]. split; [done|].
  unfold validate_token, analyze. rewrite Himp, Hurl, Haddr. cbn [negb].
  by rewrite (simulate_swap_offline _ _ _ _ Hoff).
Qed.

Lemma unreachable_rpc_is_reported_as_honeypot_witness :
  validate_token Demo.cut_off Demo.request =
    Respond {| is_safe := false;
               risk_level := lit "HIGH";
               reason := lit "Token cannot be sold (honeypot detected)";
               details :=
                 [ (lit "can_buy", VNone); (lit "can_sell", VNone);
                   (lit "error", VStr (lit "Cannot connect to RPC"));
                   (lit "rpc_url", VStr (lit "https://evm-t3.cronos.org")) ];
               can_buy := None;
               can_sell := None |}.
Proof.
  destruct (unreachable_rpc_is_reported_as_honeypot Demo.cut_off Demo.request
              (lit "https://evm-t3.cronos.org")) as (_ & _ & H).
  - reflexivity.
  - reflexivity.
  - reflexivity.
  - reflexivity.
  - exact H.
Defined.

End ProbeProps.

(* ===================================================================== *)
(** * The staged pipeline *)
(* ===================================================================== *)

Module AgentProps.
Import Agent.

Lemma not_in_log (e : event) (log : list event) :
  bool_decide (e ∈ log) = false -> e ∉ log.
Proof. apply bool_decide_eq_false. Qed.

Lemma silent_log (later log : list event) :
  forallb (fun e => negb (bool_decide (e ∈ log))) later = true -> silent later log.
Proof.
  intros H e He. rewrite forallb_forall in H.
  apply list_elem_of_In, H, negb_true_iff in He. by apply bool_decide_eq_false in He.
Qed.

Lemma trades_action intent :
  trades intent = true ->
  exists action, getitem intent "action" = Ok action
                 /\ existsb (is_str action) [lit "swap"; lit "buy"] = true.
Proof.
  unfold trades, getitem. destruct (dict_get intent (lit "action")) as [a|]; [|done].
  eauto.
Qed.

(** The run from stage 3.5 on, by cases on the intent's action. *)
Lemma stage3_cases m intent :
  if trades intent then
    match stage3 m intent with
    | Raise e =>
        validate_stage3 m intent =
          ([Console (lit "[dim]   Stage 3.5: Honeypot Detection...[/dim]");
            Invoke Stage3], Raise e)
    | Ok r =>
        if passed r then
          validate_stage3 m intent =
            ([Console (lit "[dim]   Stage 3.5: Honeypot Detection...[/dim]");
              Invoke Stage3;
              Console (lit "[green]   " ++ check_mark
                       ++ lit " Stage 3.5: Passed[/green]")]
             ++ stage4_events, Ok approved)
        else
          validate_stage3 m intent =
            ([Console (lit "[dim]   Stage 3.5: Honeypot Detection...[/dim]");
              Invoke Stage3],
             Ok (blocked (reason r) (lit "Honeypot Detection")))
    end
  else
    match getitem intent "action" with
    | Raise e => validate_stage3 m intent = ([], Raise e)
    | Ok _ => validate_stage3 m intent = (stage4_events, Ok approved)
    end.
Proof.
  unfold validate_stage3, trades, getitem.
  destruct (dict_get intent (lit "action")) as [a|]; [|done].
  cbn [mbind run_bind]. destruct (existsb _ _); [|done].
  cbn [mbind run_bind console_print invoke].
  destruct (stage3 m intent) as [r|e]; [|done].
  by destruct (passed r).
Qed.

(** Case analysis of a whole run: every stage's switch, result and verdict,
    with the run from stage 3.5 on replaced by its value. *)
Ltac run_cases self m intent :=
  let H3 := fresh "H3" in
  pose proof (stage3_cases m intent) as H3;
  unfold passes, fails, _validate_with_agentshield, validate_stage2, outcome, trace in *;
  destruct (llm_judge self); [destruct (stage1 m intent) as [[[] ?]|?]|];
  (destruct (policy_engine self); [destruct (stage2 m intent) as [[[] ?]|?]|]);
  (destruct (trades intent);
   [destruct (stage3 m intent) as [[[] ?]|?]
   |destruct (getitem intent "action")]);
  cbn [mbind run_bind console_print invoke negb passed reason mret run_ret fst snd] in *;
  rewrite ?H3 in *;
  cbn [mbind run_bind console_print invoke negb passed reason mret run_ret fst snd] in *.

Ltac absurd_stage :=
  repeat match goal with
         | H : _ /\ _ |- _ => destruct H
         | H : exists _, _ |- _ => destruct H
         | H : true = true -> _ |- _ => specialize (H eq_refl)
         | H : Ok _ = Ok _ |- _ => injection H as H; subst
         | H : StageResult _ _ = StageResult _ _ |- _ => injection H as H; subst
         end; cbn [passed reason] in *; try discriminate; try congruence.

Lemma stage1_blocks self m intent why :
  fails (llm_judge self) (stage1 m intent) why ->
  outcome (_validate_with_agentshield self m intent)
  = Ok (blocked why (lit "LLM Intent Judge"))
  /\ silent ([Invoke Stage2; Invoke Stage3] ++ stage4_events)
       (trace (_validate_with_agentshield self m intent)).
Proof.
  intros H. run_cases self m intent; absurd_stage;
    (split; [done|by apply silent_log; vm_compute]).
Qed.


Lemma stage2_blocks self m intent why :
  passes (llm_judge self) (stage1 m intent) ->
  fails (policy_engine self) (stage2 m intent) why ->
  outcome (_validate_with_agentshield self m intent)
  = Ok (blocked why (lit "Policy Validation"))
  /\ silent ([Invoke Stage3] ++ stage4_events)
       (trace (_validate_with_agentshield self m intent)).
Proof.
  intros H1 H2. run_cases self m intent; absurd_stage;
    (split; [done|by apply silent_log; vm_compute]).
Qed.

Lemma stage3_blocks self m intent r :
  passes (llm_judge self) (stage1 m intent) ->
  passes (policy_engine self) (stage2 m intent) ->
  trades intent = true -> stage3 m intent = Ok r -> passed r = false ->
  outcome (_validate_with_agentshield self m intent)
  = Ok (blocked (reason r) (lit "Honeypot Detection"))
  /\ silent stage4_events (trace (_validate_with_agentshield self m intent)).
Proof.
  intros H1 H2 Ht H3 Hp. revert Ht H3.
  run_cases self m intent; intros Ht E3; absurd_stage;
    (split; [done|by apply silent_log; vm_compute]).
Qed.

Lemma stage3_only_for_trades self m intent :
  Invoke Stage3 ∈ trace (_validate_with_agentshield self m intent) ->
  trades intent = true.
Proof.
  destruct (trades intent) eqn:Ht; [done|]. revert Ht.
  run_cases self m intent; intros Ht Hin; try done;
    exfalso; revert Hin; by apply not_in_log; vm_compute.
Qed.

Lemma stage3_skipped self m intent action :
  passes (llm_judge self) (stage1 m intent) ->
  passes (policy_engine self) (stage2 m intent) ->
  getitem intent "action" = Ok action -> trades intent = false ->
  outcome (_validate_with_agentshield self m intent) = Ok approved
  /\ Invoke Stage3 ∉ trace (_validate_with_agentshield self m intent).
Proof.
  intros H1 H2 Ha Ht. revert Ha Ht.
  run_cases self m intent; intros Ha Ht; absurd_stage;
    (split; [done|by apply not_in_log; vm_compute]).
Qed.

(** C3. The pipeline short-circuits.  A stage that fails ends the run with
    [approved = False] and [stage_failed] naming that stage, and nothing of
    a later stage happens: no later stage method is invoked and no console
    line of stage 4 is written.  In particular a failing policy stage leaves
    the honeypot stage and stage 4 untouched.  The honeypot stage is invoked
    only when the intent's action is [swap] or [buy]; for any other action
    (such as [transfer] or [query]) it is skipped and the run is approved
    when stages 1 and 2 pass. *)
Theorem pipeline_short_circuits self m intent :
  let run := _validate_with_agentshield self m intent in
  (forall why,
     fails (llm_judge self) (stage1 m intent) why ->
     outcome run = Ok (blocked why (lit "LLM Intent Judge"))
     /\ silent ([Invoke Stage2; Invoke Stage3] ++ stage4_events) (trace run))
  /\ (forall why,
        passes (llm_judge self) (stage1 m intent) ->
        fails (policy_engine self) (stage2 m intent) why ->
        outcome run = Ok (blocked why (lit "Policy Validation"))
        /\ silent ([Invoke Stage3] ++ stage4_events) (trace run))
  /\ (forall r,
        passes (llm_judge self) (stage1 m intent) ->
        passes (policy_engine self) (stage2 m intent) ->
        trades intent = true -> stage3 m intent = Ok r -> passed r = false ->
        outcome run = Ok (blocked (reason r) (lit "Honeypot Detection"))
        /\ silent stage4_events (trace run))
  /\ (Invoke Stage3 ∈ trace run -> trades intent = true)
  /\ (forall action,
        passes (llm_judge self) (stage1 m intent) ->
        passes (policy_engine self) (stage2 m intent) ->
        getitem intent "action" = Ok action -> trades intent = false ->
        outcome run = Ok approved /\ Invoke Stage3 ∉ trace run).
Proof.
  cbn zeta. split_and!.
  - apply stage1_blocks.
  - apply stage2_blocks.
  - apply stage3_blocks.
  - apply stage3_only_for_trades.
  - apply stage3_skipped.
Qed.

(** The class's own stage methods on three intents: a transfer above the
    policy limit stops at stage 2, a swap for a listed token stops at stage
    3.5, and a small transfer is approved without the honeypot stage. *)
Lemma pipeline_short_circuits_witness :
  (outcome (_validate_with_agentshield Demo.agent (@own_methods Demo.whole)
              (Demo.transfer "500"))
   = Ok (blocked (lit "Transfer amount (500.0 USDC) exceeds policy limit (100)")
           (lit "Policy Validation"))
   /\ silent ([Invoke Stage3] ++ stage4_events)
        (trace (_validate_with_agentshield Demo.agent (@own_methods Demo.whole)
                  (Demo.transfer "500"))))
  /\ (outcome (_validate_with_agentshield Demo.agent (@own_methods Demo.whole)
                 (Demo.swap "SCAM"))
      = Ok (blocked (lit "Honeypot token detected: SCAM cannot be sold")
              (lit "Honeypot Detection"))
      /\ silent stage4_events
           (trace (_validate_with_agentshield Demo.agent (@own_methods Demo.whole)
                     (Demo.swap "SCAM"))))
  /\ (outcome (_validate_with_agentshield Demo.agent (@own_methods Demo.whole)
                 (Demo.transfer "10"))
      = Ok approved
      /\ Invoke Stage3 ∉ trace (_validate_with_agentshield Demo.agent
                                  (@own_methods Demo.whole) (Demo.transfer "10"))).
Proof.
  destruct (pipeline_short_circuits Demo.agent (@own_methods Demo.whole)
              (Demo.transfer "500")) as (_ & Hpolicy & _).
  destruct (pipeline_short_circuits Demo.agent (@own_methods Demo.whole)
              (Demo.swap "SCAM")) as (_ & _ & Hprobe & _).
  destruct (pipeline_short_circuits Demo.agent (@own_methods Demo.whole)
              (Demo.transfer "10")) as (_ & _ & _ & _ & Hskip).
  split; [|split].
  - apply Hpolicy.
    + intros _. by eexists.
    + split; [done|]. by eexists.
  - apply (Hprobe (StageResult false
                     (lit "Honeypot token detected: SCAM cannot be sold"))).
    + intros _. by eexists.
    + intros _. by eexists.
    + reflexivity.
    + reflexivity.
    + reflexivity.
  - apply (Hskip (VStr (lit "transfer"))).
    + intros _. by eexists.
    + intros _. by eexists.
    + reflexivity.
    + reflexivity.
Defined.

End AgentProps.

(* ===================================================================== *)
(** * More about the codec and the signer *)
(* ===================================================================== *)

Module CronosExtra.
Import Cronos CronosProps.

(** The private key as [generate_payment_header] passes it on. *)
Lemma startswith_0x (s : str) : startswith (lit "0x" ++ s) (lit "0x") = true.
Proof. unfold startswith. by apply bool_decide_eq_true. Qed.

(** X3. The secret key may be passed with or without ["0x"]: a key that does
    not start with ["0x"] gives the same result, header or exception, as the
    same key with ["0x"] in front. *)
Theorem private_key_prefix_is_optional `{Eth} self sys private_key pay_to asset
    amount timeout_seconds token_name token_version :
  startswith private_key (lit "0x") = false ->
  generate_payment_header self sys (lit "0x" ++ private_key) pay_to asset amount
    timeout_seconds token_name token_version
  = generate_payment_header self sys private_key pay_to asset amount
      timeout_seconds token_name token_version.
Proof.
  intros Hk. unfold generate_payment_header, build_payment_header.
  by rewrite startswith_0x, Hk.
Qed.

Lemma private_key_prefix_is_optional_witness :
  @generate_payment_header Demo.eth (init (lit "cronos-testnet")) Demo.clock
    (lit "0x" ++ drop 2 Demo.key) Demo.pay_to Demo.usdc (lit "1000000") 300 None None
  = @generate_payment_header Demo.eth (init (lit "cronos-testnet")) Demo.clock
      (drop 2 Demo.key) Demo.pay_to Demo.usdc (lit "1000000") 300 None None.
Proof.
  apply (@private_key_prefix_is_optional Demo.eth). reflexivity.
Defined.

(** X4. [generate_payment_header] reads the recipient and the asset up to
    letter case: two calls whose recipients have the same lower-case form and
    whose assets have the same lower-case form give the same result. *)
Theorem header_ignores_letter_case `{Eth} self sys private_key pay_to1 pay_to2
    asset1 asset2 amount timeout_seconds token_name token_version :
  lower pay_to1 = lower pay_to2 -> lower asset1 = lower asset2 ->
  generate_payment_header self sys private_key pay_to1 asset1 amount
    timeout_seconds token_name token_version
  = generate_payment_header self sys private_key pay_to2 asset2 amount
      timeout_seconds token_name token_version.
Proof.
  intros Hp Ha. unfold generate_payment_header, build_payment_header, resolve_domain.
  by rewrite Hp, Ha, (get_token_config_lower self self asset1 asset2 eq_refl Ha).
Qed.

Lemma header_ignores_letter_case_witness :
  @generate_payment_header Demo.eth (init (lit "cronos-testnet")) Demo.clock
    Demo.key (lit "0x742D35CC6634C0532925A3B844BC9E7595F0BEB1")
    (lit "0xC01EFAAF7C5C61BEBFAEB358E1161B537B8BC0E0") (lit "1000000") 300 None None
  = @generate_payment_header Demo.eth (init (lit "cronos-testnet")) Demo.clock
      Demo.key Demo.pay_to Demo.usdc (lit "1000000") 300 None None.
Proof.
  apply (@header_ignores_letter_case Demo.eth); reflexivity.
Defined.

Lemma get_token_config_names self asset cfg :
  _get_token_config self asset = Some cfg ->
  tc_name cfg = lit "Bridged USDC (Stargate)" /\ tc_version cfg = lit "1".
Proof.
  unfold _get_token_config, TOKENS. cbn [assoc].
  destruct (str_eqb _ _); [|destruct (str_eqb _ _); [|done]];
    cbn [List.find fst snd tc_address]; destruct (str_eqb _ _);
    cbn [fmap option_fmap option_map snd]; try done; by intros [= <-].
Qed.

(** X5. The [TOKENS] table has no effect on the domain that is signed. When
    the caller gives both the token name and the token version they are used
    as given; otherwise a missing or empty one becomes
    ["Bridged USDC (Stargate)"], respectively ["1"], whatever the asset and
    the network are. *)
Theorem token_table_never_changes_the_domain self asset token_name token_version :
  resolve_domain self asset token_name token_version
  = match token_name, token_version with
    | Some n, Some v => (n, v)
    | _, _ => (or_else token_name (lit "Bridged USDC (Stargate)"),
               or_else token_version (lit "1"))
    end.
Proof.
  unfold resolve_domain.
  destruct (_get_token_config self asset) as [cfg|] eqn:E.
  - destruct (get_token_config_names _ _ _ E) as [-> ->].
    by destruct token_name, token_version.
  - by destruct token_name, token_version.
Qed.


(** *** The signed message and the payload *)

Lemma build_payment_header_calls `{Eth} self sys private_key pay_to asset amount
    timeout_seconds token_name token_version h :
  build_payment_header self sys private_key pay_to asset amount timeout_seconds
    token_name token_version = Ok h ->
  exists address dom msg signature,
    let key := if startswith private_key (lit "0x") then private_key
               else lit "0x" ++ private_key in
    account_address key = Ok address
    /\ to_checksum_address (lower address) = Ok (m_from msg)
    /\ to_checksum_address (lower pay_to) = Ok (m_to msg)
    /\ to_checksum_address (lower asset) = Ok (d_verifyingContract dom)
    /\ (d_name dom, d_version dom)
       = resolve_domain self asset token_name token_version
    /\ int_of_str (chain_id self) = Ok (d_chainId dom)
    /\ int_of_str amount = Ok (m_value msg)
    /\ m_validAfter msg = 0%Z
    /\ m_validBefore msg = (time sys + timeout_seconds)%Z
    /\ m_nonce msg = generate_nonce (urandom32 sys)
    /\ sign_typed_data key dom msg = Ok signature
    /\ h = payment_header (network self) (m_from msg) (m_to msg) amount
             (m_validAfter msg) (m_validBefore msg) (m_nonce msg)
             (if startswith signature (lit "0x") then signature
              else lit "0x" ++ signature)
             (d_verifyingContract dom).
Proof.
  unfold build_payment_header. intros Hb.
  destruct (account_address _) as [address|] eqn:E1; [|done].
  cbn [mbind result_bind] in Hb.
  destruct (to_checksum_address (lower address)) as [from_address|] eqn:E2; [|done].
  cbn [mbind result_bind] in Hb.
  destruct (to_checksum_address (lower pay_to)) as [to_address|] eqn:E3; [|done].
  cbn [mbind result_bind] in Hb.
  destruct (to_checksum_address (lower asset)) as [asset_address|] eqn:E4; [|done].
  cbn [mbind result_bind] in Hb.
  destruct (resolve_domain self asset token_name token_version) as [name version].
  destruct (int_of_str (chain_id self)) as [chain|] eqn:E5; [|done].
  cbn [mbind result_bind] in Hb.
  destruct (int_of_str amount) as [value|] eqn:E6; [|done].
  cbn [mbind result_bind] in Hb.
  destruct (sign_typed_data _ _ _) as [signature|] eqn:E7; [|done].
  cbn [mbind result_bind] in Hb. injection Hb as <-.
  exists address, (Domain name version chain asset_address),
    (Message from_address to_address value 0 (time sys + timeout_seconds)
       (generate_nonce (urandom32 sys))), signature.
  cbn zeta. cbn [m_from m_to m_value m_validAfter m_validBefore m_nonce
                 d_name d_version d_chainId d_verifyingContract].
  by split_and!.
Qed.

(** Decoding a generated header gives back the dictionary that was
    encoded. *)
Lemma generated_header_decodes `{Eth} self sys private_key pay_to asset amount
    timeout_seconds token_name token_version header_b64 :
  text (network self) ->
  generate_payment_header self sys private_key pay_to asset amount
    timeout_seconds token_name token_version = Ok header_b64 ->
  exists h,
    build_payment_header self sys private_key pay_to asset amount
      timeout_seconds token_name token_version = Ok h
    /\ decode_payment_header header_b64 = Ok h
    /\ field h "scheme" = Some (VStr (lit "eip3009"))
    /\ field h "network" = Some (VStr (network self)).
Proof.
  intros Hnet. unfold generate_payment_header.
  destruct (build_payment_header _ _ _ _ _ _ _ _ _) as [h|] eqn:Hb; [|done].
  cbn [mbind result_bind]. intros He.
  destruct (build_payment_header_shape _ _ _ _ _ _ _ _ _ _ Hb)
    as (f & t & g & a & -> & Tf & Tt & Tm & Tg & Ta).
  pose proof (plain_payment_header (network self) f t amount 0
                (time sys + timeout_seconds) (generate_nonce (urandom32 sys)) g a
                Hnet Tf Tt Tm (nonce_text _) Tg Ta) as Hp.
  destruct (decode_encode_plain _ Hp) as [Hen Hde].
  rewrite Hen in He. injection He as <-. eexists. by split_and!.
Qed.

(** X1. The payload of a generated credential is the message that was signed.
    For a facilitator whose network name is text, every header that
    [generate_payment_header] returns decodes to a dictionary [h] such that
    the signing library was called on the key with ["0x"] in front, on the
    domain that [resolve_domain] gives with [int(self.chain_id)] as chain id,
    and on a message whose [from], [to], [validAfter], [validBefore] and
    [nonce] are the fields of the payload of [h] and whose [value] is
    [int(amount)]. The payload holds the amount as it was passed, the
    verifying contract as [asset], and the signature with ["0x"] in front. *)
Theorem payload_is_the_signed_message `{Eth} self sys private_key pay_to asset
    amount timeout_seconds token_name token_version header_b64 :
  text (network self) ->
  generate_payment_header self sys private_key pay_to asset amount
    timeout_seconds token_name token_version = Ok header_b64 ->
  exists h dom msg signature,
    decode_payment_header header_b64 = Ok h
    /\ sign_typed_data
         (if startswith private_key (lit "0x") then private_key
          else lit "0x" ++ private_key) dom msg = Ok signature
    /\ (d_name dom, d_version dom)
       = resolve_domain self asset token_name token_version
    /\ int_of_str (chain_id self) = Ok (d_chainId dom)
    /\ int_of_str amount = Ok (m_value msg)
    /\ field h "network" = Some (VStr (network self))
    /\ payload_field h "from" = Some (VStr (m_from msg))
    /\ payload_field h "to" = Some (VStr (m_to msg))
    /\ payload_field h "value" = Some (VStr amount)
    /\ payload_field h "validAfter" = Some (VInt (m_validAfter msg))
    /\ payload_field h "validBefore" = Some (VInt (m_validBefore msg))
    /\ payload_field h "nonce" = Some (VStr (m_nonce msg))
    /\ payload_field h "asset" = Some (VStr (d_verifyingContract dom))
    /\ payload_field h "signature"
       = Some (VStr (if startswith signature (lit "0x") then signature
                     else lit "0x" ++ signature)).
Proof.
  intros Hnet. unfold generate_payment_header.
  destruct (build_payment_header _ _ _ _ _ _ _ _ _) as [h|] eqn:Hb; [|done].
  cbn [mbind result_bind]. intros He.
  destruct (build_payment_header_calls _ _ _ _ _ _ _ _ _ _ Hb)
    as (address & dom & msg & signature & _ & Hf & Ht & Ha & Hd & Hc & Hv & _ & _
        & Hn & Hs & ->).
  apply to_checksum_address_text in Hf, Ht, Ha.
  pose proof (int_of_str_text _ _ Hv) as Tm.
  pose proof (sign_typed_data_text _ _ _ _ Hs) as Tg.
  assert (Tg' : text (if startswith signature (lit "0x") then signature
                      else lit "0x" ++ signature)).
  { destruct (startswith signature (lit "0x")); [done|].
    apply Forall_app. split; [|done]. by repeat constructor. }
  assert (Tn : text (m_nonce msg)) by (rewrite Hn; apply nonce_text).
  pose proof (plain_payment_header (network self) _ _ amount (m_validAfter msg)
                (m_validBefore msg) _ _ _ Hnet Hf Ht Tm Tn Tg' Ha) as Hp.
  destruct (decode_encode_plain _ Hp) as [Hen Hde].
  rewrite Hen in He. injection He as <-.
  eexists _, dom, msg, signature. split; [exact Hde|]. by split_and!.
Qed.

Lemma payload_is_the_signed_message_witness :
  exists header_b64,
    @generate_payment_header Demo.eth (init (lit "cronos-testnet")) Demo.clock
      Demo.key Demo.pay_to Demo.usdc (lit "1000000") 300 None None = Ok header_b64
    /\ exists h dom msg signature,
         decode_payment_header header_b64 = Ok h
         /\ Demo.sign Demo.key dom msg = Ok signature
         /\ (d_name dom, d_version dom)
            = resolve_domain (init (lit "cronos-testnet")) Demo.usdc None None
         /\ Demo.int_of_numeral (lit "338") = Ok (d_chainId dom)
         /\ Demo.int_of_numeral (lit "1000000") = Ok (m_value msg)
         /\ field h "network" = Some (VStr (lit "cronos-testnet"))
         /\ payload_field h "from" = Some (VStr (m_from msg))
         /\ payload_field h "to" = Some (VStr (m_to msg))
         /\ payload_field h "value" = Some (VStr (lit "1000000"))
         /\ payload_field h "validAfter" = Some (VInt (m_validAfter msg))
         /\ payload_field h "validBefore" = Some (VInt (m_validBefore msg))
         /\ payload_field h "nonce" = Some (VStr (m_nonce msg))
         /\ payload_field h "asset" = Some (VStr (d_verifyingContract dom))
         /\ payload_field h "signature"
            = Some (VStr (if startswith signature (lit "0x") then signature
                          else lit "0x" ++ signature)).
Proof.
  eexists. split; [vm_compute; reflexivity|].
  apply (@payload_is_the_signed_message Demo.eth (init (lit "cronos-testnet"))
           Demo.clock Demo.key Demo.pay_to Demo.usdc (lit "1000000") 300 None None).
  - apply Demo.ascii_text_text. vm_compute. repeat constructor.
  - vm_compute. reflexivity.
Defined.

(** *** The text of a header *)

Lemma table_b2a_alphabet i : Base64.alphabet (Base64.table_b2a i) = true.
Proof.
  unfold Base64.alphabet, Base64.table_a2b, Base64.table_b2a.
  repeat match goal with
         | |- context [(?a <? ?b)%N] => destruct (N.ltb_spec a b)
         | |- context [(?a =? ?b)%N] => destruct (N.eqb_spec a b)
         | |- context [(?a <=? ?b)%N] => destruct (N.leb_spec a b)
         end; cbn [andb]; try done; lia.
Qed.

Lemma b2a_shape n : forall data, (length data <= n)%nat ->
  Forall (fun c => Base64.alphabet c = true) (Base64.b2a_base64 data)
  /\ exists k, length (Base64.b2a_base64 data) = (4 * k)%nat.
Proof.
  assert (H0 : Forall (fun c => Base64.alphabet c = true) (Base64.b2a_base64 [])
               /\ exists k, length (Base64.b2a_base64 []) = (4 * k)%nat).
  { split; [constructor|by exists 0%nat]. }
  induction n as [|n IH]; intros data Hl.
  { destruct data; [exact H0|cbn in Hl; lia]. }
  destruct data as [|a [|b [|c rest]]]; cbn [Base64.b2a_base64 length] in *.
  - exact H0.
  - split; [|by exists 1%nat].
    repeat (constructor; [first [apply table_b2a_alphabet|done]|]). constructor.
  - split; [|by exists 1%nat].
    repeat (constructor; [first [apply table_b2a_alphabet|done]|]). constructor.
  - destruct (IH rest ltac:(lia)) as [Ha [k Hk]].
    split; [|exists (S k); lia].
    repeat (constructor; [apply table_b2a_alphabet|]). exact Ha.
Qed.

Lemma dict_ascii d :
  Forall (fun kv => ascii_text (Json.dumps kv.2)) d ->
  ascii_text (Json.dumps (VDict d)).
Proof.
  intros Hd. rewrite JsonFacts.dumps_dict. constructor; [done|].
  apply Forall_app. split; [|by repeat constructor]. apply JsonFacts.join_ascii.
  induction Hd as [|[k x] d Hx _ IH]; [constructor|].
  cbn [List.map]. constructor; [|exact IH].
  unfold Json.dumps_item. apply Forall_app. split; [apply JsonFacts.dumps_str_ascii|].
  apply Forall_app. split; [by repeat constructor|exact Hx].
Qed.

Lemma payment_header_ascii network from_address to_address amount valid_after
    valid_before nonce signature asset_address :
  ascii_text (Json.dumps (payment_header network from_address to_address amount
                            valid_after valid_before nonce signature asset_address)).
Proof.
  assert (Hs : forall s, ascii_text (Json.dumps (VStr s)))
    by apply JsonFacts.dumps_str_ascii.
  assert (Hi : forall z, ascii_text (Json.dumps (VInt z)))
    by apply JsonFacts.repr_int_ascii.
  unfold payment_header. apply dict_ascii.
  apply Forall_cons. split; [apply Hi|].
  apply Forall_cons. split; [apply Hs|].
  apply Forall_cons. split; [apply Hs|].
  apply Forall_cons. split; [|by apply Forall_nil].
  cbn [snd]. apply dict_ascii.
  repeat (apply Forall_cons; split; [first [apply Hs|apply Hi]|]).
  by apply Forall_nil.
Qed.

(** X2. Once the credential dictionary is built, encoding it cannot fail:
    [generate_payment_header] returns the Base64 text of its JSON text, and
    that text consists of letters of the Base64 alphabet and pad characters
    only and has a length that is a positive multiple of four. *)
Theorem built_header_always_encodes `{Eth} self sys private_key pay_to asset amount
    timeout_seconds token_name token_version h :
  build_payment_header self sys private_key pay_to asset amount timeout_seconds
    token_name token_version = Ok h ->
  exists header_b64,
    generate_payment_header self sys private_key pay_to asset amount
      timeout_seconds token_name token_version = Ok header_b64
    /\ header_b64 = Base64.b64encode (Json.dumps h)
    /\ Forall (fun c => Base64.alphabet c = true) header_b64
    /\ (exists k, length header_b64 = 4 * S k)%nat.
Proof.
  intros Hb. unfold generate_payment_header. rewrite Hb. cbn [mbind result_bind].
  destruct (build_payment_header_shape _ _ _ _ _ _ _ _ _ _ Hb)
    as (f & t & g & a & -> & _).
  set (h := payment_header _ _ _ _ _ _ _ _ _).
  assert (Ha : ascii_text (Json.dumps h)) by apply payment_header_ascii.
  exists (Base64.b64encode (Json.dumps h)).
  unfold encode_header. rewrite Utf8Facts.encode_ascii by done.
  cbn [mbind result_bind].
  rewrite Utf8Facts.decode_ascii by apply Base64Facts.b2a_ascii.
  split; [done|]. split; [done|].
  destruct (b2a_shape _ (Json.dumps h) (le_n _)) as [Hal [k Hk]].
  split; [exact Hal|].
  destruct k as [|k]; [|by exists k].
  exfalso. unfold Base64.b64encode in *.
  assert (E : Json.dumps h = 123%N :: tl (Json.dumps h)) by reflexivity.
  rewrite E in Hk. by destruct (tl (Json.dumps h)) as [|? [|? ?]].
Qed.

Lemma built_header_always_encodes_witness :
  exists h,
    @build_payment_header Demo.eth (init (lit "cronos-testnet")) Demo.clock
      Demo.key Demo.pay_to Demo.usdc (lit "1000000") 300 None None = Ok h
    /\ exists header_b64,
         @generate_payment_header Demo.eth (init (lit "cronos-testnet")) Demo.clock
           Demo.key Demo.pay_to Demo.usdc (lit "1000000") 300 None None
         = Ok header_b64
         /\ header_b64 = Base64.b64encode (Json.dumps h)
         /\ Forall (fun c => Base64.alphabet c = true) header_b64
         /\ (exists k, length header_b64 = 4 * S k)%nat.
Proof.
  eexists. split; [vm_compute; reflexivity|].
  apply (@built_header_always_encodes Demo.eth (init (lit "cronos-testnet"))
           Demo.clock Demo.key Demo.pay_to Demo.usdc (lit "1000000") 300 None None).
  vm_compute. reflexivity.
Defined.

(** *** Characters that the decoder skips *)

Lemma a2b_loop_skips c s2 : Base64.table_a2b c = None -> c <> 61%N ->
  forall s1 qp lc pads,
    Base64.a2b_loop qp lc pads (s1 ++ c :: s2) = Base64.a2b_loop qp lc pads (s1 ++ s2).
Proof.
  intros Hc Hpad. induction s1 as [|x s1 IH]; intros qp lc pads.
  - cbn [app Base64.a2b_loop]. rewrite Hc.
    by rewrite (proj2 (N.eqb_neq c 61) Hpad).
  - cbn [app Base64.a2b_loop]. repeat case_match; try done; by rewrite ?IH.
Qed.

(** X6. [decode_payment_header] does not validate its input as Base64: an
    ASCII character outside the alphabet, anywhere in the text, is skipped,
    so the result is that of the text without it. *)
Theorem decode_skips_foreign_characters s1 c s2 :
  (c < 128)%N -> Base64.alphabet c = false ->
  decode_payment_header (s1 ++ c :: s2) = decode_payment_header (s1 ++ s2).
Proof.
  intros Hc Hal. unfold Base64.alphabet in Hal.
  destruct (Base64.table_a2b c) eqn:Ht; [done|].
  apply N.eqb_neq in Hal.
  unfold decode_payment_header, Base64.b64decode, Base64.ascii_encode.
  rewrite !forallb_app. cbn [forallb].
  rewrite (proj2 (N.ltb_lt c 128) Hc). cbn [andb].
  destruct (forallb _ s1 && forallb _ s2); [|done].
  cbn [mbind result_bind]. unfold Base64.a2b_base64.
  by rewrite a2b_loop_skips.
Qed.

Lemma decode_skips_foreign_characters_witness :
  decode_payment_header (lit "e30" ++ 10%N :: lit "=")
  = decode_payment_header (lit "e30" ++ lit "=").
Proof. by apply decode_skips_foreign_characters. Defined.

End CronosExtra.

(* ===================================================================== *)
(** * More about the safe facade *)
(* ===================================================================== *)

Module FacadeExtra.
Import Facade FacadeProps.

(** X8. When the policy engine returns a result whose [approved] entry is not
    truthy (or is missing), the facade signs nothing: it returns
    [approved = False] with the engine's [reason] (by default
    ["Validation failed"]), the engine's result under [validation], its
    [stages] (by default an empty dictionary), and neither a
    [payment_header] nor an [error] entry. *)
Theorem rejection_yields_no_header `{Cronos.Eth} self sys pay_to asset amount
    context timeout_seconds (h h' : gmap positive dict) validation_result :
  policy_engine self pay_to amount (lit "0x")
    (prepare_context self pay_to asset amount context h).1
    (prepare_context self pay_to asset amount context h).2
  = (h', Ok validation_result) ->
  truthy (dict_get_default validation_result (lit "approved") (VBool false)) = false ->
  exists r,
    generate_safe_payment_header self sys pay_to asset amount context
      timeout_seconds h = (h', Ok r)
    /\ dict_get r (lit "approved") = Some (VBool false)
    /\ dict_get r (lit "payment_header") = None
    /\ dict_get r (lit "error") = None
    /\ dict_get r (lit "reason")
       = Some (default (VStr (lit "Validation failed"))
                 (dict_get validation_result (lit "reason")))
    /\ dict_get r (lit "validation") = Some (VDict validation_result)
    /\ dict_get r (lit "stages")
       = Some (default (VDict []) (dict_get validation_result (lit "stages"))).
Proof.
  intros Hengine Happroved.
  exists (rejected validation_result). split.
  - unfold generate_safe_payment_header.
    destruct (prepare_context self pay_to asset amount context h) as [ctx h1].
    cbn [fst snd] in Hengine. by rewrite Hengine, Happroved.
  - by split_and!.
Qed.

Lemma rejection_yields_no_header_witness :
  exists r,
    @generate_safe_payment_header Demo.eth
      (Demo.safe_facilitator Demo.rejecting_engine Demo.key)
      Demo.clock Demo.pay_to Demo.usdc (lit "1000000") None 300 ∅
    = ({[ 1%positive :=
            context_items (Demo.safe_facilitator Demo.rejecting_engine Demo.key)
              Demo.pay_to Demo.usdc (lit "1000000") ]}, Ok r)
    /\ dict_get r (lit "approved") = Some (VBool false)
    /\ dict_get r (lit "payment_header") = None
    /\ dict_get r (lit "reason") = Some (VStr (lit "Exceeds daily limit")).
Proof.
  destruct (@rejection_yields_no_header Demo.eth
              (Demo.safe_facilitator Demo.rejecting_engine Demo.key)
              Demo.clock Demo.pay_to Demo.usdc (lit "1000000") None 300 ∅
              {[ 1%positive :=
                   context_items
                     (Demo.safe_facilitator Demo.rejecting_engine Demo.key)
                     Demo.pay_to Demo.usdc (lit "1000000") ]}
              [ (lit "approved", VBool false);
                (lit "reason", VStr (lit "Exceeds daily limit")) ])
    as (r & Hr & H1 & H2 & _ & H3 & _).
  - reflexivity.
  - reflexivity.
  - exists r. by split_and!.
Defined.

(** X9. The call of the policy engine stands outside the [try] block: an
    exception that the engine raises leaves [generate_safe_payment_header]
    as it is, not as a result dictionary. *)
Theorem policy_engine_exception_is_not_caught `{Cronos.Eth} self sys pay_to asset
    amount context timeout_seconds (h h' : gmap positive dict) e :
  policy_engine self pay_to amount (lit "0x")
    (prepare_context self pay_to asset amount context h).1
    (prepare_context self pay_to asset amount context h).2
  = (h', Raise e) ->
  generate_safe_payment_header self sys pay_to asset amount context
    timeout_seconds h = (h', Raise e).
Proof.
  intros Hengine. unfold generate_safe_payment_header.
  destruct (prepare_context self pay_to asset amount context h) as [ctx h1].
  cbn [fst snd] in Hengine. by rewrite Hengine.
Qed.

Lemma policy_engine_exception_is_not_caught_witness :
  @generate_safe_payment_header Demo.eth
    (Demo.safe_facilitator Demo.failing_engine Demo.key)
    Demo.clock Demo.pay_to Demo.usdc (lit "1000000") None 300 ∅
  = ({[ 1%positive :=
          context_items (Demo.safe_facilitator Demo.failing_engine Demo.key)
            Demo.pay_to Demo.usdc (lit "1000000") ]},
     raise (OtherError (lit "FileNotFoundError")) "policy.yaml").
Proof.
  apply (@policy_engine_exception_is_not_caught Demo.eth). reflexivity.
Defined.

(** X10. Without a context of the caller, the facade creates a dictionary of
    its own: it is stored at a location that was free, it holds the five
    entries of the payment, and no dictionary that existed before is changed. *)
Theorem missing_context_is_a_new_dictionary self pay_to asset amount
    (h : gmap positive dict) :
  let context := (prepare_context self pay_to asset amount None h).1 in
  let h' := (prepare_context self pay_to asset amount None h).2 in
  h !! context = None
  /\ h' !! context = Some (context_items self pay_to asset amount)
  /\ forall l, l <> context -> h' !! l = h !! l.
Proof.
  cbn zeta. unfold prepare_context. cbn [fst snd].
  set (l := fresh (dom h)).
  assert (Hl : h !! l = None).
  { apply not_elem_of_dom. apply is_fresh. }
  split; [done|]. split.
  - by rewrite lookup_alter_eq, lookup_insert_eq.
  - intros l' Hne. by rewrite lookup_alter_ne, lookup_insert_ne.
Qed.

Lemma safe_header_never_approved_witness :
  exists r,
    @generate_safe_payment_header Demo.eth
      (init Demo.approving_engine Demo.key (lit "cronos-testnet") true true)
      Demo.clock Demo.pay_to Demo.usdc (lit "1000000") None 300 ∅
    = ({[ 1%positive :=
            context_items
              (init Demo.approving_engine Demo.key (lit "cronos-testnet") true true)
              Demo.pay_to Demo.usdc (lit "1000000") ]}, Ok r)
    /\ dict_get r (lit "approved") = Some (VBool false)
    /\ dict_get r (lit "payment_header") = None
    /\ dict_get r (lit "error")
       = Some (VStr (lit "'CronosFacilitator' object has no attribute '_get_account_address'")).
Proof.
  eexists. split; [reflexivity|].
  lazymatch goal with
  | |- dict_get ?r _ = _ /\ _ =>
      destruct (@safe_header_never_approved Demo.eth
                  (init Demo.approving_engine Demo.key (lit "cronos-testnet")
                     true true)
                  Demo.clock Demo.pay_to Demo.usdc (lit "1000000") None 300 ∅ _ r
                  eq_refl) as [H1 H2]
  end.
  split; [exact H1|]. split; [exact H2|reflexivity].
Defined.

End FacadeExtra.

(* ===================================================================== *)
(** * More about the probe and the endpoints *)
(* ===================================================================== *)

Module ProbeExtra.
Import Simulator Api ProbeProps.

Ltac run_probe :=
  unfold simulate_swap, probe, inspect_contract, read_token_info;
  cbn [negb mbind result_bind read_local];
  repeat (match goal with
          | H : ?x = _ |- context [?x] => rewrite H
          end;
          cbn [negb mbind result_bind read_local]).

(** What the probe returns when the metadata can be read. *)
Lemma simulate_swap_readable w token_address rpc_url amount name symbol supply :
  readable w token_address name symbol supply ->
  simulate_swap w token_address rpc_url amount
  = token_info token_address name symbol supply
    ++ (if (supply =? 0)%Z then verdict false false "Token has zero supply" "HIGH"
        else if str_in (lower token_address) known_honeypots
             then verdict true false "Token has transfer restrictions (honeypot)"
                    "HIGH"
             else verdict true true "Token appears to be standard ERC20" "LOW").
Proof.
  intros (Hc & address & code & Ha & Hcode & Hne & Hn & Hs & Ht).
  run_probe. rewrite bool_decide_eq_false_2 by done. run_probe.
  destruct (supply =? 0)%Z; [by vm_compute|].
  destruct (str_in _ _); by vm_compute.
Qed.

(** What the probe returns otherwise. *)
Lemma simulate_swap_not_readable w token_address rpc_url amount :
  (forall name symbol supply, ~ readable w token_address name symbol supply) ->
  (exists error key v,
     simulate_swap w token_address rpc_url amount = unknown error key v
     /\ (key = "rpc_url" \/ key = "token_address")%string)
  \/ simulate_swap w token_address rpc_url amount = not_a_contract token_address.
Proof.
  intros Hnot.
  destruct (is_connected w) as [[]|e] eqn:Hc.
  2:{ left. run_probe. eexists _, _, _. split; [reflexivity|by left]. }
  2:{ left. run_probe. eexists _, _, _. split; [reflexivity|by right]. }
  destruct (to_checksum_address w token_address) as [address|e] eqn:Ha.
  2:{ left. run_probe. eexists _, _, _. split; [reflexivity|by right]. }
  destruct (get_code w address) as [code|e] eqn:Hcode.
  2:{ left. run_probe. eexists _, _, _. split; [reflexivity|by right]. }
  destruct (decide (code = [])) as [->|Hne].
  { right. by run_probe. }
  left. run_probe. rewrite bool_decide_eq_false_2 by done. run_probe.
  destruct (call_name w address) as [name|e] eqn:Hn.
  2:{ run_probe. eexists _, _, _. split; [reflexivity|by right]. }
  destruct (call_symbol w address) as [symbol|e] eqn:Hs.
  2:{ run_probe. eexists _, _, _. split; [reflexivity|by right]. }
  destruct (call_totalSupply w address) as [supply|e] eqn:Ht.
  2:{ run_probe. eexists _, _, _. split; [reflexivity|by right]. }
  exfalso. apply (Hnot name symbol supply).
  split; [done|]. by exists address, code.
Qed.

Lemma readable_or_not w token_address :
  (exists name symbol supply, readable w token_address name symbol supply)
  \/ (forall name symbol supply, ~ readable w token_address name symbol supply).
Proof.
  unfold readable.
  destruct (is_connected w) as [[]|e] eqn:Hc;
    [|right; intros ? ? ? (? & _); congruence..].
  destruct (to_checksum_address w token_address) as [address|e] eqn:Ha;
    [|right; intros ? ? ? (_ & ? & ? & ? & _); congruence].
  destruct (get_code w address) as [code|e] eqn:Hcode;
    [|right; intros ? ? ? (_ & ? & ? & ? & ? & _); congruence].
  destruct (decide (code = [])) as [->|Hne];
    [right; intros ? ? ? (_ & ? & ? & ? & ? & ? & _); congruence|].
  destruct (call_name w address) as [name|e] eqn:Hn;
    [|right; intros ? ? ? (_ & ? & ? & ? & ? & ? & ? & _); congruence].
  destruct (call_symbol w address) as [symbol|e] eqn:Hs;
    [|right; intros ? ? ? (_ & ? & ? & ? & ? & ? & ? & ? & _); congruence].
  destruct (call_totalSupply w address) as [supply|e] eqn:Ht;
    [|right; intros ? ? ? (_ & ? & ? & ? & ? & ? & ? & ? & ?); congruence].
  left. exists name, symbol, supply. split; [done|]. by exists address, code.
Qed.


(** X11. Whatever the chain answers, the result of [simulate_swap] holds a
    [can_buy] and a [can_sell] entry, and the pair is one of: both [None],
    both [False], [True] and [False], both [True]. A result never says that a
    token can be sold but not bought, and it never holds a
    [liquidity_warning] or a [high_slippage] entry. *)
Theorem probe_has_four_outcomes w token_address rpc_url amount :
  let r := simulate_swap w token_address rpc_url amount in
  (dict_get r (lit "can_buy"), dict_get r (lit "can_sell")) ∈ outcomes
  /\ dict_get r (lit "liquidity_warning") = None
  /\ dict_get r (lit "high_slippage") = None.
Proof.
  cbn zeta. unfold outcomes.
  destruct (readable_or_not w token_address) as [(name & symbol & supply & Hr)|Hn].
  - rewrite (simulate_swap_readable _ _ rpc_url amount _ _ _ Hr).
    destruct (supply =? 0)%Z; [|destruct (str_in _ _)];
      (split; [|by vm_compute]); vm_compute dict_get; set_solver.
  - destruct (simulate_swap_not_readable w token_address rpc_url amount Hn)
      as [(error & key & v & -> & [-> | ->])| ->];
      (split; [|by vm_compute]); vm_compute dict_get; set_solver.
Qed.

Lemma can_sell_iff_readable w token_address rpc_url amount :
  let r := simulate_swap w token_address rpc_url amount in
  dict_get r (lit "can_sell") = Some (VBool true)
  <-> exists name symbol supply,
        readable w token_address name symbol supply
        /\ supply <> 0%Z
        /\ lower token_address ∉ known_honeypots.
Proof.
  cbn zeta.
  destruct (readable_or_not w token_address) as [(name & symbol & supply & Hr)|Hn].
  - rewrite (simulate_swap_readable _ _ rpc_url amount _ _ _ Hr). split.
    + intros H. exists name, symbol, supply. split; [done|].
      destruct (Z.eqb_spec supply 0); [by vm_compute in H|].
      unfold str_in in H. destruct (bool_decide_reflect (lower token_address ∈ known_honeypots));
        [by vm_compute in H|done].
    + intros (name' & symbol' & supply' & Hr' & Hz & Hk).
      assert (supply' = supply) as ->.
      { destruct Hr as (_ & a & c & Ha & Hc & _ & _ & _ & Ht).
        destruct Hr' as (_ & a' & c' & Ha' & Hc' & _ & _ & _ & Ht'). congruence. }
      rewrite (proj2 (Z.eqb_neq supply 0) Hz). unfold str_in.
      by rewrite bool_decide_eq_false_2.
  - split.
    + destruct (simulate_swap_not_readable w token_address rpc_url amount Hn)
        as [(error & key & v & -> & [-> | ->])| ->]; by vm_compute.
    + intros (name & symbol & supply & Hr & _). by destruct (Hn name symbol supply).
Qed.

(** X12. [simulate_swap] reports [can_sell = True] exactly when the endpoint
    is connected, the address has code, the three metadata calls return, the
    supply is not zero and the address is not in the honeypot list. In that
    case it also reports [can_buy = True] and the risk ["LOW"]. *)
Theorem tradable_iff_readable w token_address rpc_url amount :
  let r := simulate_swap w token_address rpc_url amount in
  (dict_get r (lit "can_sell") = Some (VBool true)
   <-> exists name symbol supply,
         readable w token_address name symbol supply
         /\ supply <> 0%Z
         /\ lower token_address ∉ known_honeypots)
  /\ (dict_get r (lit "can_sell") = Some (VBool true)
      -> dict_get r (lit "can_buy") = Some (VBool true)
         /\ dict_get r (lit "risk") = Some (VStr (lit "LOW"))).
Proof.
  cbn zeta. split; [apply can_sell_iff_readable|].
  intros H. pose proof H as H'.
  apply can_sell_iff_readable in H' as (name & symbol & supply & Hr & Hz & Hk).
  rewrite (simulate_swap_readable _ _ rpc_url amount _ _ _ Hr) in *.
  rewrite (proj2 (Z.eqb_neq supply 0) Hz) in *. unfold str_in in *.
  rewrite bool_decide_eq_false_2 in * by done. by vm_compute.
Qed.

(** X13. The supply is checked before the honeypot list: a readable token
    with supply zero gets the verdict ["Token has zero supply"], with
    [can_buy] and [can_sell] both [False], whether or not its address is
    listed. *)
Theorem zero_supply_comes_first w token_address rpc_url amount name symbol :
  readable w token_address name symbol 0 ->
  simulate_swap w token_address rpc_url amount
  = token_info token_address name symbol 0
    ++ verdict false false "Token has zero supply" "HIGH".
Proof. intros Hr. by rewrite (simulate_swap_readable _ _ rpc_url amount _ _ _ Hr). Qed.

Lemma zero_supply_comes_first_witness :
  simulate_swap (Demo.token 0)
    (lit "0x6001B76e8CeA99a749F591ed6E1cE7a704CF231b")
    (lit "https://evm-t3.cronos.org") None
  = token_info (lit "0x6001B76e8CeA99a749F591ed6E1cE7a704CF231b")
      (lit "Test Token") (lit "TST") 0
    ++ verdict false false "Token has zero supply" "HIGH".
Proof.
  apply zero_supply_comes_first. split; [reflexivity|].
  by exists (lit "0x6001B76e8CeA99a749F591ed6E1cE7a704CF231b"), [0x60; 0x80; 0x60; 0x40]%N.
Defined.

(** X14. A readable token with a supply other than zero whose address is, up
    to letter case, the listed one gets [can_buy = True], [can_sell = False]
    and the reason ["Token has transfer restrictions (honeypot)"]. *)
Theorem listed_honeypot_is_flagged w token_address rpc_url amount name symbol supply :
  readable w token_address name symbol supply -> supply <> 0%Z ->
  lower token_address = lower (lit "0x6001B76e8CeA99a749F591ed6E1cE7a704CF231b") ->
  simulate_swap w token_address rpc_url amount
  = token_info token_address name symbol supply
    ++ verdict true false "Token has transfer restrictions (honeypot)" "HIGH".
Proof.
  intros Hr Hz Hk. rewrite (simulate_swap_readable _ _ rpc_url amount _ _ _ Hr).
  rewrite (proj2 (Z.eqb_neq supply 0) Hz). unfold str_in.
  rewrite bool_decide_eq_true_2; [done|]. rewrite Hk. unfold known_honeypots.
  apply elem_of_cons. by left.
Qed.

Lemma listed_honeypot_is_flagged_witness :
  simulate_swap (Demo.token 1000)
    (lit "0X6001B76E8CEA99A749F591ED6E1CE7A704CF231B")
    (lit "https://evm-t3.cronos.org") None
  = token_info (lit "0X6001B76E8CEA99A749F591ED6E1CE7A704CF231B")
      (lit "Test Token") (lit "TST") 1000
    ++ verdict true false "Token has transfer restrictions (honeypot)" "HIGH".
Proof.
  apply listed_honeypot_is_flagged; [|done|reflexivity].
  split; [reflexivity|].
  by exists (lit "0X6001B76E8CEA99A749F591ED6E1CE7A704CF231B"), [0x60; 0x80; 0x60; 0x40]%N.
Defined.

(** X15. When the address has code and one of [name()], [symbol()] and
    [totalSupply()] fails, the probe reads the variable [total_supply] that
    was never assigned; the result is the one of the outer handler, with
    [can_buy] and [can_sell] both [None], and its [error] is the message of
    that [UnboundLocalError], not the failure of the call. *)
Theorem failed_metadata_call_is_reported_as_unbound_variable w token_address
    rpc_url amount address code :
  is_connected w = Ok true ->
  to_checksum_address w token_address = Ok address ->
  get_code w address = Ok code -> code <> [] ->
  (forall name symbol supply,
     ~ (call_name w address = Ok name /\ call_symbol w address = Ok symbol
        /\ call_totalSupply w address = Ok supply)) ->
  simulate_swap w token_address rpc_url amount
  = unknown (lit "Contract interaction failed: cannot access local variable 'total_supply' where it is not associated with a value")
      "token_address" token_address.
Proof.
  intros Hc Ha Hcode Hne Hfail. run_probe.
  rewrite bool_decide_eq_false_2 by done. run_probe.
  destruct (call_name w address) as [name|e] eqn:Hn; [|by run_probe].
  destruct (call_symbol w address) as [symbol|e] eqn:Hs; [|by run_probe].
  destruct (call_totalSupply w address) as [supply|e] eqn:Ht; [|by run_probe].
  by destruct (Hfail name symbol supply).
Qed.

Lemma failed_metadata_call_is_reported_as_unbound_variable_witness :
  simulate_swap Demo.unreadable Demo.usdc (lit "https://evm-t3.cronos.org") None
  = unknown (lit "Contract interaction failed: cannot access local variable 'total_supply' where it is not associated with a value")
      "token_address" Demo.usdc.
Proof.
  apply (failed_metadata_call_is_reported_as_unbound_variable Demo.unreadable
           Demo.usdc _ _ Demo.usdc [0x60; 0x80; 0x60; 0x40]%N);
    try reflexivity; [done|].
  by intros name symbol supply (? & _).
Defined.

End ProbeExtra.

Module ApiExtra.
Import Simulator Api ProbeProps ProbeExtra.

Lemma rpc_url_of_normalized w req :
  rpc_url_of w req
  = match assoc (normalized_chain (chain req)) (rpc_urls w) with
    | Some (c :: u) => Some (c :: u)
    | _ => None
    end.
Proof. reflexivity. Qed.

Lemma assoc_rpc_urls w name :
  str_in name supported_chains = false -> assoc name (rpc_urls w) = None.
Proof.
  unfold str_in, supported_chains. intros H. apply bool_decide_eq_false in H.
  unfold rpc_urls. cbn [assoc]. unfold str_eqb.
  repeat (rewrite bool_decide_eq_false_2; [|intros <-; apply H; set_solver]).
  done.
Qed.

(** X16. When the import of the simulator succeeds, a chain that, after
    normalisation, is not a key of [rpc_urls], or whose RPC URL is the empty
    string, makes [/validate-token] answer [is_safe = True] with the risk
    ["UNKNOWN"], without probing the token. *)
Theorem unsupported_chain_is_reported_safe w req :
  import_error w = None ->
  str_in (normalized_chain (chain req)) supported_chains = false
  \/ assoc (normalized_chain (chain req)) (rpc_urls w) = Some [] ->
  validate_token w req = Respond (unsupported (chain req)).
Proof.
  intros Himp H. unfold validate_token, analyze. rewrite Himp, rpc_url_of_normalized.
  destruct H as [H|H]; [rewrite (assoc_rpc_urls _ _ H)|rewrite H]; done.
Qed.

Lemma unsupported_chain_is_reported_safe_witness :
  validate_token Demo.cut_off
    {| token_address := lit "not an address"; chain := lit "Solana";
       amount := None |}
  = Respond (unsupported (lit "Solana")).
Proof. apply unsupported_chain_is_reported_safe; [reflexivity|by left]. Defined.

(** X17. [/validate-token] reads the chain up to letter case and alias
    ([chain_map]), and does not read the amount: two requests for the same
    token whose chains normalise to the same supported name get the same
    answer. *)
Theorem chain_names_are_normalized w token c1 c2 a1 a2 :
  normalized_chain c1 = normalized_chain c2 ->
  rpc_url_of w {| token_address := token; chain := c1; amount := a1 |} <> None ->
  validate_token w {| token_address := token; chain := c1; amount := a1 |}
  = validate_token w {| token_address := token; chain := c2; amount := a2 |}.
Proof.
  intros Hn Hs. unfold validate_token, analyze.
  rewrite !rpc_url_of_normalized in *. cbn [chain token_address amount] in *.
  rewrite <- Hn. by destruct (assoc _ _) as [[|c u]|].
Qed.

Lemma chain_names_are_normalized_witness :
  validate_token (Demo.online 1000)
    {| token_address := Demo.usdc; chain := lit "MATIC"; amount := None |}
  = validate_token (Demo.online 1000)
      {| token_address := Demo.usdc; chain := lit "polygon";
         amount := Some (lit "2.5") |}.
Proof. by apply chain_names_are_normalized. Defined.

(** The response for a result of the probe. *)
Lemma analyze_result w req rpc_url :
  rpc_url_of w req = Some rpc_url ->
  is_address w (token_address req) = true ->
  let result := simulate_swap (rpc_at w rpc_url) (token_address req) rpc_url
                  (amount req) in
  exists r,
    analyze w req = Ok r
    /\ details r = result
    /\ ((dict_get result (lit "can_sell") = Some (VBool true)
         /\ is_safe r = true /\ risk_level r = lit "LOW"
         /\ reason r = lit "Token passed all safety checks"
         /\ can_buy r = Some true /\ can_sell r = Some true)
        \/ (dict_get result (lit "can_sell") <> Some (VBool true)
            /\ is_safe r = false /\ risk_level r = lit "HIGH"
            /\ reason r = lit "Token cannot be sold (honeypot detected)")).
Proof.
  intros Hurl Haddr. cbn zeta. unfold analyze. rewrite Hurl, Haddr. cbn [negb].
  destruct (readable_or_not (rpc_at w rpc_url) (token_address req))
    as [(name & symbol & supply & Hr)|Hn].
  - rewrite (simulate_swap_readable _ _ rpc_url (amount req) _ _ _ Hr).
    destruct (supply =? 0)%Z; [|destruct (str_in _ _)];
      (eexists; split; [vm_compute; reflexivity|]);
      (split; [reflexivity|]);
      first [by left; vm_compute|by right; vm_compute].
  - destruct (simulate_swap_not_readable (rpc_at w rpc_url) (token_address req)
                rpc_url (amount req) Hn)
      as [(error & key & v & -> & [-> | ->])| ->];
      (eexists; split; [vm_compute; reflexivity|]);
      (split; [reflexivity|]); by right; vm_compute.
Qed.

(** X18. Every response of [/validate-token] has the risk level ["LOW"],
    ["HIGH"] or ["UNKNOWN"] (never ["MEDIUM"]), is marked safe exactly when
    the level is not ["HIGH"], and never has the reason
    ["Token cannot be bought"]. The endpoint answers with an HTTP error only
    with status 500, and only when the import of the simulator fails. *)
Theorem risk_level_follows_the_verdict w req :
  match validate_token w req with
  | Respond r =>
      str_in (risk_level r) [lit "LOW"; lit "HIGH"; lit "UNKNOWN"] = true
      /\ is_safe r = negb (str_eqb (risk_level r) (lit "HIGH"))
      /\ reason r <> lit "Token cannot be bought"
  | HTTPException status_code _ => status_code = 500%Z /\ import_error w <> None
  end.
Proof.
  unfold validate_token. destruct (import_error w) eqn:Himp; [done|].
  destruct (rpc_url_of w req) as [rpc_url|] eqn:Hurl.
  2:{ unfold analyze. rewrite Hurl. by vm_compute. }
  destruct (is_address w (token_address req)) eqn:Haddr.
  2:{ unfold analyze. rewrite Hurl, Haddr. by vm_compute. }
  destruct (analyze_result w req rpc_url Hurl Haddr)
    as (r & -> & _ & [(_ & -> & -> & -> & _)|(_ & -> & -> & ->)]); by vm_compute.
Qed.


End ApiExtra.

Module X402Extra.
Import Cronos X402.

(** X20. When the import of the facilitator succeeds, a request to
    [/x402/generate-header] in which [private_key], [pay_to], [asset] or
    [amount] is missing or falsy is answered with
    status 500, not 400: the [HTTPException] with status 400 is raised inside
    the [try] block, whose [except Exception] turns it into status 500 with
    the text of that exception as detail. *)
Theorem missing_field_is_answered_with_500 `{Eth} w request k :
  import_failure w = None ->
  k ∈ ["private_key"; "pay_to"; "asset"; "amount"]%string ->
  truth w (get request k) = false ->
  generate_x402_header w request
  = HTTPException 500 (http_exception_str w 400 missing_fields).
Proof.
  intros Himp Hk Hfalse. unfold generate_x402_header. rewrite Himp.
  replace (forallb _ _) with false; [done|]. symmetry.
  apply not_true_is_false. intros Hall. rewrite forallb_forall in Hall.
  apply list_elem_of_In, Hall in Hk. congruence.
Qed.

Lemma missing_field_is_answered_with_500_witness :
  @generate_x402_header Demo.eth Demo.server
    [ (lit "private_key", VStr Demo.key); (lit "pay_to", VStr Demo.pay_to);
      (lit "asset", VStr Demo.usdc); (lit "amount", VStr []) ]
  = HTTPException 500
      (lit "400: Missing required fields: private_key, pay_to, asset, amount").
Proof.
  apply (@missing_field_is_answered_with_500 Demo.eth Demo.server _ "amount");
    [reflexivity|set_solver|reflexivity].
Defined.

(** X21. When the import of the facilitator succeeds, for a request with
    non-empty string fields [/x402/generate-header] answers with the header
    that the facilitator of the requested network generates, with that
    network, the protocol
    ["eip3009"], and under [decoded] the credential dictionary that the
    header encodes. *)
Theorem reply_decodes_the_generated_header `{Eth} w request private_key pay_to
    asset amount network timeout_seconds header_b64 :
  import_failure w = None ->
  get request "private_key" = VStr private_key -> private_key <> [] ->
  get request "pay_to" = VStr pay_to -> pay_to <> [] ->
  get request "asset" = VStr asset -> asset <> [] ->
  get request "amount" = VStr amount -> amount <> [] ->
  dict_get_default request (lit "network") (VStr (lit "cronos-testnet"))
  = VStr network -> text network ->
  dict_get_default request (lit "timeout_seconds") (VInt 300)
  = VInt timeout_seconds ->
  generate_payment_header (init network) (sys w) private_key pay_to asset amount
    timeout_seconds None None = Ok header_b64 ->
  exists decoded,
    generate_x402_header w request
    = Body [ (lit "payment_header", VStr header_b64);
             (lit "decoded", decoded);
             (lit "network", VStr network);
             (lit "protocol", VStr (lit "eip3009")) ]
    /\ build_payment_header (init network) (sys w) private_key pay_to asset
         amount timeout_seconds None None = Ok decoded
    /\ field decoded "scheme" = Some (VStr (lit "eip3009"))
    /\ field decoded "network" = Some (VStr network).
Proof.
  intros Himp Hk Hk' Hp Hp' Ha Ha' Hm Hm' Hn Tn Ht Hg.
  destruct (CronosExtra.generated_header_decodes (init network) _ _ _ _ _ _ _ _ _
              Tn Hg)
    as (h & Hb & Hd & Hs & Hnet).
  exists h. split; [|done].
  unfold generate_x402_header, facilitate. rewrite Himp.
  cbn [forallb]. rewrite Hk, Hp, Ha, Hm, Hn, Ht. cbn [truth truthy].
  rewrite !bool_decide_eq_false_2 by done. cbn [negb andb].
  rewrite Hg. cbn [mbind result_bind]. by rewrite Hd.
Qed.

Lemma reply_decodes_the_generated_header_witness :
  exists header_b64 decoded,
    @generate_x402_header Demo.eth Demo.server (Demo.body Demo.key)
    = Body [ (lit "payment_header", VStr header_b64);
             (lit "decoded", decoded);
             (lit "network", VStr (lit "cronos-testnet"));
             (lit "protocol", VStr (lit "eip3009")) ]
    /\ @build_payment_header Demo.eth (init (lit "cronos-testnet")) Demo.clock
         Demo.key Demo.pay_to Demo.usdc (lit "1000000") 300 None None
       = Ok decoded
    /\ field decoded "scheme" = Some (VStr (lit "eip3009"))
    /\ field decoded "network" = Some (VStr (lit "cronos-testnet")).
Proof.
  eexists.
  apply (@reply_decodes_the_generated_header Demo.eth Demo.server
           (Demo.body Demo.key) Demo.key Demo.pay_to Demo.usdc (lit "1000000")
           (lit "cronos-testnet") 300);
    first [ reflexivity | discriminate
          | apply Demo.ascii_text_text; vm_compute; repeat constructor
          | vm_compute; reflexivity ].
Defined.

End X402Extra.

(* ===================================================================== *)
(** * The command parser and [execute] *)
(* ===================================================================== *)

Module ReFacts.
Import Re.
Local Open Scope N_scope.

Lemma star_greedy {A} p xs rest (k : str -> option A) r :
  forallb p xs = true -> ends p rest = true -> k rest = Some r ->
  star p (xs ++ rest) k = Some r.
Proof.
  intros Hxs Hrest Hk. induction xs as [|x xs IH].
  - destruct rest as [|c rest]; [done|]. cbn [app star].
    cbn [ends] in Hrest. apply negb_true_iff in Hrest. by rewrite Hrest.
  - cbn [forallb] in Hxs. apply andb_true_iff in Hxs as [Hx Hxs].
    cbn [app star]. by rewrite Hx, (IH Hxs).
Qed.

Lemma plus_greedy {A} p xs rest (k : str -> option A) r :
  xs <> [] -> forallb p xs = true -> ends p rest = true -> k rest = Some r ->
  plus p (xs ++ rest) k = Some r.
Proof.
  intros Hne Hxs Hrest Hk. destruct xs as [|x xs]; [done|].
  cbn [forallb] in Hxs. apply andb_true_iff in Hxs as [Hx Hxs].
  cbn [app plus]. rewrite Hx. by apply star_greedy.
Qed.

(** When the rest of the pattern fails after the whole run but matches
    before its last character, the run gives that character back. *)
Lemma star_gives_back {A} p xs d (k : str -> option A) r :
  forallb p xs = true -> p d = true -> k [] = None -> k [d] = Some r ->
  star p (xs ++ [d]) k = Some r.
Proof.
  intros Hxs Hd Hnil Hk. induction xs as [|x xs IH].
  - cbn [app star]. by rewrite Hd, Hnil.
  - cbn [forallb] in Hxs. apply andb_true_iff in Hxs as [Hx Hxs].
    cbn [app star]. by rewrite Hx, (IH Hxs).
Qed.

Lemma plus_gives_back {A} p xs d (k : str -> option A) r :
  xs <> [] -> forallb p xs = true -> p d = true -> k [] = None -> k [d] = Some r ->
  plus p (xs ++ [d]) k = Some r.
Proof.
  intros Hne Hxs Hd Hnil Hk. destruct xs as [|x xs]; [done|].
  cbn [forallb] in Hxs. apply andb_true_iff in Hxs as [Hx Hxs].
  cbn [app plus]. rewrite Hx. by apply star_gives_back.
Qed.

Lemma take_consumed {A} (xs rest : list A) :
  take (length (xs ++ rest) - length rest) (xs ++ rest) = xs.
Proof.
  rewrite length_app. replace (length xs + length rest - length rest)%nat
    with (length xs) by lia.
  by rewrite take_app_length.
Qed.

Lemma digit_facts d :
  digit d = true ->
  char "." d = false /\ space d = false /\ word d = true /\ (d < 128)%N.
Proof.
  unfold digit, char, space, word. intros H.
  apply andb_true_iff in H as [H1 H2]. apply N.leb_le in H1, H2.
  split_and!.
  - apply bool_decide_eq_false. intros E. vm_compute in E. injection E as ->. lia.
  - apply orb_false_iff. split; apply andb_false_iff.
    + right. apply N.leb_gt. lia.
    + right. apply N.leb_gt. lia.
  - unfold digit. rewrite (proj2 (N.leb_le 48 d) H1), (proj2 (N.leb_le d 57) H2). done.
  - lia.
Qed.

Lemma word_not_space c : word c = true -> space c = false.
Proof.
  unfold word, space, digit. intros H.
  repeat match goal with
         | |- context [(?a <=? ?b)%N] => destruct (N.leb_spec a b)
         | H : context [(?a <=? ?b)%N] |- _ => destruct (N.leb_spec a b)
         | H : context [(?a =? ?b)%N] |- _ => destruct (N.eqb_spec a b)
         end; cbn in *; try done; lia.
Qed.

Lemma word_not_dot c : word c = true -> char "." c = false.
Proof.
  intros H. apply bool_decide_eq_false. intros E. vm_compute in E.
  injection E as ->. by vm_compute in H.
Qed.

Lemma space_not_dot c : space c = true -> char "." c = false.
Proof.
  intros H. apply bool_decide_eq_false. intros E. vm_compute in E.
  injection E as ->. by vm_compute in H.
Qed.

End ReFacts.

Module ParseFacts.
Import Agent Re ReFacts.

Lemma search_unfold r s :
  search r s = match Re.run r s [] (fun _ caps => Some caps) with
               | Some m => Some m
               | None => match s with [] => None | _ :: s' => search r s' end
               end.
Proof. by destruct s. Qed.

Lemma run_seq r1 r2 s caps k :
  Re.run (Seq r1 r2) s caps k
  = Re.run r1 s caps (fun s' caps' => Re.run r2 s' caps' k).
Proof. reflexivity. Qed.

Lemma run_amount_nondigit c s caps k :
  digit c = false -> Re.run amount_pattern (c :: s) caps k = None.
Proof. intros H. unfold amount_pattern. cbn [Re.run plus]. by rewrite H. Qed.

Lemma run_address_nondigit c s caps k :
  digit c = false -> Re.run address_pattern (c :: s) caps k = None.
Proof.
  intros H. unfold address_pattern. cbn [Re.run].
  destruct (char "0" c) eqn:E; [|done].
  apply bool_decide_eq_true in E. vm_compute in E. injection E as ->. done.
Qed.

Lemma search_skip r pre s :
  (forall c t caps k, digit c = false -> Re.run r (c :: t) caps k = None) ->
  digit_free pre = true -> search r (pre ++ s) = search r s.
Proof.
  intros Hr. unfold digit_free. induction pre as [|c pre IH]; [done|].
  cbn [forallb app]. intros H. apply andb_true_iff in H as [Hc H].
  apply negb_true_iff in Hc. rewrite search_unfold, Hr by done. by apply IH.
Qed.

Lemma search_amount_none s :
  digit_free s = true -> search amount_pattern s = None.
Proof.
  intros H. rewrite <- (app_nil_r s).
  rewrite (search_skip _ _ _ run_amount_nondigit H). done.
Qed.

Lemma search_address_none s :
  digit_free s = true -> search address_pattern s = None.
Proof.
  intros H. rewrite <- (app_nil_r s).
  rewrite (search_skip _ _ _ run_address_nondigit H). done.
Qed.

Lemma digits_nonempty ds : digits ds = true -> ds <> [] /\ forallb digit ds = true.
Proof.
  unfold digits. intros H. apply andb_true_iff in H as [H1 H2].
  apply negb_true_iff, bool_decide_eq_false in H1. done.
Qed.

Lemma name_spec tok :
  name tok = true -> tok <> [] /\ forallb word tok = true.
Proof.
  unfold name. intros H. apply andb_true_iff in H as [H1 H2].
  apply negb_true_iff, bool_decide_eq_false in H1. done.
Qed.

Lemma name_head tok :
  name tok = true -> exists x xs, tok = x :: xs /\ word x = true.
Proof.
  intros H. destruct (name_spec _ H) as [Hne Hw]. destruct tok as [|x xs]; [done|].
  cbn [forallb] in Hw. apply andb_true_iff in Hw as [Hx _]. eauto.
Qed.

(** The three parts of the amount pattern, each with the rest of the
    pattern as [k]. *)
Lemma run_name i tok rest caps k r :
  name tok = true -> ends word rest = true ->
  k rest ((i, tok) :: caps) = Some r ->
  Re.run (Group i (Plus word)) (tok ++ rest) caps k = Some r.
Proof.
  intros Ht Hrest Hk. destruct (name_spec _ Ht) as [Hne Hw].
  cbn [Re.run]. apply plus_greedy; [done|done|done|]. by rewrite take_consumed.
Qed.

Lemma run_spaces_name tok rest sp caps k r :
  forallb space sp = true -> name tok = true -> ends word rest = true ->
  k rest ((2%nat, tok) :: caps) = Some r ->
  Re.run (Seq (Star space) (Group 2 (Plus word))) (sp ++ tok ++ rest) caps k
  = Some r.
Proof.
  intros Hsp Ht Hrest Hk. cbn [Re.run]. apply star_greedy; [done| |].
  - destruct (name_head _ Ht) as (x & xs & -> & Hx). cbn [app ends].
    by rewrite (word_not_space _ Hx).
  - by apply (run_name 2).
Qed.

Lemma run_numeral ds frac t caps k r :
  digits ds = true -> fraction frac = true ->
  ends digit t = true -> ends (char ".") t = true ->
  k t ((1%nat, ds ++ frac) :: caps) = Some r ->
  Re.run (Group 1 (Seq (Plus digit) (Opt (Seq (Class (char ".")) (Plus digit)))))
    (ds ++ frac ++ t) caps k = Some r.
Proof.
  intros Hds Hfrac Ht Hdot Hk. destruct (digits_nonempty _ Hds) as [Hne Hd].
  cbn [Re.run]. apply plus_greedy; [done|done| |].
  - destruct frac as [|c fs]; [done|]. cbn [fraction] in Hfrac.
    apply andb_true_iff in Hfrac as [Hc _]. cbn [app ends].
    apply bool_decide_eq_true in Hc. vm_compute in Hc. by injection Hc as ->.
  - destruct frac as [|c fs].
    + cbn [app]. replace (match t with
                          | [] => None
                          | c :: s' => if char "." c then _ else None
                          end) with (@None captures).
      2:{ destruct t as [|c t']; [done|]. cbn [ends] in Hdot.
          apply negb_true_iff in Hdot. by rewrite Hdot. }
      rewrite (take_consumed ds t). by rewrite app_nil_r in Hk.
    + cbn [fraction] in Hfrac. apply andb_true_iff in Hfrac as [Hc Hfs].
      destruct (digits_nonempty _ Hfs) as [Hne' Hd'].
      cbn [app]. rewrite Hc.
      rewrite (plus_greedy digit fs t _ r); [done|done|done|done|].
      replace (ds ++ c :: fs ++ t) with ((ds ++ c :: fs) ++ t)
        by by rewrite <- app_assoc.
      by rewrite take_consumed.
Qed.

(** A numeral, spaces and a name: the first match at this position. *)
Lemma run_amount_found ds frac sp tok rest :
  digits ds = true -> fraction frac = true -> forallb space sp = true ->
  name tok = true -> ends digit (sp ++ tok) = true -> ends word rest = true ->
  Re.run amount_pattern (ds ++ frac ++ sp ++ tok ++ rest) []
    (fun _ caps => Some caps)
  = Some [(2%nat, tok); (1%nat, ds ++ frac)].
Proof.
  intros Hds Hfrac Hsp Ht Hend Hrest. unfold amount_pattern.
  rewrite run_seq.
  destruct (name_head _ Ht) as (x & xs & E & Hx).
  apply (run_numeral ds frac (sp ++ tok ++ rest) [] _ _ Hds Hfrac).
  - subst tok. by destruct sp.
  - subst tok. destruct sp as [|c sp]; cbn [app ends].
    + by rewrite (word_not_dot _ Hx).
    + cbn [forallb] in Hsp. apply andb_true_iff in Hsp as [Hc _].
      by rewrite (space_not_dot _ Hc).
  - by apply run_spaces_name.
Qed.

(** A number at the very end of the text: its last digit is read as the
    name. *)
Lemma run_amount_trailing ds d :
  digits ds = true -> digit d = true ->
  Re.run amount_pattern (ds ++ [d]) [] (fun _ caps => Some caps)
  = Some [(2%nat, [d]); (1%nat, ds)].
Proof.
  intros Hds Hd. destruct (digits_nonempty _ Hds) as [Hne Hx].
  destruct (digit_facts d Hd) as (Hdot & Hsp & Hw & _).
  unfold amount_pattern. cbn [Re.run].
  apply plus_gives_back; [done|done|done|done|].
  rewrite Hdot. cbn [star]. rewrite Hsp. cbn [plus]. rewrite Hw. cbn [star].
  by rewrite (take_consumed ds [d]).
Qed.

Lemma run_amount_single d caps k :
  digit d = true -> Re.run amount_pattern [d] caps k = None.
Proof. intros Hd. unfold amount_pattern. cbn [Re.run plus star]. by rewrite Hd. Qed.

End ParseFacts.

Module AgentExtra.
Import Agent Re ReFacts ParseFacts.

Lemma mentions_two command a b :
  mentions command [a; b]
  = contains (lower command) (lit a) || contains (lower command) (lit b).
Proof. unfold mentions. cbn [existsb]. by rewrite orb_false_r. Qed.

(** *** Commands without a digit *)

Lemma digit_free_parse self command :
  digit_free command = true ->
  _parse_intent self command
  = if mentions command ["send"; "transfer"]%string then
      [ (lit "action", VStr (lit "transfer"));
        (lit "token", VStr (lit "USDC"));
        (lit "amount", VStr (lit "10"));
        (lit "to", VStr (lit "0x742d35Cc6634C0532925a3b844Bc9e7595f0bEb"));
        (lit "from", VStr (lit "0x7BD6Cd1A975438E510e1CC70a815042Bb357B131"));
        (lit "network", VStr (network self)) ]
    else if mentions command ["buy"; "swap"]%string then
      [ (lit "action", VStr (lit "swap"));
        (lit "token", VStr (lit "SCAM"));
        (lit "amount", VStr (lit "100"));
        (lit "from_token", VStr (lit "USDC"));
        (lit "to_token", VStr (lit "SCAM"));
        (lit "network", VStr (network self)) ]
    else
      [ (lit "action", VStr (lit "query"));
        (lit "query", VStr command);
        (lit "network", VStr (network self)) ].
Proof.
  intros Hd. unfold _parse_intent, amount_and_token.
  rewrite !mentions_two, (search_amount_none _ Hd), (search_address_none _ Hd).
  done.
Qed.

(** X22. A command without a digit is parsed with the default values: a
    transfer of ["10"] ["USDC"] to the built-in recipient when it mentions
    [send] or [transfer], otherwise a swap of ["100"] for ["SCAM"] when it
    mentions [buy] or [swap], otherwise a query that holds the command. *)
Theorem digit_free_command_gets_the_defaults self command :
  ascii_text command -> digit_free command = true ->
  _parse_intent self command
  = if mentions command ["send"; "transfer"]%string then
      [ (lit "action", VStr (lit "transfer"));
        (lit "token", VStr (lit "USDC"));
        (lit "amount", VStr (lit "10"));
        (lit "to", VStr (lit "0x742d35Cc6634C0532925a3b844Bc9e7595f0bEb"));
        (lit "from", VStr (lit "0x7BD6Cd1A975438E510e1CC70a815042Bb357B131"));
        (lit "network", VStr (network self)) ]
    else if mentions command ["buy"; "swap"]%string then
      [ (lit "action", VStr (lit "swap"));
        (lit "token", VStr (lit "SCAM"));
        (lit "amount", VStr (lit "100"));
        (lit "from_token", VStr (lit "USDC"));
        (lit "to_token", VStr (lit "SCAM"));
        (lit "network", VStr (network self)) ]
    else
      [ (lit "action", VStr (lit "query"));
        (lit "query", VStr command);
        (lit "network", VStr (network self)) ].
Proof. intros _. apply digit_free_parse. Qed.

Lemma digit_free_command_gets_the_defaults_witness :
  _parse_intent Demo.agent (lit "Buy some tokens for me")
  = [ (lit "action", VStr (lit "swap"));
      (lit "token", VStr (lit "SCAM"));
      (lit "amount", VStr (lit "100"));
      (lit "from_token", VStr (lit "USDC"));
      (lit "to_token", VStr (lit "SCAM"));
      (lit "network", VStr (lit "cronos-testnet")) ].
Proof.
  apply (digit_free_command_gets_the_defaults Demo.agent
           (lit "Buy some tokens for me")).
  - vm_compute. repeat constructor.
  - reflexivity.
Defined.

(** *** The amount and the token *)

Lemma parse_intent_amount self command :
  mentions command ["send"; "transfer"; "buy"; "swap"]%string = true ->
  exists amount token,
    dict_get (_parse_intent self command) (lit "amount")
    = Some (VStr (amount_and_token command amount token).1)
    /\ dict_get (_parse_intent self command) (lit "token")
       = Some (VStr (amount_and_token command amount token).2)
    /\ (amount, token)
       = if mentions command ["send"; "transfer"]%string
         then ("10", "USDC")%string else ("100", "SCAM")%string.
Proof.
  unfold mentions. cbn [existsb]. rewrite !orb_false_r, orb_assoc.
  unfold _parse_intent. intros H.
  destruct (contains (lower command) (lit "send")
            || contains (lower command) (lit "transfer")).
  - exists "10"%string, "USDC"%string. by destruct (amount_and_token _ _ _).
  - cbn [orb] in H. rewrite H.
    exists "100"%string, "SCAM"%string. by destruct (amount_and_token _ _ _).
Qed.

(** X23. In a transfer or swap command whose first digit starts an amount
    (digits, optionally a point and digits), followed by optional white
    space and a whole run of word characters (one that does not start with
    a digit when there is no white space), the parser reads that amount as
    written and the name in upper case. *)
Theorem amount_and_token_are_read self pre ds frac sp tok rest :
  let command := pre ++ ds ++ frac ++ sp ++ tok ++ rest in
  ascii_text command ->
  mentions command ["send"; "transfer"; "buy"; "swap"]%string = true ->
  digit_free pre = true -> digits ds = true -> fraction frac = true ->
  forallb space sp = true -> name tok = true ->
  ends digit (sp ++ tok) = true -> ends word rest = true ->
  dict_get (_parse_intent self command) (lit "amount") = Some (VStr (ds ++ frac))
  /\ dict_get (_parse_intent self command) (lit "token") = Some (VStr (upper tok)).
Proof.
  cbn zeta. intros _ Hm Hpre Hds Hfrac Hsp Htok Hend Hrest.
  destruct (parse_intent_amount self _ Hm) as (amount & token & -> & -> & _).
  unfold amount_and_token.
  rewrite (search_skip _ _ _ run_amount_nondigit Hpre), search_unfold.
  by rewrite run_amount_found.
Qed.

Lemma amount_and_token_are_read_witness :
  dict_get (_parse_intent Demo.agent (lit "Please send 12.50 usdc to Alice"))
    (lit "amount") = Some (VStr (lit "12.50"))
  /\ dict_get (_parse_intent Demo.agent (lit "Please send 12.50 usdc to Alice"))
       (lit "token") = Some (VStr (lit "USDC")).
Proof.
  apply (amount_and_token_are_read Demo.agent (lit "Please send ") (lit "12")
           (lit ".50") (lit " ") (lit "usdc") (lit " to Alice"));
    first [reflexivity | vm_compute; repeat constructor].
Defined.

(** X24. When a transfer or swap command ends with its only number, and the
    number has two digits or more, the pattern gives the last digit to the
    token: the amount is the number without its last digit and the token is
    that digit. *)
Theorem trailing_number_loses_its_last_digit self pre ds d :
  let command := pre ++ ds ++ [d] in
  ascii_text command ->
  mentions command ["send"; "transfer"; "buy"; "swap"]%string = true ->
  digit_free pre = true -> digits ds = true -> digit d = true ->
  dict_get (_parse_intent self command) (lit "amount") = Some (VStr ds)
  /\ dict_get (_parse_intent self command) (lit "token") = Some (VStr [d]).
Proof.
  cbn zeta. intros _ Hm Hpre Hds Hd.
  destruct (parse_intent_amount self _ Hm) as (amount & token & -> & -> & _).
  unfold amount_and_token.
  rewrite (search_skip _ _ _ run_amount_nondigit Hpre), search_unfold.
  rewrite run_amount_trailing by done. cbn [fst snd]. split; [done|].
  unfold group. cbn. unfold upper_char.
  destruct (digit_facts d Hd) as (_ & _ & _ & _).
  unfold digit in Hd. apply andb_true_iff in Hd as [H1 H2]. apply N.leb_le in H1, H2.
  replace (97 <=? d)%N with false by (symmetry; apply N.leb_gt; lia). done.
Qed.

Lemma trailing_number_loses_its_last_digit_witness :
  dict_get (_parse_intent Demo.agent (lit "Send 250")) (lit "amount")
  = Some (VStr (lit "25"))
  /\ dict_get (_parse_intent Demo.agent (lit "Send 250")) (lit "token")
     = Some (VStr (lit "0")).
Proof.
  apply (trailing_number_loses_its_last_digit Demo.agent (lit "Send ") (lit "25")
           48%N);
    first [reflexivity | vm_compute; repeat constructor].
Defined.


(** X25. When a transfer or swap command ends with a single digit and has no
    other digit, the pattern does not match and the parser falls back to the
    default amount and token. *)
Theorem single_trailing_digit_is_ignored self pre d :
  let command := pre ++ [d] in
  ascii_text command ->
  mentions command ["send"; "transfer"; "buy"; "swap"]%string = true ->
  digit_free pre = true -> digit d = true ->
  dict_get (_parse_intent self command) (lit "amount")
  = Some (VStr (if mentions command ["send"; "transfer"]%string
                then lit "10" else lit "100"))
  /\ dict_get (_parse_intent self command) (lit "token")
     = Some (VStr (if mentions command ["send"; "transfer"]%string
                   then lit "USDC" else lit "SCAM")).
Proof.
  cbn zeta. intros _ Hm Hpre Hd.
  destruct (parse_intent_amount self _ Hm) as (amount & token & -> & -> & E).
  unfold amount_and_token.
  rewrite (search_skip _ _ _ run_amount_nondigit Hpre), search_unfold.
  rewrite run_amount_single by done. cbn [search Re.run amount_pattern plus fst snd].
  destruct (mentions _ ["send"; "transfer"]%string); by injection E as -> ->.
Qed.

Lemma single_trailing_digit_is_ignored_witness :
  dict_get (_parse_intent Demo.agent (lit "Send 7")) (lit "amount")
  = Some (VStr (lit "10"))
  /\ dict_get (_parse_intent Demo.agent (lit "Send 7")) (lit "token")
     = Some (VStr (lit "USDC")).
Proof.
  apply (single_trailing_digit_is_ignored Demo.agent (lit "Send ") 55%N);
    first [reflexivity | vm_compute; repeat constructor].
Defined.

(** *** Runs of [execute] *)

Lemma parsed_action_cases self command :
  parsed_action self command
  = VStr (if mentions command ["send"; "transfer"]%string then lit "transfer"
          else if mentions command ["buy"; "swap"]%string then lit "swap"
          else lit "query").
Proof.
  unfold parsed_action, _parse_intent. rewrite !mentions_two.
  destruct (_ || _); [by destruct (amount_and_token _ _ _)|].
  destruct (_ || _); [by destruct (amount_and_token _ _ _)|done].
Qed.

Lemma getitem_action self command :
  getitem (_parse_intent self command) "action" = Ok (parsed_action self command).
Proof.
  unfold parsed_action, getitem, _parse_intent.
  destruct (_ || _); [by destruct (amount_and_token _ _ _)|].
  destruct (_ || _); [by destruct (amount_and_token _ _ _)|done].
Qed.

(** The first two lines of a run. *)
Lemma execute_opening `{Rich} self m command :
  markup_error (command_line command) = None ->
  markup_error (intent_line (parsed_action self command)) = None ->
  execute self m command
  = ([Console (command_line command);
      Console (intent_line (parsed_action self command))]
     ++ (execute_step2 self m command (_parse_intent self command)).1,
     (execute_step2 self m command (_parse_intent self command)).2).
Proof.
  intros H1 H2. unfold execute, console_print_text. rewrite H1, getitem_action.
  cbn [mbind run_bind console_print app]. rewrite H2.
  cbn [mbind run_bind console_print app].
  by destruct (execute_step2 _ _ _ _) as [log [r|e]].
Qed.

(** Carrying out a parsed intent. *)
Lemma step3_parsed self command :
  exists message tx_hash,
    execute_step3 command (_parse_intent self command)
    = ([Console executed_line],
       Ok (executed command (_parse_intent self command) message tx_hash))
    /\ (mentions command ["send"; "transfer"; "buy"; "swap"]%string = false ->
        message = lit "Executed query: " ++ command /\ tx_hash = VNone).
Proof.
  unfold mentions. cbn [existsb]. rewrite !orb_false_r, orb_assoc.
  unfold _parse_intent.
  destruct (contains (lower command) (lit "send")
            || contains (lower command) (lit "transfer")).
  { destruct (amount_and_token _ _ _) as [amount token].
    eexists _, _. split; [vm_compute; reflexivity|done]. }
  cbn [orb].
  destruct (contains (lower command) (lit "buy")
            || contains (lower command) (lit "swap")).
  { destruct (amount_and_token _ _ _) as [amount token].
    eexists _, _. split; [vm_compute; reflexivity|done]. }
  eexists _, _. split; [vm_compute; reflexivity|done].
Qed.

(** X26. With [enable_validation = False], [execute] carries out every
    ASCII command whose two console lines Rich accepts: it writes the
    command line, the intent line and the approval line, invokes no
    validation stage, and returns [approved = True]. *)
Theorem disabled_validation_executes_every_command `{Rich} self m command :
  ascii_text command ->
  enable_validation self = false ->
  markup_error (command_line command) = None ->
  markup_error (intent_line (parsed_action self command)) = None ->
  exists message tx_hash,
    execute self m command
    = ([Console (command_line command);
        Console (intent_line (parsed_action self command));
        Console executed_line],
       Ok (executed command (_parse_intent self command) message tx_hash)).
Proof.
  intros _ Hoff H1 H2. rewrite (execute_opening _ _ _ H1 H2).
  unfold execute_step2. rewrite Hoff.
  destruct (step3_parsed self command) as (message & tx_hash & -> & _).
  by exists message, tx_hash.
Qed.


Lemma disabled_validation_executes_every_command_witness :
  exists message tx_hash,
    @execute Demo.plain (init None (lit "cronos-testnet") false true)
      (@own_methods Demo.whole) (lit "Swap 100 USDC for SCAM")
    = ([Console (command_line (lit "Swap 100 USDC for SCAM"));
        Console (intent_line
                   (parsed_action (init None (lit "cronos-testnet") false true)
                      (lit "Swap 100 USDC for SCAM")));
        Console executed_line],
       Ok (executed (lit "Swap 100 USDC for SCAM")
             (_parse_intent (init None (lit "cronos-testnet") false true)
                (lit "Swap 100 USDC for SCAM")) message tx_hash)).
Proof.
  apply (@disabled_validation_executes_every_command Demo.plain
           (init None (lit "cronos-testnet") false true) (@own_methods Demo.whole)
           (lit "Swap 100 USDC for SCAM"));
    first [reflexivity | vm_compute; repeat constructor].
Defined.

(** Step 2 after a validation that blocked, and after one that approved. *)
Lemma step2_blocked `{Rich} self m command intent log reason stage_failed :
  enable_validation self = true ->
  _validate_with_agentshield self m intent
  = (log, Ok (blocked reason stage_failed)) ->
  markup_error (reason_line (VStr reason)) = None ->
  execute_step2 self m command intent
  = (log ++ [Console blocked_line; Console (reason_line (VStr reason))],
     Ok (refused command intent reason stage_failed)).
Proof.
  intros Hon Hv Hr. unfold execute_step2. rewrite Hon, Hv.
  cbn [mbind run_bind]. change (getitem (blocked reason stage_failed) "approved")
    with (Ok (A:=value) (VBool false)).
  cbn [truthy negb mbind run_bind console_print].
  change (getitem (blocked reason stage_failed) "reason")
    with (Ok (A:=value) (VStr reason)).
  change (getitem (blocked reason stage_failed) "stage_failed")
    with (Ok (A:=value) (VStr stage_failed)).
  unfold console_print_text. rewrite Hr.
  cbn [mbind run_bind console_print mret run_ret app]. done.
Qed.

Lemma step2_approved `{Rich} self m command intent log :
  _validate_with_agentshield self m intent = (log, Ok approved) ->
  execute_step2 self m command intent
  = ((if enable_validation self then log else [])
     ++ (execute_step3 command intent).1,
     (execute_step3 command intent).2).
Proof.
  intros Hv. unfold execute_step2. destruct (enable_validation self).
  - rewrite Hv. cbn [mbind run_bind].
    change (getitem approved "approved") with (Ok (A:=value) (VBool true)).
    cbn [truthy negb]. by destruct (execute_step3 command intent) as [l [r|e]].
  - by destruct (execute_step3 command intent) as [l [r|e]].
Qed.

Lemma validation_events self m intent :
  forallb (fun e => bool_decide (e ∈ pipeline_events))
    (trace (_validate_with_agentshield self m intent)) = true.
Proof. AgentProps.run_cases self m intent; by vm_compute. Qed.

Lemma not_a_pipeline_event self m intent e :
  bool_decide (e ∈ pipeline_events) = false ->
  e ∉ trace (_validate_with_agentshield self m intent).
Proof.
  intros He Hin. pose proof (validation_events self m intent) as H.
  rewrite forallb_forall in H. apply list_elem_of_In, H in Hin. congruence.
Qed.

Lemma execute_blocked `{Rich} self m command reason stage_failed :
  enable_validation self = true ->
  outcome (_validate_with_agentshield self m (_parse_intent self command))
  = Ok (blocked reason stage_failed) ->
  markup_error (command_line command) = None ->
  markup_error (intent_line (parsed_action self command)) = None ->
  markup_error (reason_line (VStr reason)) = None ->
  outcome (execute self m command)
  = Ok (refused command (_parse_intent self command) reason stage_failed)
  /\ Console executed_line ∉ trace (execute self m command).
Proof.
  intros Hon Hv H1 H2 H3.
  pose proof (not_a_pipeline_event self m (_parse_intent self command)
                (Console executed_line) eq_refl) as Hlog.
  destruct (_validate_with_agentshield self m (_parse_intent self command))
    as [log r] eqn:E. cbn [outcome trace fst snd] in Hv, Hlog. subst r.
  rewrite (execute_opening _ _ _ H1 H2).
  rewrite (step2_blocked _ _ _ _ _ _ _ Hon E H3). split; [done|].
  cbn [trace fst app]. intros Hin.
  apply elem_of_cons in Hin as [Hin|Hin]; [by vm_compute in Hin|].
  apply elem_of_cons in Hin as [Hin|Hin].
  { rewrite parsed_action_cases in Hin. injection Hin as Hin.
    revert Hin. by repeat case_match. }
  apply elem_of_app in Hin as [Hin|Hin]; [done|].
  apply elem_of_cons in Hin as [Hin|Hin]; [by vm_compute in Hin|].
  apply elem_of_cons in Hin as [Hin|Hin]; [by vm_compute in Hin|].
  by apply elem_of_nil in Hin.
Qed.


(** X27. When validation refuses an ASCII command, [execute] returns
    [approved = False] with the reason and the stage of the refusal, the
    command and the intent, and the approval line is never written. *)
Theorem blocked_command_is_not_executed `{Rich} self m command reason stage_failed :
  ascii_text command ->
  enable_validation self = true ->
  outcome (_validate_with_agentshield self m (_parse_intent self command))
  = Ok (blocked reason stage_failed) ->
  markup_error (command_line command) = None ->
  markup_error (intent_line (parsed_action self command)) = None ->
  markup_error (reason_line (VStr reason)) = None ->
  outcome (execute self m command)
  = Ok (refused command (_parse_intent self command) reason stage_failed)
  /\ Console executed_line ∉ trace (execute self m command).
Proof. intros _. apply execute_blocked. Qed.

Lemma blocked_command_is_not_executed_witness :
  outcome (@execute Demo.plain Demo.agent (@own_methods Demo.whole)
             (lit "Transfer 500 USDC to Bob"))
  = Ok (refused (lit "Transfer 500 USDC to Bob")
          (_parse_intent Demo.agent (lit "Transfer 500 USDC to Bob"))
          (lit "Transfer amount (500.0 USDC) exceeds policy limit (100)")
          (lit "Policy Validation"))
  /\ Console executed_line
     ∉ trace (@execute Demo.plain Demo.agent (@own_methods Demo.whole)
                (lit "Transfer 500 USDC to Bob")).
Proof.
  apply (@blocked_command_is_not_executed Demo.plain Demo.agent
           (@own_methods Demo.whole) (lit "Transfer 500 USDC to Bob"));
    first [reflexivity | vm_compute; repeat constructor].
Defined.

(** The intent of a command that mentions none of the four words. *)
Lemma parse_query self command :
  mentions command ["send"; "transfer"; "buy"; "swap"]%string = false ->
  _parse_intent self command
  = [ (lit "action", VStr (lit "query"));
      (lit "query", VStr command);
      (lit "network", VStr (network self)) ].
Proof.
  unfold mentions. cbn [existsb]. rewrite !orb_false_r, orb_assoc.
  intros H. apply orb_false_iff in H as [H1 H2].
  unfold _parse_intent. by rewrite H1, H2.
Qed.

Lemma parse_transfer self command :
  mentions command ["send"; "transfer"]%string = true ->
  exists token amount to_address,
    _parse_intent self command
    = [ (lit "action", VStr (lit "transfer"));
        (lit "token", VStr token);
        (lit "amount", VStr amount);
        (lit "to", VStr to_address);
        (lit "from", VStr (lit "0x7BD6Cd1A975438E510e1CC70a815042Bb357B131"));
        (lit "network", VStr (network self)) ].
Proof.
  rewrite mentions_two. intros H. unfold _parse_intent. rewrite H.
  destruct (amount_and_token _ _ _) as [amount token]. by eexists _, _, _.
Qed.

(** An event of a run of [execute] that approved: one of the two opening
    lines, an event of the validation, or the closing line. *)
Lemma approved_trace `{Rich} self m command log e :
  markup_error (command_line command) = None ->
  markup_error (intent_line (parsed_action self command)) = None ->
  _validate_with_agentshield self m (_parse_intent self command)
  = (log, Ok approved) ->
  e ∈ trace (execute self m command) ->
  e = Console (command_line command)
  \/ e = Console (intent_line (parsed_action self command))
  \/ e ∈ log \/ e = Console executed_line.
Proof.
  intros H1 H2 Hv. rewrite (execute_opening _ _ _ H1 H2).
  rewrite (step2_approved _ _ _ _ _ Hv).
  destruct (step3_parsed self command) as (message & tx_hash & -> & _).
  cbn [trace fst app]. intros Hin.
  apply elem_of_cons in Hin as [Hin|Hin]; [by left|].
  apply elem_of_cons in Hin as [Hin|Hin]; [by right; left|].
  apply elem_of_app in Hin as [Hin|Hin].
  - destruct (enable_validation self); [by right; right; left|].
    by apply elem_of_nil in Hin.
  - apply elem_of_cons in Hin as [Hin|Hin]; [by right; right; right|].
    by apply elem_of_nil in Hin.
Qed.

Lemma approved_outcome `{Rich} self m command log :
  markup_error (command_line command) = None ->
  markup_error (intent_line (parsed_action self command)) = None ->
  _validate_with_agentshield self m (_parse_intent self command)
  = (log, Ok approved) ->
  exists message tx_hash,
    outcome (execute self m command)
    = Ok (executed command (_parse_intent self command) message tx_hash)
    /\ (mentions command ["send"; "transfer"; "buy"; "swap"]%string = false ->
        message = lit "Executed query: " ++ command /\ tx_hash = VNone).
Proof.
  intros H1 H2 Hv. rewrite (execute_opening _ _ _ H1 H2).
  rewrite (step2_approved _ _ _ _ _ Hv).
  destruct (step3_parsed self command) as (message & tx_hash & -> & Hq).
  by exists message, tx_hash.
Qed.

(** X28. A command that mentions none of [send], [transfer], [buy] and
    [swap] is a query: [execute] approves it, with the message
    ["Executed query: "] followed by the command and no transaction hash,
    and the honeypot stage is not invoked. *)
Theorem query_is_approved_unchecked `{Rich} `{Float} self command :
  ascii_text command ->
  mentions command ["send"; "transfer"; "buy"; "swap"]%string = false ->
  markup_error (command_line command) = None ->
  markup_error (intent_line (parsed_action self command)) = None ->
  outcome (execute self own_methods command)
  = Ok (executed command (_parse_intent self command)
          (lit "Executed query: " ++ command) VNone)
  /\ Invoke Stage3 ∉ trace (execute self own_methods command).
Proof.
  intros _ Hm H1 H2.
  assert (Hv : exists log,
             _validate_with_agentshield self own_methods (_parse_intent self command)
             = (log, Ok approved) /\ Invoke Stage3 ∉ log).
  { rewrite (parse_query _ _ Hm). destruct self as [k n ev [] []];
      (eexists; split; [vm_compute; reflexivity|]);
      by apply AgentProps.not_in_log; vm_compute. }
  destruct Hv as (log & Hv & Hlog).
  destruct (approved_outcome _ _ _ _ H1 H2 Hv) as (message & tx_hash & -> & Hq).
  destruct (Hq Hm) as [-> ->]. split; [done|].
  intros Hin. apply (approved_trace _ _ _ _ _ H1 H2 Hv) in Hin
    as [Hin|[Hin|[Hin|Hin]]]; done.
Qed.

Lemma query_is_approved_unchecked_witness :
  outcome (@execute Demo.plain Demo.agent (@own_methods Demo.whole)
             (lit "What is my balance?"))
  = Ok (executed (lit "What is my balance?")
          (_parse_intent Demo.agent (lit "What is my balance?"))
          (lit "Executed query: " ++ lit "What is my balance?") VNone)
  /\ Invoke Stage3
     ∉ trace (@execute Demo.plain Demo.agent (@own_methods Demo.whole)
                (lit "What is my balance?")).
Proof.
  apply (@query_is_approved_unchecked Demo.plain Demo.whole Demo.agent
           (lit "What is my balance?"));
    first [reflexivity | vm_compute; repeat constructor].
Defined.

(** X29. A [buy] or [swap] command without a digit (and without [send] or
    [transfer]) is given the default token ["SCAM"], so with validation
    enabled [execute] refuses it at the honeypot stage, whatever token the
    command names. *)
Theorem digit_free_trade_is_blocked `{Rich} `{Float} self command :
  ascii_text command -> digit_free command = true ->
  mentions command ["send"; "transfer"]%string = false ->
  mentions command ["buy"; "swap"]%string = true ->
  enable_validation self = true ->
  markup_error (command_line command) = None ->
  markup_error (intent_line (parsed_action self command)) = None ->
  markup_error
    (reason_line (VStr (lit "Honeypot token detected: SCAM cannot be sold")))
  = None ->
  outcome (execute self own_methods command)
  = Ok (refused command (_parse_intent self command)
          (lit "Honeypot token detected: SCAM cannot be sold")
          (lit "Honeypot Detection"))
  /\ Console executed_line ∉ trace (execute self own_methods command).
Proof.
  intros _ Hd Hm1 Hm2 Hon H1 H2 H3. apply execute_blocked; try done.
  rewrite (digit_free_parse _ _ Hd), Hm1, Hm2.
  by destruct self as [k n ev [] []]; vm_compute.
Qed.

Lemma digit_free_trade_is_blocked_witness :
  outcome (@execute Demo.plain Demo.agent (@own_methods Demo.whole)
             (lit "Buy some ETH for me"))
  = Ok (refused (lit "Buy some ETH for me")
          (_parse_intent Demo.agent (lit "Buy some ETH for me"))
          (lit "Honeypot token detected: SCAM cannot be sold")
          (lit "Honeypot Detection"))
  /\ Console executed_line
     ∉ trace (@execute Demo.plain Demo.agent (@own_methods Demo.whole)
                (lit "Buy some ETH for me")).
Proof.
  apply (@digit_free_trade_is_blocked Demo.plain Demo.whole Demo.agent
           (lit "Buy some ETH for me"));
    first [reflexivity | vm_compute; repeat constructor].
Defined.

(** X30. Without a policy engine ([policy_engine] is [None]) the transfer
    limit is not applied: [execute] approves every transfer command, whatever
    its amount, and the policy stage is not invoked. *)
Theorem no_policy_engine_no_limit `{Rich} `{Float} self command :
  ascii_text command ->
  mentions command ["send"; "transfer"]%string = true ->
  policy_engine self = false ->
  markup_error (command_line command) = None ->
  markup_error (intent_line (parsed_action self command)) = None ->
  (exists message,
     outcome (execute self own_methods command)
     = Ok (executed command (_parse_intent self command) message
             (VStr (lit "0x" ++ repeat 49%N 64))))
  /\ Invoke Stage2 ∉ trace (execute self own_methods command).
Proof.
  intros _ Hm Hpe H1 H2.
  assert (Hv : exists log,
             _validate_with_agentshield self own_methods (_parse_intent self command)
             = (log, Ok approved) /\ Invoke Stage2 ∉ log).
  { destruct (parse_transfer self _ Hm) as (token & amount & to & ->).
    destruct self as [k n ev [] pe]; cbn [policy_engine] in Hpe; subst pe;
      (eexists; split; [vm_compute; reflexivity|]);
      by apply AgentProps.not_in_log; vm_compute. }
  destruct Hv as (log & Hv & Hlog). split.
  - rewrite (execute_opening _ _ _ H1 H2), (step2_approved _ _ _ _ _ Hv).
    destruct (parse_transfer self _ Hm) as (token & amount & to & ->).
    eexists. cbn [outcome snd]. vm_compute. reflexivity.
  - intros Hin. apply (approved_trace _ _ _ _ _ H1 H2 Hv) in Hin
      as [Hin|[Hin|[Hin|Hin]]]; done.
Qed.

Lemma no_policy_engine_no_limit_witness :
  (exists message,
     outcome (@execute Demo.plain (init None (lit "cronos-testnet") true false)
                (@own_methods Demo.whole) (lit "Send 1000000 USDC to Bob"))
     = Ok (executed (lit "Send 1000000 USDC to Bob")
             (_parse_intent (init None (lit "cronos-testnet") true false)
                (lit "Send 1000000 USDC to Bob"))
             message (VStr (lit "0x" ++ repeat 49%N 64))))
  /\ Invoke Stage2
     ∉ trace (@execute Demo.plain (init None (lit "cronos-testnet") true false)
                (@own_methods Demo.whole) (lit "Send 1000000 USDC to Bob")).
Proof.
  apply (@no_policy_engine_no_limit Demo.plain Demo.whole
           (init None (lit "cronos-testnet") true false)
           (lit "Send 1000000 USDC to Bob"));
    first [reflexivity | vm_compute; repeat constructor].
Defined.

End AgentExtra.
